(** * The project analyzer of cofounder: a shallow embedding

    Source: [cofounder/api/src/analyzers/project_analyzer.py], class
    [ProjectAnalyzer].  The analyzer runs four extraction passes over a
    project directory, each mutating a field of the analyzer object, and
    then assembles a blueprint document from the fields.

    The passes are embedded in a state-and-exception monad over the
    analyzer's fields.  The file system ([Project]) and the library
    functions the code calls ([PyLib]: [ast.parse], [ast.unparse],
    [ast.literal_eval], [json.load], [yaml.dump], [repr]) are parameters
    of the embedding. *)

From Stdlib Require Import List String Ascii Bool Arith Lia ZArith DecimalString.
Import ListNotations.
Open Scope string_scope.
Set Warnings "-register-all".

(** ** Python strings

    A [str] is modelled by [string]; each [ascii] stands for the code
    point of the same number (U+0000 to U+00FF). *)

Module PyStr.

(** [sub in s] *)
Fixpoint contains (sub s : string) : bool :=
  String.prefix sub s ||
  match s with
  | EmptyString => false
  | String _ s' => contains sub s'
  end.

(** [s.startswith(pre)] *)
Definition startswith (s pre : string) : bool := String.prefix pre s.

(** [c.isspace()] on U+0000..U+00FF: tab, LF, VT, FF, CR, FS, GS, RS, US,
    space, NEL and the no-break space. *)
Definition isspace (c : ascii) : bool :=
  let n := nat_of_ascii c in
  (Nat.leb 9 n && Nat.leb n 13) || (Nat.leb 28 n && Nat.leb n 32)
  || Nat.eqb n 133 || Nat.eqb n 160.

Fixpoint lstrip (s : string) : string :=
  match s with
  | EmptyString => EmptyString
  | String c s' => if isspace c then lstrip s' else s
  end.

Fixpoint rstrip (s : string) : string :=
  match s with
  | EmptyString => EmptyString
  | String c s' =>
      match rstrip s' with
      | EmptyString => if isspace c then EmptyString else String c EmptyString
      | r => String c r
      end
  end.

(** [s.strip()] *)
Definition strip (s : string) : string := rstrip (lstrip s).

(** Truth value of a [str]: non-empty. *)
Definition truthy (s : string) : bool :=
  match s with EmptyString => false | _ => true end.

(** The lines a text-mode file object yields when iterated: the text is cut
    after each line feed, which stays at the end of its line. *)
Fixpoint readlines (s : string) : list string :=
  match s with
  | EmptyString => []
  | String c s' =>
      if Ascii.eqb c "010"%char then String c EmptyString :: readlines s'
      else match readlines s' with
           | [] => [String c EmptyString]
           | l :: ls => String c l :: ls
           end
  end.

(** [s.rfind(c)]; [None] stands for -1. *)
Fixpoint rfind (c : ascii) (s : string) : option nat :=
  match s with
  | EmptyString => None
  | String a s' =>
      match rfind c s' with
      | Some i => Some (S i)
      | None => if Ascii.eqb a c then Some 0 else None
      end
  end.

(** [s[:i]] and [s[i:]] *)
Fixpoint take (i : nat) (s : string) : string :=
  match i, s with
  | S i', String c s' => String c (take i' s')
  | _, _ => EmptyString
  end.

Fixpoint drop (i : nat) (s : string) : string :=
  match i, s with
  | S i', String _ s' => drop i' s'
  | _, _ => s
  end.

(** The first word of [s.split()]: leading white space is skipped and the
    word runs up to the next white space; [None] when [s.split()] is empty. *)
Fixpoint word (s : string) : string :=
  match s with
  | EmptyString => EmptyString
  | String c s' => if isspace c then EmptyString else String c (word s')
  end.

Definition split_first (s : string) : option string :=
  match lstrip s with
  | EmptyString => None
  | t => Some (word t)
  end.

(** [c.lower()] on U+0000..U+00FF: A-Z and the Latin-1 capitals U+00C0 to
    U+00DE (the multiplication sign U+00D7 apart) move up by 32. *)
Definition lower_char (c : ascii) : ascii :=
  let n := nat_of_ascii c in
  if (Nat.leb 65 n && Nat.leb n 90)
     || (Nat.leb 192 n && Nat.leb n 222 && negb (Nat.eqb n 215))
  then ascii_of_nat (n + 32) else c.

Fixpoint lower (s : string) : string :=
  match s with
  | EmptyString => EmptyString
  | String c s' => String (lower_char c) (lower s')
  end.

End PyStr.

(** ** Python values, dictionaries and exceptions *)

(** The objects the analyzer stores and the blueprint holds.  [POther] is
    any object of another type (a float, a tuple, bytes, ...), known by
    its [repr]. *)
Inductive pyval : Type :=
| PNone
| PBool (b : bool)
| PInt (z : Z)
| PStr (s : string)
| PList (items : list pyval)
| PDict (items : list (string * pyval))
| POther (repr : string).

(** A [dict] with [str] keys, in insertion order. *)
Definition dict : Type := list (string * pyval).

(** [d.get(k)] *)
Fixpoint dict_get (k : string) (d : dict) : option pyval :=
  match d with
  | [] => None
  | (k', v) :: d' => if String.eqb k' k then Some v else dict_get k d'
  end.

(** [d[k] = v]: a key already present keeps its place and takes the new
    value, a new key goes to the end. *)
Fixpoint dict_set (k : string) (v : pyval) (d : dict) : dict :=
  match d with
  | [] => [(k, v)]
  | (k', v') :: d' =>
      if String.eqb k' k then (k', v) :: d' else (k', v') :: dict_set k v d'
  end.

Definition keys (d : dict) : list string := map fst d.

Inductive exn : Type :=
| OSError
| UnicodeDecodeError
| SyntaxError
| JSONDecodeError
| AttributeError
| ValueError
| KeyError
| TypeError
| IndexError.

Inductive result (A : Type) : Type :=
| Ok (x : A)
| Err (e : exn).
Arguments Ok {A} x.
Arguments Err {A} e.

(** ** Syntax trees ([ast]) *)

(** Expressions, as far as the analyzer looks into them: it tests for
    [ast.Name], [ast.Call] and the [attr] field (only [ast.Attribute] has
    one) and reads [id], [func], [args] and [attr]; every other question
    goes to [ast.unparse] or [ast.literal_eval].  [OtherExpr] is any other
    expression, known by its source text. *)
Inductive expr : Type :=
| Name (id : string)
| Attribute (value : expr) (attr : string)
| Call (func : expr) (args : list expr)
| Constant (value : pyval)
| OtherExpr (text : string).

(** Nodes that [ast.walk] can reach a class or function definition
    through.  [OtherNode] is a node of any other class ([If], [Try],
    [ExceptHandler], [AsyncFunctionDef], ...) with its child nodes in
    [ast.iter_child_nodes] order.  Expression children are left out: no
    expression is a [ClassDef] or a [FunctionDef] or contains one, so the
    class and function definitions the walk yields, and their order, are
    the same without them. *)
Inductive node : Type :=
| Module (body : list node)
| ClassDef (name : string) (bases : list expr) (body : list node)
| FunctionDef (name : string) (body : list node) (decorator_list : list expr)
| AnnAssign (target : expr) (annotation : expr)
| OtherNode (children : list node).

Definition iter_child_nodes (n : node) : list node :=
  match n with
  | Module body => body
  | ClassDef _ _ body => body
  | FunctionDef _ body _ => body
  | AnnAssign _ _ => []
  | OtherNode children => children
  end.

Fixpoint node_size (n : node) : nat :=
  let fix sizes (l : list node) : nat :=
    match l with
    | [] => 0
    | c :: l' => node_size c + sizes l'
    end in
  match n with
  | Module body => S (sizes body)
  | ClassDef _ _ body => S (sizes body)
  | FunctionDef _ body _ => S (sizes body)
  | AnnAssign _ _ => 1
  | OtherNode children => S (sizes children)
  end.

Definition total_size (l : list node) : nat :=
  fold_right (fun n acc => node_size n + acc) 0 l.

(** [ast.walk]: breadth first, from a queue.
<<
    todo = deque([node])
    while todo:
        node = todo.popleft()
        todo.extend(iter_child_nodes(node))
        yield node
>>
    Each turn of the loop takes one node off the queue, so the number of
    nodes below the queue bounds the number of turns. *)
Fixpoint walk_todo (fuel : nat) (todo : list node) : list node :=
  match fuel, todo with
  | S fuel', n :: rest => n :: walk_todo fuel' (rest ++ iter_child_nodes n)
  | _, _ => []
  end.

Definition ast_walk (tree : node) : list node :=
  walk_todo (node_size tree) [tree].

(** ** Paths ([pathlib])

    A path below the project directory is the list of its components
    relative to that directory. *)
Definition path : Type := list string.

Module Path.

Definition name (p : path) : string := last p "".

(** [PurePath.suffix] and [PurePath.stem]:
<<
    i = name.rfind('.')
    if 0 < i < len(name) - 1: return name[i:]   # stem: name[:i]
    else: return ''                              # stem: name
>> *)
Definition suffix (p : path) : string :=
  let name := name p in
  match PyStr.rfind "."%char name with
  | Some i =>
      if Nat.ltb 0 i && Nat.ltb i (String.length name - 1)
      then PyStr.drop i name else ""
  | None => ""
  end.

Definition stem (p : path) : string :=
  let name := name p in
  match PyStr.rfind "."%char name with
  | Some i =>
      if Nat.ltb 0 i && Nat.ltb i (String.length name - 1)
      then PyStr.take i name else name
  | None => name
  end.

(** [str(p.relative_to(self.project_path))] *)
Definition relative_str (p : path) : string := String.concat "/" p.

End Path.

(** ** The environment: the file tree and the libraries *)

(** What opening and reading a path gives: no such file; [open] raises
    (a directory, no permission); [open] succeeds and decoding the bytes
    raises; or the decoded text, as [f.read()] returns it. *)
Inductive file_state : Type :=
| Missing
| Unopenable
| Undecodable
| Text (content : string).

Record Project : Type := {
  (** [str(self.project_path)] *)
  project_path : string;
  (** [self.project_path.name] *)
  project_name : string;
  (** [list(self.project_path.glob(pattern))], in the order the file
      system lists the matches *)
  glob : string -> list path;
  file_at : path -> file_state
}.

Record PyLib : Type := {
  (** [ast.parse]; [None] when it raises *)
  ast_parse : string -> option node;
  ast_unparse : expr -> string;
  (** [ast.literal_eval] on a node; [None] when it raises *)
  literal_eval : expr -> option pyval;
  (** [json.loads]; [None] when it raises *)
  json_loads : string -> option pyval;
  yaml_dump : pyval -> string;
  py_repr : pyval -> string
}.

(** ** The analyzer object *)

Record Analyzer : Type := {
  db_schemas : dict;
  api_specs : dict;
  frontend_components : dict;
  dependencies : dict;
  routes : list string
}.

(** [ProjectAnalyzer.__init__] *)
Definition init : Analyzer :=
  {| db_schemas := []; api_specs := []; frontend_components := [];
     dependencies := []; routes := [] |}.

(** ** Mutation and exceptions

    A method of the analyzer is a function from the object's fields to an
    outcome, a value or a raised exception, and the fields it leaves: what
    was stored before an exception stays stored. *)
Definition M (A : Type) : Type := Analyzer -> result A * Analyzer.

Definition ret {A : Type} (x : A) : M A := fun a => (Ok x, a).

Definition raise {A : Type} (e : exn) : M A := fun a => (Err e, a).

Definition bind {A B : Type} (m : M A) (f : A -> M B) : M B :=
  fun a =>
    match m a with
    | (Ok x, a') => f x a'
    | (Err e, a') => (Err e, a')
    end.

Notation "x <- m ;; k" := (bind m (fun x => k))
  (at level 61, m at next level, right associativity).
Notation "m ;; k" := (bind m (fun _ => k))
  (at level 61, right associativity).

Definition lift {A : Type} (r : result A) : M A := fun a => (r, a).

(** [try: m  except: continue], where the [try] statement ends the body of
    the loop, so that [continue] goes where falling through would. *)
Definition try_continue (m : M unit) : M unit :=
  fun a =>
    match m a with
    | (Ok x, a') => (Ok x, a')
    | (Err _, a') => (Ok tt, a')
    end.

(** [for x in l: body] *)
Fixpoint for_each {A : Type} (l : list A) (body : A -> M unit) : M unit :=
  match l with
  | [] => ret tt
  | x :: l' => body x ;; for_each l' body
  end.

(** [self.db_schemas[k] = v] and its siblings; [self.routes.append(r)]. *)
Definition set_db_schema (k : string) (v : pyval) : M unit :=
  fun a =>
    (Ok tt,
     {| db_schemas := dict_set k v (db_schemas a);
        api_specs := api_specs a;
        frontend_components := frontend_components a;
        dependencies := dependencies a;
        routes := routes a |}).

Definition set_api_spec (k : string) (v : pyval) : M unit :=
  fun a =>
    (Ok tt,
     {| db_schemas := db_schemas a;
        api_specs := dict_set k v (api_specs a);
        frontend_components := frontend_components a;
        dependencies := dependencies a;
        routes := routes a |}).

Definition set_frontend_component (k : string) (v : pyval) : M unit :=
  fun a =>
    (Ok tt,
     {| db_schemas := db_schemas a;
        api_specs := api_specs a;
        frontend_components := dict_set k v (frontend_components a);
        dependencies := dependencies a;
        routes := routes a |}).

Definition set_dependency (k : string) (v : pyval) : M unit :=
  fun a =>
    (Ok tt,
     {| db_schemas := db_schemas a;
        api_specs := api_specs a;
        frontend_components := frontend_components a;
        dependencies := dict_set k v (dependencies a);
        routes := routes a |}).

Definition append_route (r : string) : M unit :=
  fun a =>
    (Ok tt,
     {| db_schemas := db_schemas a;
        api_specs := api_specs a;
        frontend_components := frontend_components a;
        dependencies := dependencies a;
        routes := routes a ++ [r] |}).

(** ** The extraction passes *)

Section Passes.

Variable lib : PyLib.
Variable P : Project.

(** A file object: the text its bytes decode to, if they decode. *)
Definition file : Type := option string.

(** [open(p)] *)
Definition open (p : path) : M file :=
  match file_at P p with
  | Missing | Unopenable => raise OSError
  | Undecodable => ret None
  | Text content => ret (Some content)
  end.

(** [f.read()] *)
Definition read (f : file) : M string :=
  match f with
  | Some content => ret content
  | None => raise UnicodeDecodeError
  end.

(** [p.exists()] *)
Definition path_exists (p : path) : bool :=
  match file_at P p with
  | Missing => false
  | _ => true
  end.

(** [ast.parse(src)] *)
Definition parse (src : string) : M node :=
  match ast_parse lib src with
  | Some tree => ret tree
  | None => raise SyntaxError
  end.

(** [str(v)], as an f-string formats a value *)
Definition py_str (v : pyval) : string :=
  match v with
  | PStr s => s
  | _ => py_repr lib v
  end.

(** *** Database schemas *)

Definition model_patterns : list string :=
  ["**/models.py"; "**/models/*.py"; "**/schemas.py"; "**/schemas/*.py";
   "**/migrations/*.py"].

(** [isinstance(base, ast.Name) and base.id in ['Model', 'BaseModel']] *)
Definition is_model_base (base : expr) : bool :=
  match base with
  | Name id => String.eqb id "Model" || String.eqb id "BaseModel"
  | _ => false
  end.

(** The loop over [node.body]: every [AnnAssign] child adds a field;
    [child.target.id] raises when the target is not a [Name]. *)
Fixpoint collect_fields (body : list node) (fields : list pyval)
  : result (list pyval) :=
  match body with
  | [] => Ok fields
  | AnnAssign target annotation :: body' =>
      match target with
      | Name field_name =>
          let field_type := ast_unparse lib annotation in
          collect_fields body'
            (fields ++ [PDict [("name", PStr field_name);
                               ("type", PStr field_type)]])
      | _ => Err AttributeError
      end
  | _ :: body' => collect_fields body' fields
  end.

Definition schema_node (model_file : path) (n : node) : M unit :=
  match n with
  | ClassDef name bases body =>
      if existsb is_model_base bases then
        fields <- lift (collect_fields body []) ;;
        set_db_schema name
          (PDict [("fields", PList fields);
                  ("file", PStr (Path.relative_str model_file))])
      else ret tt
  | _ => ret tt
  end.

Definition schema_file (model_file : path) : M unit :=
  f <- open model_file ;;
  try_continue (
    src <- read f ;;
    tree <- parse src ;;
    for_each (ast_walk tree) (schema_node model_file)).

Definition _find_database_schemas : M unit :=
  let models := flat_map (glob P) model_patterns in
  for_each models schema_file.

(** *** API endpoints *)

Definition api_patterns : list string :=
  ["**/routes.py"; "**/routes/*.py"; "**/views.py"; "**/views/*.py";
   "**/controllers.py"; "**/controllers/*.py"].

Definition route_names : list string :=
  ["route"; "get"; "post"; "put"; "delete"].

(** [any(name in ast.unparse(func) for name in [...])] *)
Definition is_route_callee (func : expr) : bool :=
  existsb (fun name => PyStr.contains name (ast_unparse lib func)) route_names.

(** [decorator.func.attr if hasattr(decorator.func, 'attr') else 'GET'] *)
Definition endpoint_method (func : expr) : string :=
  match func with
  | Attribute _ attr => attr
  | _ => "GET"
  end.

(** [ast.literal_eval(decorator.args[0]) if decorator.args else "/"] *)
Definition endpoint_route (args : list expr) : result pyval :=
  match args with
  | [] => Ok (PStr "/")
  | arg :: _ =>
      match literal_eval lib arg with
      | Some v => Ok v
      | None => Err ValueError
      end
  end.

Definition endpoint_decorator (endpoint_file : path) (name : string)
    (decorator : expr) : M unit :=
  match decorator with
  | Call func args =>
      if is_route_callee func then
        route <- lift (endpoint_route args) ;;
        let method := endpoint_method func in
        set_api_spec (method ++ " " ++ py_str route)
          (PDict [("function", PStr name);
                  ("file", PStr (Path.relative_str endpoint_file))])
      else ret tt
  | _ => ret tt
  end.

Definition endpoint_node (endpoint_file : path) (n : node) : M unit :=
  match n with
  | FunctionDef name _ decorator_list =>
      for_each decorator_list (endpoint_decorator endpoint_file name)
  | _ => ret tt
  end.

Definition endpoint_file_pass (endpoint_file : path) : M unit :=
  f <- open endpoint_file ;;
  try_continue (
    src <- read f ;;
    tree <- parse src ;;
    for_each (ast_walk tree) (endpoint_node endpoint_file)).

Definition _find_api_endpoints : M unit :=
  let endpoints := flat_map (glob P) api_patterns in
  for_each endpoints endpoint_file_pass.

(** *** Frontend components *)

Definition frontend_patterns : list string :=
  ["**/*.tsx"; "**/*.jsx"; "**/*.vue"; "**/routes.ts"; "**/router.ts"].

Definition component_entry (component_file : path) : pyval :=
  PDict [("type", PStr "component");
         ("file", PStr (Path.relative_str component_file))].

Definition component_file_pass (component_file : path) : M unit :=
  let file_ext := Path.suffix component_file in
  if String.eqb file_ext ".tsx" || String.eqb file_ext ".jsx" then
    f <- open component_file ;;
    try_continue (
      content <- read f ;;
      if PyStr.contains "export default" content
         || PyStr.contains "React.FC" content
      then
        let component_name := Path.stem component_file in
        set_frontend_component component_name
          (component_entry component_file) ;;
        if PyStr.contains "Route" content || PyStr.contains "Routes" content
        then append_route (Path.relative_str component_file)
        else ret tt
      else ret tt)
  else if String.eqb file_ext ".vue" then
    f <- open component_file ;;
    try_continue (
      content <- read f ;;
      if PyStr.contains "<template>" content then
        let component_name := Path.stem component_file in
        set_frontend_component component_name
          (component_entry component_file)
      else ret tt)
  else ret tt.

Definition _find_frontend_components : M unit :=
  let components := flat_map (glob P) frontend_patterns in
  for_each components component_file_pass.

(** *** Dependencies *)

Definition package_files : list string :=
  ["package.json"; "requirements.txt"; "pyproject.toml"; "poetry.lock"].

(** [json.load(f)] *)
Definition json_load (f : file) : M pyval :=
  text <- read f ;;
  match json_loads lib text with
  | Some data => ret data
  | None => raise JSONDecodeError
  end.

(** [data.get(k, {})]; only a [dict] has [get] among the values
    [json.load] returns. *)
Definition get_or_empty (data : pyval) (k : string) : M pyval :=
  match data with
  | PDict items =>
      match dict_get k items with
      | Some v => ret v
      | None => ret (PDict [])
      end
  | _ => raise AttributeError
  end.

(** [[line.strip() for line in f if line.strip() and not line.startswith("#")]] *)
Definition requirement_lines (text : string) : list string :=
  map PyStr.strip
    (filter (fun line => PyStr.truthy (PyStr.strip line)
                         && negb (PyStr.startswith line "#"))
       (PyStr.readlines text)).

Definition dependency_file (file_name : string) : M unit :=
  let dep_file : path := [file_name] in
  if path_exists dep_file then
    f <- open dep_file ;;
    if String.eqb file_name "package.json" then
      try_continue (
        data <- json_load f ;;
        deps <- get_or_empty data "dependencies" ;;
        dev_deps <- get_or_empty data "devDependencies" ;;
        set_dependency "npm"
          (PDict [("dependencies", deps); ("devDependencies", dev_deps)]))
    else if String.eqb file_name "requirements.txt" then
      try_continue (
        text <- read f ;;
        set_dependency "pip"
          (PDict [("dependencies",
                   PList (map PStr (requirement_lines text)))]))
    else if String.eqb file_name "pyproject.toml"
            || String.eqb file_name "poetry.lock" then
      try_continue (
        content <- read f ;;
        set_dependency "poetry"
          (PDict [("file", PStr file_name); ("content", PStr content)]))
    else ret tt
  else ret tt.

Definition _find_dependencies : M unit :=
  for_each package_files dependency_file.

(** *** The blueprint *)

(** [spec[k]] *)
Definition subscript (spec : pyval) (k : string) : result pyval :=
  match spec with
  | PDict items =>
      match dict_get k items with
      | Some v => Ok v
      | None => Err KeyError
      end
  | _ => Err TypeError
  end.

(** One item of the [paths] comprehension: [endpoint.split()[0]] first,
    then the value with its two reads of [spec['function']]. *)
Definition path_item (endpoint : string) (spec : pyval) : result pyval :=
  match PyStr.split_first endpoint with
  | None => Err IndexError
  | Some method =>
      match subscript spec "function" with
      | Err e => Err e
      | Ok function =>
          Ok (PDict
                [(PyStr.lower method,
                  PDict
                    [("summary", PStr (py_str function));
                     ("operationId", function);
                     ("responses",
                      PDict
                        [("200",
                          PDict
                            [("description",
                              PStr "Successful response")])])])])
      end
  end.

Fixpoint openapi_paths (items : dict) (paths : dict) : result dict :=
  match items with
  | [] => Ok paths
  | (endpoint, spec) :: items' =>
      match path_item endpoint spec with
      | Ok item => openapi_paths items' (dict_set endpoint item paths)
      | Err e => Err e
      end
  end.

Definition yaml_document (v : pyval) : pyval :=
  PDict [("type", PStr "yaml"); ("content", PStr (yaml_dump lib v))].

Definition blueprint_of (a : Analyzer) (paths : dict) : pyval :=
  PDict
    [("pm.details",
      yaml_document
        (PDict
           [("project_path", PStr (project_path P));
            ("analyzed_at", PStr "auto-generated from existing project")]));
     ("db.schemas", yaml_document (PDict (db_schemas a)));
     ("backend.specifications.openapi",
      PDict
        [("type", PStr "complex");
         ("content",
          PDict
            [("openapi", PStr "3.0.0");
             ("info",
              PDict
                [("title", PStr (project_name P ++ " API"));
                 ("version", PStr "1.0.0")]);
             ("paths", PDict paths)])]);
     ("uxsitemap.structure",
      yaml_document
        (PDict
           [("routes", PList (map PStr (routes a)));
            ("components", PDict (frontend_components a))]));
     ("settings.config.package", yaml_document (PDict (dependencies a)))].

Definition _generate_blueprint : M pyval :=
  fun a =>
    match openapi_paths (api_specs a) [] with
    | Ok paths => (Ok (blueprint_of a paths), a)
    | Err e => (Err e, a)
    end.

Definition analyze : M pyval :=
  _find_database_schemas ;;
  _find_api_endpoints ;;
  _find_frontend_components ;;
  _find_dependencies ;;
  _generate_blueprint.

End Passes.

(** ** A worked environment

    [example_lib] stands for the Python libraries on the inputs of the
    examples below.  [ast.parse] and [json.loads] are tabulated: a text is
    listed with the tree or value CPython returns for it, and a text that
    is not listed does not parse.  [repr] is given on values whose strings
    need no escape, [ast.unparse] on names, attributes, constants and calls
    with positional arguments, [ast.literal_eval] on constants (it raises
    on names, attributes and calls).  [yaml.dump] is replaced by the same
    rendering as [repr]: no statement below reads a rendered text. *)
Module Example.

Fixpoint lookup {A : Type} (k : string) (table : list (string * A))
  : option A :=
  match table with
  | [] => None
  | (k', v) :: table' => if String.eqb k' k then Some v else lookup k table'
  end.

Definition literal (e : expr) : option pyval :=
  match e with
  | Constant v => Some v
  | _ => None
  end.

Fixpoint show (v : pyval) : string :=
  match v with
  | PNone => "None"
  | PBool true => "True"
  | PBool false => "False"
  | PInt z => NilZero.string_of_int (Z.to_int z)
  | PStr s => "'" ++ s ++ "'"
  | PList items => "[" ++ String.concat ", " (map show items) ++ "]"
  | PDict items =>
      "{" ++ String.concat ", "
               (map (fun '(k, x) => "'" ++ k ++ "': " ++ show x) items)
          ++ "}"
  | POther repr => repr
  end.

Fixpoint unparse (e : expr) : string :=
  match e with
  | Name id => id
  | Attribute value attr => unparse value ++ "." ++ attr
  | Call func args =>
      unparse func ++ "(" ++ String.concat ", " (map unparse args) ++ ")"
  | Constant v => show v
  | OtherExpr text => text
  end.

Definition example_lib (sources : list (string * node))
    (documents : list (string * pyval)) : PyLib :=
  {| ast_parse := fun src => lookup src sources;
     ast_unparse := unparse;
     literal_eval := literal;
     json_loads := fun text => lookup text documents;
     yaml_dump := show;
     py_repr := show |}.

(** A project given by its glob results and its files. *)
Definition project (globs : list (string * list path))
    (files : list (string * file_state)) : Project :=
  {| project_path := "/srv/shop";
     project_name := "shop";
     glob := fun pattern =>
               match lookup pattern globs with
               | Some paths => paths
               | None => []
               end;
     file_at := fun p =>
                  match lookup (Path.relative_str p) files with
                  | Some st => st
                  | None => Missing
                  end |}.

Definition nl : string := String "010" EmptyString.

End Example.

(** ** Worked projects *)

Module Shop.
Import Example.

(** A frontend tree: [src/App.tsx] exports a component and mentions
    [Routes]; [src/Nav.tsx] mentions [Route] and has neither
    [export default] nor [React.FC]; [src/routes.ts] is matched by the
    pattern [**/routes.ts]. *)
Definition frontend : Project :=
  project
    [("**/*.tsx", [["src"; "App.tsx"]; ["src"; "Nav.tsx"]]);
     ("**/routes.ts", [["src"; "routes.ts"]])]
    [("src/App.tsx",
      Text "export default function App() { return <Routes/> }");
     ("src/Nav.tsx", Text "const link = <Route path=home />");
     ("src/routes.ts", Text "export default [Route]")].

End Shop.

Module Bare.

(** A directory in which nothing matches: no glob result, no package file. *)
Definition empty : Project := Example.project [] [].

End Bare.

Module Pinned.
Import Example.

(** A Python project root with [requirements.txt], [pyproject.toml] and
    [poetry.lock].  The second line of [requirements.txt] is an indented
    comment. *)
Definition requirements : string :=
  "flask==2.0" ++ nl ++ "  # pinned" ++ nl ++ "# tools" ++ nl ++ nl
  ++ " requests " ++ nl.

Definition root : Project :=
  project []
    [("requirements.txt", Text requirements);
     ("pyproject.toml", Text "[tool.poetry]");
     ("poetry.lock", Text "# generated by poetry")].

End Pinned.

(** ** The claims that fail, as stated *)

Module Stated.

(** The lines of [requirements.txt] to keep, in the words of the
    specification: those that are not empty once trimmed and whose trimmed
    form does not start with [#], each trimmed. *)
Definition trimmed_requirement_lines (text : string) : list string :=
  map PyStr.strip
    (filter (fun line => PyStr.truthy (PyStr.strip line)
                         && negb (PyStr.startswith (PyStr.strip line) "#"))
       (PyStr.readlines text)).

Definition pip_holds_trimmed_lines (lib : PyLib) (P : Project) : Prop :=
  forall text a a',
    file_at P ["requirements.txt"] = Text text ->
    _find_dependencies lib P a = (Ok tt, a') ->
    dict_get "pip" (dependencies a') =
      Some (PDict [("dependencies",
                    PList (map PStr (trimmed_requirement_lines text)))]).

(** Every [.tsx] or [.jsx] file whose text contains [Route] or [Routes]
    is in the route list after the frontend pass. *)
Definition route_files_listed (P : Project) : Prop :=
  forall p content a a',
    In p (flat_map (glob P) frontend_patterns) ->
    Path.suffix p = ".tsx" \/ Path.suffix p = ".jsx" ->
    file_at P p = Text content ->
    PyStr.contains "Route" content = true
    \/ PyStr.contains "Routes" content = true ->
    _find_frontend_components P a = (Ok tt, a') ->
    In (Path.relative_str p) (routes a').

(** Every function definition with a route decorator has an endpoint
    entry after the endpoint pass. *)
Definition route_decorators_recorded (lib : PyLib) (P : Project) : Prop :=
  forall f src tree name body ds func args a a',
    In f (flat_map (glob P) api_patterns) ->
    file_at P f = Text src ->
    ast_parse lib src = Some tree ->
    In (FunctionDef name body ds) (ast_walk tree) ->
    In (Call func args) ds ->
    is_route_callee lib func = true ->
    _find_api_endpoints lib P a = (Ok tt, a') ->
    exists key,
      dict_get key (api_specs a') =
        Some (PDict [("function", PStr name);
                     ("file", PStr (Path.relative_str f))]).

(** A decorator whose callee's text contains [get], called on ["/users"],
    puts its function under the key [GET /users]. *)
Definition get_users_keyed_upper (lib : PyLib) (P : Project) : Prop :=
  forall f src tree name body ds func args a a',
    In f (flat_map (glob P) api_patterns) ->
    file_at P f = Text src ->
    ast_parse lib src = Some tree ->
    In (FunctionDef name body ds) (ast_walk tree) ->
    In (Call func args) ds ->
    PyStr.contains "get" (ast_unparse lib func) = true ->
    endpoint_route lib args = Ok (PStr "/users") ->
    _find_api_endpoints lib P a = (Ok tt, a') ->
    dict_get "GET /users" (api_specs a') =
      Some (PDict [("function", PStr name);
                   ("file", PStr (Path.relative_str f))]).

(** Running [analyze] again on the same analyzer over the same tree gives
    the same records, the same route list and the same document. *)
Definition rerun_identical (lib : PyLib) (P : Project) : Prop :=
  forall blueprint1 a1 blueprint2 a2,
    analyze lib P init = (Ok blueprint1, a1) ->
    analyze lib P a1 = (Ok blueprint2, a2) ->
    db_schemas a2 = db_schemas a1
    /\ api_specs a2 = api_specs a1
    /\ frontend_components a2 = frontend_components a1
    /\ dependencies a2 = dependencies a1
    /\ routes a2 = routes a1
    /\ blueprint2 = blueprint1.

End Stated.

(** ** Reasoning about the passes *)

(** [I] survives [m], however [m] ends. *)
Definition preserves {A : Type} (I : Analyzer -> Prop) (m : M A) : Prop :=
  forall a r a', m a = (r, a') -> I a -> I a'.

(** What the frontend pass never undoes: a component entry under a name,
    and a path in the route list. *)
Definition is_component (k : string) (a : Analyzer) : Prop :=
  exists p, dict_get k (frontend_components a) = Some (component_entry p).

Definition is_route (r : string) (a : Analyzer) : Prop := In r (routes a).

(** The schema pass and the endpoint pass share their shape: open the
    file, and under [try] read it, parse it and visit every node of the
    walk. *)
Section TreePassShape.

Variable lib : PyLib.
Variable P : Project.
Variable visit : path -> node -> M unit.

Definition tree_file_pass (f : path) : M unit :=
  h <- open P f ;;
  try_continue (
    src <- read h ;;
    tree <- parse lib src ;;
    for_each (ast_walk tree) (visit f)).

(** The nodes a pass over [files] visits. *)
Definition visited (files : list path) (f : path) (n : node) : Prop :=
  In f files /\
  exists src tree,
    file_at P f = Text src /\ ast_parse lib src = Some tree /\
    In n (ast_walk tree).

End TreePassShape.

(** *** Schemas *)

(** A schema entry under a class name. *)
Definition is_schema (name : string) (a : Analyzer) : Prop :=
  exists fields file,
    dict_get name (db_schemas a) =
      Some (PDict [("fields", PList fields); ("file", PStr file)]).

(** The visit of a node by the schema pass does not raise: in a model
    class, every annotated assignment of the body targets a plain name. *)
Definition schema_node_evaluates (lib : PyLib) (n : node) : bool :=
  match n with
  | ClassDef _ bases body =>
      if existsb is_model_base bases then
        match collect_fields lib body [] with
        | Ok _ => true
        | Err _ => false
        end
      else true
  | _ => true
  end.

(** A valid model file, as the pass meets it: it opens, decodes and parses,
    and no visit of its walk raises. *)
Definition valid_model_file (lib : PyLib) (P : Project) (f : path)
    (tree : node) : Prop :=
  (exists src, file_at P f = Text src /\ ast_parse lib src = Some tree)
  /\ forallb (schema_node_evaluates lib) (ast_walk tree) = true.

Module Models.
Import Example.

(** Two model files: [app/models.py] defines
    [class Widget(Model): name: str], and [app/models/broken.py] has a
    syntax error. *)
Definition widget_src : string :=
  "class Widget(Model):" ++ nl ++ "    name: str" ++ nl.

Definition widget_tree : node :=
  Module [ClassDef "Widget" [Name "Model"]
            [AnnAssign (Name "name") (Name "str")]].

Definition broken_src : string := "class Gadget(Model:" ++ nl.

Definition lib : PyLib := example_lib [(widget_src, widget_tree)] [].

Definition tree : Project :=
  project
    [("**/models.py", [["app"; "models.py"]]);
     ("**/models/*.py", [["app"; "models"; "broken.py"]])]
    [("app/models.py", Text widget_src);
     ("app/models/broken.py", Text broken_src)].

End Models.

(** *** Endpoints *)

Definition endpoint_entry (name file : string) : pyval :=
  PDict [("function", PStr name); ("file", PStr file)].

(** The key a route decorator writes to: [f"{method} {route}"]. *)
Definition endpoint_key (lib : PyLib) (func : expr) (route : pyval) : string :=
  endpoint_method func ++ " " ++ py_str lib route.

(** An endpoint entry under a key. *)
Definition has_endpoint (key : string) (a : Analyzer) : Prop :=
  exists name file, dict_get key (api_specs a) = Some (endpoint_entry name file).

(** The visit of a decorator, and of a node, by the endpoint pass does not
    raise: a route decorator has no positional argument, or a first one
    that [ast.literal_eval] accepts. *)
Definition decorator_evaluates (lib : PyLib) (d : expr) : bool :=
  match d with
  | Call func args =>
      if is_route_callee lib func then
        match endpoint_route lib args with
        | Ok _ => true
        | Err _ => false
        end
      else true
  | _ => true
  end.

Definition endpoint_node_evaluates (lib : PyLib) (n : node) : bool :=
  match n with
  | FunctionDef _ _ decorator_list =>
      forallb (decorator_evaluates lib) decorator_list
  | _ => true
  end.

(** The route decorators a pass over [files] meets: on function [name] of
    file [f], with callee [func] and path [route]. *)
Definition route_decorator (lib : PyLib) (P : Project) (files : list path)
    (f : path) (name : string) (func : expr) (route : pyval) : Prop :=
  exists body ds args,
    visited lib P files f (FunctionDef name body ds) /\
    In (Call func args) ds /\
    is_route_callee lib func = true /\
    endpoint_route lib args = Ok route.

(** No route decorator of another function or file writes to [key]. *)
Definition sole_writer (lib : PyLib) (P : Project) (files : list path)
    (key name file : string) : Prop :=
  forall f' name' func' route',
    route_decorator lib P files f' name' func' route' ->
    endpoint_key lib func' route' = key ->
    name' = name /\ Path.relative_str f' = file.

Module Api.
Import Example.

(** [api/routes.py] holds [list_users] under [@app.get("/users")];
    [api/views.py] holds [show_user] under [@app.get(USER_PATH)], whose
    argument is a name. *)
Definition routes_src : string :=
  "@app.get('/users')" ++ nl ++ "def list_users():" ++ nl ++ "    pass" ++ nl.

Definition routes_tree : node :=
  Module
    [FunctionDef "list_users" [OtherNode []]
       [Call (Attribute (Name "app") "get") [Constant (PStr "/users")]]].

Definition views_src : string :=
  "@app.get(USER_PATH)" ++ nl ++ "def show_user():" ++ nl ++ "    pass" ++ nl.

Definition views_tree : node :=
  Module
    [FunctionDef "show_user" [OtherNode []]
       [Call (Attribute (Name "app") "get") [Name "USER_PATH"]]].

Definition lib : PyLib :=
  example_lib [(routes_src, routes_tree); (views_src, views_tree)] [].

Definition tree : Project :=
  project
    [("**/routes.py", [["api"; "routes.py"]]);
     ("**/views.py", [["api"; "views.py"]])]
    [("api/routes.py", Text routes_src); ("api/views.py", Text views_src)].

End Api.

(** *** What a pass does to the analyzer

    No pass reads the analyzer: each only stores under keys and appends to
    the route list.  An [effect] lists the stores and the appended routes
    in order. *)
Record effect : Type := {
  to_db_schemas : list (string * pyval);
  to_api_specs : list (string * pyval);
  to_frontend_components : list (string * pyval);
  to_dependencies : list (string * pyval);
  to_routes : list string
}.

Definition no_effect : effect :=
  {| to_db_schemas := []; to_api_specs := []; to_frontend_components := [];
     to_dependencies := []; to_routes := [] |}.

Definition then_effect (e1 e2 : effect) : effect :=
  {| to_db_schemas := to_db_schemas e1 ++ to_db_schemas e2;
     to_api_specs := to_api_specs e1 ++ to_api_specs e2;
     to_frontend_components :=
       to_frontend_components e1 ++ to_frontend_components e2;
     to_dependencies := to_dependencies e1 ++ to_dependencies e2;
     to_routes := to_routes e1 ++ to_routes e2 |}.

Definition store_all (writes : list (string * pyval)) (d : dict) : dict :=
  fold_left (fun d kv => dict_set (fst kv) (snd kv) d) writes d.

Definition run_effect (e : effect) (a : Analyzer) : Analyzer :=
  {| db_schemas := store_all (to_db_schemas e) (db_schemas a);
     api_specs := store_all (to_api_specs e) (api_specs a);
     frontend_components :=
       store_all (to_frontend_components e) (frontend_components a);
     dependencies := store_all (to_dependencies e) (dependencies a);
     routes := routes a ++ to_routes e |}.

(** [m] ends the same way and has the same effect from every analyzer. *)
Definition uniform {A : Type} (m : M A) : Prop :=
  exists (r : result A) (e : effect), forall a, m a = (r, run_effect e a).

(** The value under [k] after a list of stores, from the value before. *)
Definition last_store (k : string) (writes : list (string * pyval))
    (before : option pyval) : option pyval :=
  fold_left (fun acc kv => if String.eqb (fst kv) k then Some (snd kv) else acc)
    writes before.

(** Two trees that look the same to the analyzer. *)
Definition same_tree (P1 P2 : Project) : Prop :=
  project_path P1 = project_path P2
  /\ project_name P1 = project_name P2
  /\ (forall pattern, glob P1 pattern = glob P2 pattern)
  /\ (forall p, file_at P1 p = file_at P2 p).

(** The four passes of [analyze], before the blueprint is assembled. *)
Definition extraction (lib : PyLib) (P : Project) : M unit :=
  _find_database_schemas lib P ;;
  _find_api_endpoints lib P ;;
  _find_frontend_components P ;;
  _find_dependencies lib P.

Module Locked.
Import Example.

(** A tree in which each pass meets a path that [open] refuses (a
    directory, or a file without read permission) before a sibling it
    could process: [admin/models.py] before [app/models.py],
    [admin/routes.py] before [api/routes.py], [src/Secret.tsx] before
    [src/App.tsx], and [pyproject.toml] before [poetry.lock]. *)
Definition lib : PyLib :=
  example_lib
    [(Models.widget_src, Models.widget_tree);
     (Api.routes_src, Api.routes_tree)]
    [].

Definition tree : Project :=
  project
    [("**/models.py", [["admin"; "models.py"]; ["app"; "models.py"]]);
     ("**/routes.py", [["admin"; "routes.py"]; ["api"; "routes.py"]]);
     ("**/*.tsx", [["src"; "Secret.tsx"]; ["src"; "App.tsx"]])]
    [("admin/models.py", Unopenable);
     ("app/models.py", Text Models.widget_src);
     ("admin/routes.py", Unopenable);
     ("api/routes.py", Text Api.routes_src);
     ("src/Secret.tsx", Unopenable);
     ("src/App.tsx",
      Text "export default function App() { return <Routes/> }");
     ("pyproject.toml", Unopenable);
     ("poetry.lock", Text "# generated by poetry")].

End Locked.

(** ** Further worked projects *)

Module Node.
Import Example.

(** A root with a [package.json] that lists one dependency, [x] at
    [1.0], and no [devDependencies], and a [pyproject.toml] without
    [poetry.lock].  [q] is the double quote. *)
Definition q : string := String "034" EmptyString.

Definition package_src : string :=
  "{" ++ q ++ "dependencies" ++ q ++ ": {" ++ q ++ "x" ++ q ++ ": "
      ++ q ++ "1.0" ++ q ++ "}}".

Definition package_value : pyval :=
  PDict [("dependencies", PDict [("x", PStr "1.0")])].

Definition lib : PyLib :=
  example_lib [] [(package_src, package_value); ("[1, 2]", PList [PInt 1; PInt 2])].

Definition root : Project :=
  project []
    [("package.json", Text package_src);
     ("pyproject.toml", Text "[tool.poetry]")].

(** The same root with a [package.json] that holds a list. *)
Definition list_root : Project :=
  project []
    [("package.json", Text "[1, 2]");
     ("pyproject.toml", Text "[tool.poetry]")].

End Node.

(** ** Further notions *)

(** [m] leaves a field of the analyzer as it found it, however it ends. *)
Definition leaves {X : Type} (field : Analyzer -> X) (m : M unit) : Prop :=
  forall a r a', m a = (r, a') -> field a' = field a.

(** Two passes that both return can be run in either order. *)
Definition commute (m1 m2 : M unit) : Prop :=
  forall a,
    fst (m1 a) = Ok tt -> fst (m2 a) = Ok tt ->
    (m1 ;; m2) a = (m2 ;; m1) a.

(** A file the frontend pass appends to the route list: a [.tsx] or
    [.jsx] file whose text marks a component and contains [Route]. *)
Definition router_file (P : Project) (p : path) : Prop :=
  (Path.suffix p = ".tsx" \/ Path.suffix p = ".jsx")
  /\ exists content,
       file_at P p = Text content
       /\ (PyStr.contains "export default" content = true
           \/ PyStr.contains "React.FC" content = true)
       /\ PyStr.contains "Route" content = true.

(** A file the frontend pass records as a component. *)
Definition component_file (P : Project) (p : path) : Prop :=
  exists content,
    file_at P p = Text content
    /\ (((Path.suffix p = ".tsx" \/ Path.suffix p = ".jsx")
         /\ (PyStr.contains "export default" content = true
             \/ PyStr.contains "React.FC" content = true))
        \/ (Path.suffix p = ".vue"
            /\ PyStr.contains "<template>" content = true)).

Module Twins.
Import Example.

(** Two components with the same file name in two directories, and a Vue
    component. *)
Definition tree : Project :=
  project
    [("**/*.tsx", [["src"; "a"; "Index.tsx"]; ["src"; "b"; "Index.tsx"]]);
     ("**/*.vue", [["src"; "Card.vue"]])]
    [("src/a/Index.tsx", Text "export default function A() {}");
     ("src/b/Index.tsx", Text "const B: React.FC = () => <Route />");
     ("src/Card.vue", Text "<template><Route /></template>")].

End Twins.

(** The nodes of a tree: the tree itself and, through child nodes, all
    that is nested in it. *)
Inductive descendant : node -> node -> Prop :=
| descendant_self (n : node) : descendant n n
| descendant_child (n c m : node) :
    In c (iter_child_nodes n) -> descendant c m -> descendant n m.

(** The model classes a schema pass over [files] meets. *)
Definition model_class (lib : PyLib) (P : Project) (files : list path)
    (name : string) : Prop :=
  exists f bases body,
    visited lib P files f (ClassDef name bases body)
    /\ existsb is_model_base bases = true.

(** The field a statement of a class body gives: one for an annotated
    assignment to a name, none for anything else. *)
Definition annotated_field (lib : PyLib) (child : node) : list pyval :=
  match child with
  | AnnAssign (Name field_name) annotation =>
      [PDict [("name", PStr field_name);
              ("type", PStr (ast_unparse lib annotation))]]
  | _ => []
  end.

Module Mixed.
Import Example.

(** [shop/models.py] with three model classes, the second of which
    annotates an attribute ([self.price: int]), and with a model class
    nested in a function. *)
Definition src : string :=
  "class A(Model): x: int" ++ nl ++ "class B(Model): self.price: int" ++ nl
  ++ "class C(Model): z: int" ++ nl.

Definition parsed : node :=
  Module
    [ClassDef "A" [Name "Model"] [AnnAssign (Name "x") (Name "int")];
     ClassDef "B" [Name "Model"]
       [AnnAssign (Attribute (Name "self") "price") (Name "int")];
     ClassDef "C" [Name "Model"] [AnnAssign (Name "z") (Name "int")]].

Definition nested_src : string :=
  "def make():" ++ nl ++ "    class Inner(BaseModel):" ++ nl
  ++ "        id: int" ++ nl ++ "        label = None" ++ nl.

Definition nested_parsed : node :=
  Module
    [FunctionDef "make"
       [ClassDef "Inner" [Name "BaseModel"]
          [AnnAssign (Name "id") (Name "int"); OtherNode []]]
       []].

Definition lib : PyLib :=
  example_lib [(src, parsed); (nested_src, nested_parsed)] [].

Definition tree : Project :=
  project
    [("**/models.py", [["shop"; "models.py"]]);
     ("**/schemas.py", [["shop"; "schemas.py"]])]
    [("shop/models.py", Text src); ("shop/schemas.py", Text nested_src)].

End Mixed.

(** [m] raises nothing but exceptions in [E]. *)
Definition only_raises {A : Type} (E : exn -> Prop) (m : M A) : Prop :=
  forall a e a', m a = (Err e, a') -> E e.

(** The attribute names of the route decorators the endpoint pass meets
    are not blank (the parser only gives identifiers). *)
Definition attributes_are_words (lib : PyLib) (P : Project) : Prop :=
  forall f name value attr route,
    route_decorator lib P (flat_map (glob P) api_patterns) f name
      (Attribute value attr) route ->
    PyStr.lstrip attr <> "".

(** Every endpoint key has a first word and every endpoint is an entry
    with a function and a file. *)
Definition endpoints_well_formed (a : Analyzer) : Prop :=
  Forall (fun kv => PyStr.split_first (fst kv) <> None
                    /\ exists name file, snd kv = endpoint_entry name file)
    (api_specs a).

(** The operation the blueprint holds for a handler, under a method. *)
Definition operation (method name : string) : pyval :=
  PDict
    [(method,
      PDict
        [("summary", PStr name);
         ("operationId", PStr name);
         ("responses",
          PDict
            [("200",
              PDict [("description", PStr "Successful response")])])])].

Module Handlers.
Import Example.

(** [api/routes.py]: [index] under [@app.route("/")], then [save] under
    [@app.post("/save")] followed by [@app.put(PATH)], whose argument is a
    name, then [drop] under [@app.delete("/drop")]. *)
Definition src : string :=
  "@app.route('/')" ++ nl ++ "def index(): pass" ++ nl
  ++ "@app.post('/save')" ++ nl ++ "@app.put(PATH)" ++ nl
  ++ "def save(): pass" ++ nl
  ++ "@app.delete('/drop')" ++ nl ++ "def drop(): pass" ++ nl.

Definition app (attr : string) (arg : expr) : expr :=
  Call (Attribute (Name "app") attr) [arg].

Definition parsed : node :=
  Module
    [FunctionDef "index" [OtherNode []] [app "route" (Constant (PStr "/"))];
     FunctionDef "save" [OtherNode []]
       [app "post" (Constant (PStr "/save")); app "put" (Name "PATH")];
     FunctionDef "drop" [OtherNode []]
       [app "delete" (Constant (PStr "/drop"))]].

Definition lib : PyLib := example_lib [(src, parsed)] [].

Definition tree : Project :=
  project [("**/routes.py", [["api"; "routes.py"]])]
    [("api/routes.py", Text src)].

End Handlers.

(** A value made of dictionaries and strings only, as [json.dump] writes
    without a custom encoder. *)
Fixpoint only_text (v : pyval) : bool :=
  match v with
  | PStr _ => true
  | PDict items => forallb (fun '(_, x) => only_text x) items
  | _ => false
  end.

(** Every endpoint is an entry with a function and a file. *)
Definition endpoints_are_entries (a : Analyzer) : Prop :=
  Forall (fun kv => exists name file, snd kv = endpoint_entry name file)
    (api_specs a).

(** * Properties *)

(** ** The monad *)

Lemma bind_inv_ok {A B : Type} (m : M A) (f : A -> M B) a y a' :
  bind m f a = (Ok y, a') ->
  exists x a1, m a = (Ok x, a1) /\ f x a1 = (Ok y, a').
Proof.
  unfold bind. destruct (m a) as [[x | e] a1]; intros H.
  - now exists x, a1.
  - discriminate.
Qed.

Lemma try_continue_ok (m : M unit) a : fst (try_continue m a) = Ok tt.
Proof.
  unfold try_continue. destruct (m a) as [[[] | e] a1]; reflexivity.
Qed.

Lemma for_each_app {A : Type} (l1 l2 : list A) (body : A -> M unit) a :
  for_each (l1 ++ l2) body a = (for_each l1 body ;; for_each l2 body) a.
Proof.
  revert a. induction l1 as [| x l1 IH]; intros a; simpl.
  - reflexivity.
  - unfold bind. destruct (body x a) as [[[] | e] a1].
    + rewrite IH. reflexivity.
    + reflexivity.
Qed.

(** A loop that returns has run its body, to the end, on every element. *)
Lemma for_each_ok_split {A : Type} (l1 l2 : list A) x (body : A -> M unit)
    a a' :
  for_each (l1 ++ x :: l2) body a = (Ok tt, a') ->
  exists a1 a2,
    for_each l1 body a = (Ok tt, a1) /\
    body x a1 = (Ok tt, a2) /\
    for_each l2 body a2 = (Ok tt, a').
Proof.
  rewrite for_each_app. intros H.
  apply bind_inv_ok in H as ([] & a1 & H1 & H2). simpl in H2.
  apply bind_inv_ok in H2 as ([] & a2 & H2 & H3).
  now exists a1, a2.
Qed.

(** A body that leaves the object as it found it can be dropped from a
    loop. *)
Lemma for_each_skip {A : Type} (l1 l2 : list A) x (body : A -> M unit) a :
  (forall a0, body x a0 = (Ok tt, a0)) ->
  for_each (l1 ++ x :: l2) body a = for_each (l1 ++ l2) body a.
Proof.
  intros Hx. rewrite !for_each_app. unfold bind at 1 2.
  destruct (for_each l1 body a) as [[[] | e] a1]; [| reflexivity].
  simpl. unfold bind. now rewrite Hx.
Qed.

Lemma for_each_skip_all {A : Type} (l : list A) (body : A -> M unit) a :
  (forall x a0, In x l -> body x a0 = (Ok tt, a0)) ->
  for_each l body a = (Ok tt, a).
Proof.
  induction l as [| x l IH]; intros H; simpl.
  - reflexivity.
  - unfold bind. rewrite H by now left. apply IH. intros; apply H. now right.
Qed.

(** A loop whose body never raises returns. *)
Lemma for_each_no_raise {A : Type} (l : list A) (body : A -> M unit) a :
  (forall x a0, In x l -> fst (body x a0) = Ok tt) ->
  fst (for_each l body a) = Ok tt.
Proof.
  revert a. induction l as [| x l IH]; intros a H; simpl.
  - reflexivity.
  - unfold bind. pose proof (H x a (or_introl eq_refl)) as Hx.
    destruct (body x a) as [[[] | e] a1]; simpl in Hx; [| discriminate].
    apply IH. intros y a0 Hy. apply H. now right.
Qed.

Lemma preserves_ret {A : Type} I (x : A) : preserves I (ret x).
Proof. intros a r a' H. inversion H. auto. Qed.

Lemma preserves_raise {A : Type} I e : preserves I (@raise A e).
Proof. intros a r a' H. inversion H. auto. Qed.

Lemma preserves_lift {A : Type} I (r : result A) : preserves I (lift r).
Proof. intros a r' a' H. inversion H. auto. Qed.

Lemma preserves_bind {A B : Type} I (m : M A) (f : A -> M B) :
  preserves I m -> (forall x, preserves I (f x)) -> preserves I (bind m f).
Proof.
  intros Hm Hf a r a'. unfold bind.
  destruct (m a) as [[x | e] a1] eqn:E; intros H Ia.
  - eapply Hf; eauto.
  - inversion H; subst. eapply Hm; eauto.
Qed.

Lemma preserves_try I (m : M unit) :
  preserves I m -> preserves I (try_continue m).
Proof.
  intros Hm a r a'. unfold try_continue.
  destruct (m a) as [[x | e] a1] eqn:E; intros H Ia;
    inversion H; subst; eapply Hm; eauto.
Qed.

Lemma preserves_for_each {A : Type} I (l : list A) (body : A -> M unit) :
  (forall x, In x l -> preserves I (body x)) ->
  preserves I (for_each l body).
Proof.
  induction l as [| x l IH]; intros H; simpl.
  - apply preserves_ret.
  - apply preserves_bind.
    + apply H. now left.
    + intros _. apply IH. intros y Hy. apply H. now right.
Qed.

(** ** Dictionaries *)

Lemma dict_get_set (k k' : string) (v : pyval) (d : dict) :
  dict_get k' (dict_set k v d) =
  if String.eqb k k' then Some v else dict_get k' d.
Proof.
  induction d as [| [k0 v0] d IH]; simpl.
  - reflexivity.
  - destruct (String.eqb_spec k0 k) as [-> | Hk0]; simpl.
    + destruct (String.eqb_spec k k'); reflexivity.
    + rewrite IH.
      destruct (String.eqb_spec k0 k') as [-> | Hk0'].
      * destruct (String.eqb_spec k k'); congruence.
      * reflexivity.
Qed.

Lemma dict_get_set_same (k : string) (v : pyval) (d : dict) :
  dict_get k (dict_set k v d) = Some v.
Proof. rewrite dict_get_set. now rewrite String.eqb_refl. Qed.

Lemma dict_get_set_other (k k' : string) (v : pyval) (d : dict) :
  k <> k' -> dict_get k' (dict_set k v d) = dict_get k' d.
Proof.
  intros H. rewrite dict_get_set.
  destruct (String.eqb_spec k k'); congruence.
Qed.

(** ** The walk *)

Lemma total_size_app (l1 l2 : list node) :
  total_size (l1 ++ l2) = total_size l1 + total_size l2.
Proof.
  induction l1 as [| n l1 IH]; simpl; [reflexivity | rewrite IH; lia].
Qed.

Lemma node_size_children (n : node) :
  node_size n = S (total_size (iter_child_nodes n)).
Proof.
  assert (H : forall l,
             (fix sizes (l : list node) : nat :=
                match l with
                | [] => 0
                | c :: l' => node_size c + sizes l'
                end) l = total_size l).
  { induction l as [| c l IH]; simpl; [reflexivity | now rewrite IH]. }
  destruct n; simpl; now rewrite ?H.
Qed.

Lemma node_size_pos (n : node) : 0 < node_size n.
Proof. rewrite node_size_children. lia. Qed.

(** The fuel [ast_walk] starts with is enough: the queue empties first, so
    more fuel yields the same nodes. *)
Lemma walk_todo_fuel (fuel : nat) (todo : list node) :
  total_size todo <= fuel ->
  walk_todo fuel todo = walk_todo (total_size todo) todo.
Proof.
  revert todo. induction fuel as [| fuel IH]; intros todo Hle.
  - destruct todo as [| n rest]; [reflexivity |].
    simpl in Hle. pose proof (node_size_pos n). lia.
  - destruct todo as [| n rest]; [reflexivity |].
    simpl in *. rewrite node_size_children in *. simpl.
    f_equal. rewrite IH by (rewrite total_size_app; lia).
    f_equal. rewrite total_size_app. lia.
Qed.

Lemma walk_todo_yields_queue (fuel : nat) (todo : list node) (n : node) :
  total_size todo <= fuel -> In n todo -> In n (walk_todo fuel todo).
Proof.
  revert todo. induction fuel as [| fuel IH]; intros todo Hle Hn.
  - destruct todo as [| m rest]; [contradiction |].
    simpl in Hle. pose proof (node_size_pos m). lia.
  - destruct todo as [| m rest]; [contradiction |].
    simpl in *. rewrite node_size_children in Hle.
    destruct Hn as [-> | Hn]; [now left | right].
    apply IH.
    + rewrite total_size_app. lia.
    + apply in_or_app. now left.
Qed.

Lemma walk_todo_yields_children (fuel : nat) (todo : list node) (n c : node) :
  total_size todo <= fuel ->
  In n (walk_todo fuel todo) -> In c (iter_child_nodes n) ->
  In c (walk_todo fuel todo).
Proof.
  revert todo. induction fuel as [| fuel IH]; intros todo Hle Hn Hc.
  - destruct todo; contradiction.
  - destruct todo as [| m rest]; [contradiction |].
    simpl in *. rewrite node_size_children in Hle.
    assert (Hq : total_size (rest ++ iter_child_nodes m) <= fuel)
      by (rewrite total_size_app; lia).
    right. destruct Hn as [-> | Hn].
    + apply walk_todo_yields_queue; [exact Hq |].
      apply in_or_app. now right.
    + now apply IH.
Qed.

(** [ast.walk] yields the tree and every child of a node it yields. *)
Lemma ast_walk_root (tree : node) : In tree (ast_walk tree).
Proof.
  apply walk_todo_yields_queue; simpl; [lia | now left].
Qed.

Lemma ast_walk_children (tree n c : node) :
  In n (ast_walk tree) -> In c (iter_child_nodes n) -> In c (ast_walk tree).
Proof.
  apply walk_todo_yields_children. simpl. lia.
Qed.

(** ** The frontend pass *)

Lemma suffix_of_name (p : path) (name : string) :
  Path.name p = name -> Path.suffix p = Path.suffix [name].
Proof. intros H. unfold Path.suffix. now rewrite H. Qed.

(** A file whose suffix is none of [.tsx], [.jsx], [.vue] is not opened. *)
Lemma component_file_pass_other (P : Project) (p : path) (a : Analyzer) :
  String.eqb (Path.suffix p) ".tsx" = false ->
  String.eqb (Path.suffix p) ".jsx" = false ->
  String.eqb (Path.suffix p) ".vue" = false ->
  component_file_pass P p a = (Ok tt, a).
Proof.
  intros H1 H2 H3. unfold component_file_pass. now rewrite H1, H2, H3.
Qed.

Lemma for_each_app_skipped {A : Type} (l1 l2 : list A) (body : A -> M unit) a :
  (forall x a0, In x l2 -> body x a0 = (Ok tt, a0)) ->
  for_each (l1 ++ l2) body a = for_each l1 body a.
Proof.
  intros H. rewrite for_each_app. unfold bind.
  destruct (for_each l1 body a) as [[[] | e] a1]; [| reflexivity].
  now apply for_each_skip_all.
Qed.

(** C10.  The files matched by the patterns [**/routes.ts] and
    [**/router.ts] have the suffix [.ts]; the frontend pass leaves the
    analyzer as it is on each of them, whatever they contain, and so does
    what it would do on the [.tsx], [.jsx] and [.vue] matches alone. *)
Theorem C10_router_ts_files_change_nothing (P : Project) (a : Analyzer) :
  (forall p, In p (glob P "**/routes.ts") -> Path.name p = "routes.ts") ->
  (forall p, In p (glob P "**/router.ts") -> Path.name p = "router.ts") ->
  (forall p a0,
      In p (glob P "**/routes.ts" ++ glob P "**/router.ts") ->
      Path.suffix p = ".ts" /\ component_file_pass P p a0 = (Ok tt, a0)) /\
  _find_frontend_components P a =
    for_each (glob P "**/*.tsx" ++ glob P "**/*.jsx" ++ glob P "**/*.vue")
      (component_file_pass P) a.
Proof.
  intros Hroutes Hrouter.
  assert (Hts : forall p a0,
             In p (glob P "**/routes.ts" ++ glob P "**/router.ts") ->
             Path.suffix p = ".ts" /\ component_file_pass P p a0 = (Ok tt, a0)).
  { intros p a0 Hp.
    assert (Hs : Path.suffix p = ".ts").
    { apply in_app_or in Hp as [Hp | Hp].
      - now rewrite (suffix_of_name p _ (Hroutes p Hp)).
      - now rewrite (suffix_of_name p _ (Hrouter p Hp)). }
    split; [exact Hs |].
    apply component_file_pass_other; now rewrite Hs. }
  split; [exact Hts |].
  unfold _find_frontend_components, frontend_patterns. simpl flat_map.
  rewrite app_nil_r.
  replace (glob P "**/*.tsx" ++ glob P "**/*.jsx" ++ glob P "**/*.vue"
             ++ glob P "**/routes.ts" ++ glob P "**/router.ts")%list
    with ((glob P "**/*.tsx" ++ glob P "**/*.jsx" ++ glob P "**/*.vue")
            ++ (glob P "**/routes.ts" ++ glob P "**/router.ts"))%list
    by now rewrite <- !app_assoc.
  apply for_each_app_skipped. intros p a0 Hp. now apply Hts.
Qed.

Lemma C10_witness :
  (forall p a0,
      In p (glob Shop.frontend "**/routes.ts"
              ++ glob Shop.frontend "**/router.ts") ->
      Path.suffix p = ".ts"
      /\ component_file_pass Shop.frontend p a0 = (Ok tt, a0)) /\
  _find_frontend_components Shop.frontend init =
    for_each (glob Shop.frontend "**/*.tsx" ++ glob Shop.frontend "**/*.jsx"
                ++ glob Shop.frontend "**/*.vue")
      (component_file_pass Shop.frontend) init.
Proof.
  apply (C10_router_ts_files_change_nothing Shop.frontend init).
  - simpl. intros p [<- | []]. reflexivity.
  - simpl. intros p [].
Defined.

(** ** The blueprint of a project without matches *)

(** C8.  When no glob pattern of any pass has a match and none of the four
    package files exists, [analyze] returns the document with exactly the
    five keys [pm.details], [db.schemas],
    [backend.specifications.openapi], [uxsitemap.structure] and
    [settings.config.package], in which the schema, component and
    dependency mappings, the route list and the OpenAPI paths are empty. *)
Theorem C8_blueprint_of_empty_project (lib : PyLib) (P : Project) :
  (forall pattern,
      In pattern (model_patterns ++ api_patterns ++ frontend_patterns)%list ->
      glob P pattern = []) ->
  (forall file_name,
      In file_name package_files -> file_at P [file_name] = Missing) ->
  analyze lib P init =
    (Ok (PDict
           [("pm.details",
             PDict
               [("type", PStr "yaml");
                ("content",
                 PStr (yaml_dump lib
                         (PDict
                            [("project_path", PStr (project_path P));
                             ("analyzed_at",
                              PStr "auto-generated from existing project")])))]);
            ("db.schemas",
             PDict
               [("type", PStr "yaml");
                ("content", PStr (yaml_dump lib (PDict [])))]);
            ("backend.specifications.openapi",
             PDict
               [("type", PStr "complex");
                ("content",
                 PDict
                   [("openapi", PStr "3.0.0");
                    ("info",
                     PDict
                       [("title", PStr (project_name P ++ " API"));
                        ("version", PStr "1.0.0")]);
                    ("paths", PDict [])])]);
            ("uxsitemap.structure",
             PDict
               [("type", PStr "yaml");
                ("content",
                 PStr (yaml_dump lib
                         (PDict
                            [("routes", PList []);
                             ("components", PDict [])])))]);
            ("settings.config.package",
             PDict
               [("type", PStr "yaml");
                ("content", PStr (yaml_dump lib (PDict [])))])]),
     init).
Proof.
  intros Hglob Hfiles.
  unfold analyze, _find_database_schemas, _find_api_endpoints,
    _find_frontend_components, _find_dependencies.
  unfold model_patterns, api_patterns, frontend_patterns, package_files in *.
  simpl flat_map.
  rewrite !Hglob by (simpl; tauto). simpl for_each.
  unfold dependency_file, path_exists.
  rewrite !Hfiles by (simpl; tauto).
  reflexivity.
Qed.

Lemma C8_witness :
  exists blueprint,
    analyze (Example.example_lib [] []) Bare.empty init = (Ok blueprint, init)
    /\ match blueprint with
       | PDict items =>
           keys items =
             ["pm.details"; "db.schemas"; "backend.specifications.openapi";
              "uxsitemap.structure"; "settings.config.package"]
       | _ => False
       end.
Proof.
  eexists. split.
  - apply (C8_blueprint_of_empty_project (Example.example_lib [] []) Bare.empty).
    + intros pattern _. reflexivity.
    + intros file_name _. reflexivity.
  - reflexivity.
Defined.

(** ** The dependency pass *)

(** The pass, unrolled over the four package files. *)
Lemma find_dependencies_inv (lib : PyLib) (P : Project) (a a' : Analyzer) :
  _find_dependencies lib P a = (Ok tt, a') ->
  exists a1 a2 a3,
    dependency_file lib P "package.json" a = (Ok tt, a1) /\
    dependency_file lib P "requirements.txt" a1 = (Ok tt, a2) /\
    dependency_file lib P "pyproject.toml" a2 = (Ok tt, a3) /\
    dependency_file lib P "poetry.lock" a3 = (Ok tt, a').
Proof.
  unfold _find_dependencies, package_files. simpl for_each. intros H.
  apply bind_inv_ok in H as ([] & a1 & H1 & H).
  apply bind_inv_ok in H as ([] & a2 & H2 & H).
  apply bind_inv_ok in H as ([] & a3 & H3 & H).
  apply bind_inv_ok in H as ([] & a4 & H4 & H).
  inversion H; subst. now exists a1, a2, a3.
Qed.

(** The pass returns when every package file present can be opened. *)
Lemma find_dependencies_returns (lib : PyLib) (P : Project) (a : Analyzer) :
  (forall file_name,
      In file_name package_files -> file_at P [file_name] <> Unopenable) ->
  exists a', _find_dependencies lib P a = (Ok tt, a').
Proof.
  intros Hpkg.
  assert (H : fst (_find_dependencies lib P a) = Ok tt).
  { apply for_each_no_raise. intros file_name a0 Hf.
    pose proof (Hpkg file_name Hf) as Hnot.
    unfold dependency_file, path_exists, open, bind.
    destruct (file_at P [file_name]) eqn:E; try reflexivity;
      try congruence;
      simpl in Hf; destruct Hf as [<- | [<- | [<- | [<- | []]]]]; simpl;
      first [apply try_continue_ok | reflexivity]. }
  destruct (_find_dependencies lib P a) as [r a']. simpl in H. subst r.
  now exists a'.
Qed.

Lemma poetry_file_stored (lib : PyLib) (P : Project) (file_name content : string)
    (a a' : Analyzer) :
  file_name = "pyproject.toml" \/ file_name = "poetry.lock" ->
  file_at P [file_name] = Text content ->
  dependency_file lib P file_name a = (Ok tt, a') ->
  dependencies a' =
    dict_set "poetry"
      (PDict [("file", PStr file_name); ("content", PStr content)])
      (dependencies a).
Proof.
  intros Hname Hfile. unfold dependency_file, path_exists, open.
  rewrite Hfile.
  destruct Hname as [-> | ->]; simpl; intros H; inversion H; reflexivity.
Qed.

(** C9.  When [pyproject.toml] and [poetry.lock] both exist and can be
    read, the dependency pass ends with the name and the text of
    [poetry.lock] under [poetry]: it is processed after [pyproject.toml]
    and overwrites its entry.  The pass does end when [package.json] and
    [requirements.txt], if present, can be opened. *)
Theorem C9_poetry_lock_overwrites_pyproject (lib : PyLib) (P : Project)
    (toml lock : string) (a : Analyzer) :
  file_at P ["pyproject.toml"] = Text toml ->
  file_at P ["poetry.lock"] = Text lock ->
  (forall a',
      _find_dependencies lib P a = (Ok tt, a') ->
      dict_get "poetry" (dependencies a') =
        Some (PDict [("file", PStr "poetry.lock"); ("content", PStr lock)]))
  /\ (file_at P ["package.json"] <> Unopenable ->
      file_at P ["requirements.txt"] <> Unopenable ->
      exists a', _find_dependencies lib P a = (Ok tt, a')).
Proof.
  intros Htoml Hlock. split.
  - intros a' H.
    apply find_dependencies_inv in H as (a1 & a2 & a3 & _ & _ & _ & H4).
    rewrite (poetry_file_stored lib P "poetry.lock" lock a3 a') by auto.
    apply dict_get_set_same.
  - intros Hjson Hreq. apply find_dependencies_returns.
    intros file_name [<- | [<- | [<- | [<- | []]]]]; congruence.
Qed.

Lemma C9_witness :
  (forall a',
      _find_dependencies (Example.example_lib [] []) Pinned.root init
      = (Ok tt, a') ->
      dict_get "poetry" (dependencies a') =
        Some (PDict [("file", PStr "poetry.lock");
                     ("content", PStr "# generated by poetry")]))
  /\ (file_at Pinned.root ["package.json"] <> Unopenable ->
      file_at Pinned.root ["requirements.txt"] <> Unopenable ->
      exists a',
        _find_dependencies (Example.example_lib [] []) Pinned.root init
        = (Ok tt, a')).
Proof.
  apply (C9_poetry_lock_overwrites_pyproject (Example.example_lib [] [])
           Pinned.root "[tool.poetry]" "# generated by poetry" init).
  - reflexivity.
  - reflexivity.
Defined.

Lemma truthy_nonempty (s : string) :
  PyStr.truthy s = negb (String.eqb s "").
Proof. destruct s; reflexivity. Qed.

Lemma requirements_stored (lib : PyLib) (P : Project) (text : string)
    (a a' : Analyzer) :
  file_at P ["requirements.txt"] = Text text ->
  dependency_file lib P "requirements.txt" a = (Ok tt, a') ->
  dependencies a' =
    dict_set "pip"
      (PDict [("dependencies", PList (map PStr (requirement_lines text)))])
      (dependencies a).
Proof.
  intros Hfile. unfold dependency_file, path_exists, open.
  rewrite Hfile. simpl. intros H. inversion H. reflexivity.
Qed.

(** [pyproject.toml] and [poetry.lock] touch no key but [poetry]. *)
Lemma poetry_file_keeps (lib : PyLib) (P : Project) (file_name k : string)
    (a a' : Analyzer) :
  file_name = "pyproject.toml" \/ file_name = "poetry.lock" ->
  k <> "poetry" ->
  dependency_file lib P file_name a = (Ok tt, a') ->
  dict_get k (dependencies a') = dict_get k (dependencies a).
Proof.
  intros Hname Hk. unfold dependency_file, path_exists, open.
  destruct (file_at P [file_name]) eqn:E;
    destruct Hname as [-> | ->]; simpl; intros H; inversion H; subst;
    try reflexivity; simpl; apply dict_get_set_other; congruence.
Qed.

(** C4, amended.  When [requirements.txt] exists and can be read, the
    dependency pass ends with, under [pip], the lines of the file that are
    not empty once trimmed and that do not themselves start with [#]
    (the test is on the line as read, so an indented comment is kept),
    each trimmed, in file order.  The pass does end when the other package
    files, if present, can be opened. *)
Theorem C4_pip_lines_tested_untrimmed (lib : PyLib) (P : Project)
    (text : string) (a : Analyzer) :
  file_at P ["requirements.txt"] = Text text ->
  (forall a',
      _find_dependencies lib P a = (Ok tt, a') ->
      dict_get "pip" (dependencies a') =
        Some (PDict
                [("dependencies",
                  PList
                    (map PStr
                       (map PyStr.strip
                          (filter
                             (fun line =>
                                negb (String.eqb (PyStr.strip line) "")
                                && negb (String.prefix "#" line))
                             (PyStr.readlines text)))))]))
  /\ (file_at P ["package.json"] <> Unopenable ->
      file_at P ["pyproject.toml"] <> Unopenable ->
      file_at P ["poetry.lock"] <> Unopenable ->
      exists a', _find_dependencies lib P a = (Ok tt, a')).
Proof.
  intros Hfile. split.
  - intros a' H.
    apply find_dependencies_inv in H as (a1 & a2 & a3 & _ & H2 & H3 & H4).
    rewrite (poetry_file_keeps lib P "poetry.lock" "pip" a3 a')
      by (auto; discriminate).
    rewrite (poetry_file_keeps lib P "pyproject.toml" "pip" a2 a3)
      by (auto; discriminate).
    rewrite (requirements_stored lib P text a1 a2) by assumption.
    rewrite dict_get_set_same. unfold requirement_lines, PyStr.startswith.
    do 7 f_equal. apply filter_ext. intros line.
    now rewrite truthy_nonempty.
  - intros Hjson Htoml Hlock. apply find_dependencies_returns.
    intros file_name [<- | [<- | [<- | [<- | []]]]]; congruence.
Qed.

Lemma C4_witness :
  dict_get "pip"
    (dependencies (snd (_find_dependencies (Example.example_lib [] [])
                          Pinned.root init))) =
    Some (PDict
            [("dependencies",
              PList [PStr "flask==2.0"; PStr "# pinned"; PStr "requests"])]).
Proof.
  apply (C4_pip_lines_tested_untrimmed (Example.example_lib [] [])
           Pinned.root Pinned.requirements init).
  - reflexivity.
  - reflexivity.
Defined.

(** C4 as stated fails on [Pinned.root]: the indented comment
    [  # pinned] does not start with [#] as read, so it is kept, trimmed
    to [# pinned]; the claim leaves it out. *)
Lemma C4_counterexample :
  ~ Stated.pip_holds_trimmed_lines (Example.example_lib [] []) Pinned.root.
Proof.
  intros H.
  pose proof (H Pinned.requirements init
                (snd (_find_dependencies (Example.example_lib [] [])
                        Pinned.root init))
                eq_refl eq_refl) as E.
  vm_compute in E. discriminate E.
Qed.

(** ** Invariants through a pass *)

Ltac preserved :=
  repeat first
    [ apply preserves_ret
    | apply preserves_raise
    | apply preserves_lift
    | apply preserves_try
    | apply preserves_bind; [| intros ?]
    | match goal with
      | |- preserves _ (if ?b then _ else _) => destruct b
      | |- preserves _ (match ?x with _ => _ end) => destruct x
      end ].

Lemma preserves_open {I : Analyzer -> Prop} (P : Project) (p : path) :
  preserves I (open P p).
Proof. unfold open. preserved. Qed.

Lemma preserves_read {I : Analyzer -> Prop} (f : file) : preserves I (read f).
Proof. unfold read. preserved. Qed.

Lemma preserves_parse {I : Analyzer -> Prop} (lib : PyLib) (src : string) :
  preserves I (parse lib src).
Proof. unfold parse. preserved. Qed.

(** *** Components and routes *)

Lemma component_file_pass_keeps_component (P : Project) (k : string)
    (p : path) :
  preserves (is_component k) (component_file_pass P p).
Proof.
  assert (Hset : forall q,
             preserves (is_component k)
               (set_frontend_component (Path.stem q) (component_entry q))).
  { intros q a r a' H [p0 Hp0]. inversion H; subst. unfold is_component.
    simpl. rewrite dict_get_set.
    destruct (String.eqb (Path.stem q) k); eauto. }
  assert (Happ : forall r0, preserves (is_component k) (append_route r0)).
  { intros r0 a r a' H Ia. inversion H; subst. exact Ia. }
  unfold component_file_pass.
  preserved; auto using @preserves_open, @preserves_read.
Qed.

Lemma component_file_pass_keeps_route (P : Project) (r : string) (p : path) :
  preserves (is_route r) (component_file_pass P p).
Proof.
  assert (Hset : forall k v,
             preserves (is_route r) (set_frontend_component k v)).
  { intros k v a r0 a' H Ia. inversion H; subst. exact Ia. }
  assert (Happ : forall r0, preserves (is_route r) (append_route r0)).
  { intros r0 a r1 a' H Ia. inversion H; subst. unfold is_route. simpl.
    apply in_or_app. now left. }
  unfold component_file_pass.
  preserved; auto using @preserves_open, @preserves_read.
Qed.

(** What the pass does on a [.tsx] or [.jsx] file with a component and a
    route in its text. *)
Lemma component_file_pass_router (P : Project) (p : path) (content : string)
    (a : Analyzer) :
  Path.suffix p = ".tsx" \/ Path.suffix p = ".jsx" ->
  file_at P p = Text content ->
  PyStr.contains "export default" content = true
  \/ PyStr.contains "React.FC" content = true ->
  PyStr.contains "Route" content = true
  \/ PyStr.contains "Routes" content = true ->
  component_file_pass P p a =
    (Ok tt,
     {| db_schemas := db_schemas a;
        api_specs := api_specs a;
        frontend_components :=
          dict_set (Path.stem p) (component_entry p) (frontend_components a);
        dependencies := dependencies a;
        routes := routes a ++ [Path.relative_str p] |}).
Proof.
  intros Hext Hfile Hcomp Hroute.
  assert (E1 : (String.eqb (Path.suffix p) ".tsx"
                || String.eqb (Path.suffix p) ".jsx") = true)
    by (destruct Hext as [-> | ->]; reflexivity).
  assert (E2 : (PyStr.contains "export default" content
                || PyStr.contains "React.FC" content) = true)
    by (destruct Hcomp as [-> | ->]; auto using orb_true_r).
  assert (E3 : (PyStr.contains "Route" content
                || PyStr.contains "Routes" content) = true)
    by (destruct Hroute as [-> | ->]; auto using orb_true_r).
  unfold component_file_pass, open, read, bind, try_continue.
  rewrite E1, Hfile. simpl. rewrite E2. simpl. rewrite E3. reflexivity.
Qed.

(** C3, amended.  A [.tsx] or [.jsx] file whose text contains
    [export default] or [React.FC], and also [Route] or [Routes], is
    recorded as a component under its stem and its path is in the route
    list when the frontend pass returns.  (The route test sits inside the
    component branch: a file that is no component is never listed.) *)
Theorem C3_component_with_route_is_listed (P : Project) (p : path)
    (content : string) (a a' : Analyzer) :
  In p (flat_map (glob P) frontend_patterns) ->
  Path.suffix p = ".tsx" \/ Path.suffix p = ".jsx" ->
  file_at P p = Text content ->
  PyStr.contains "export default" content = true
  \/ PyStr.contains "React.FC" content = true ->
  PyStr.contains "Route" content = true
  \/ PyStr.contains "Routes" content = true ->
  _find_frontend_components P a = (Ok tt, a') ->
  (exists p', dict_get (Path.stem p) (frontend_components a')
              = Some (component_entry p'))
  /\ In (Path.relative_str p) (routes a').
Proof.
  intros Hin Hext Hfile Hcomp Hroute Hrun.
  unfold _find_frontend_components in Hrun.
  apply in_split in Hin as (before & after & Hsplit). rewrite Hsplit in Hrun.
  apply for_each_ok_split in Hrun as (a1 & a2 & _ & Hp & Hafter).
  rewrite (component_file_pass_router P p content a1) in Hp by assumption.
  inversion Hp as [Ha2]. clear Hp. split.
  - apply (preserves_for_each (is_component (Path.stem p)) after
             (component_file_pass P)
             (fun q _ => component_file_pass_keeps_component P _ q)
             a2 (Ok tt) a' Hafter).
    exists p. subst a2. simpl. apply dict_get_set_same.
  - apply (preserves_for_each (is_route (Path.relative_str p)) after
             (component_file_pass P)
             (fun q _ => component_file_pass_keeps_route P _ q)
             a2 (Ok tt) a' Hafter).
    subst a2. unfold is_route. simpl. apply in_or_app. right. now left.
Qed.

Lemma C3_witness :
  (exists p', dict_get "App"
                (frontend_components
                   (snd (_find_frontend_components Shop.frontend init)))
              = Some (component_entry p'))
  /\ In "src/App.tsx"
       (routes (snd (_find_frontend_components Shop.frontend init))).
Proof.
  apply (C3_component_with_route_is_listed Shop.frontend ["src"; "App.tsx"]
           "export default function App() { return <Routes/> }" init).
  - simpl. now left.
  - now left.
  - reflexivity.
  - now left.
  - now left.
  - reflexivity.
Defined.

(** C3 as stated fails on [Shop.frontend]: [src/Nav.tsx] contains [Route]
    and is no component, and the route list ends without it. *)
Lemma C3_counterexample : ~ Stated.route_files_listed Shop.frontend.
Proof.
  intros H.
  pose proof (H ["src"; "Nav.tsx"] "const link = <Route path=home />" init
                (snd (_find_frontend_components Shop.frontend init))) as E.
  vm_compute in E.
  destruct E as [E | []]; auto. discriminate E.
Qed.

(** ** The two passes over syntax trees *)

Section TreePass.

Variable lib : PyLib.
Variable P : Project.
Variable visit : path -> node -> M unit.

Local Abbreviation file_pass := (tree_file_pass lib P visit).

Lemma tree_file_pass_parsed (f : path) (src : string) (tree : node) a :
  file_at P f = Text src -> ast_parse lib src = Some tree ->
  file_pass f a = try_continue (for_each (ast_walk tree) (visit f)) a.
Proof.
  intros Hfile Hparse.
  unfold tree_file_pass, open, read, parse, bind, ret.
  rewrite Hfile. unfold try_continue. now rewrite Hparse.
Qed.

(** A file that does not parse leaves the analyzer as it is. *)
Lemma tree_file_pass_unparsable (f : path) (src : string) a :
  file_at P f = Text src -> ast_parse lib src = None ->
  file_pass f a = (Ok tt, a).
Proof.
  intros Hfile Hparse.
  unfold tree_file_pass, open, read, parse, bind, ret, try_continue.
  now rewrite Hfile, Hparse.
Qed.

(** So does a file whose bytes do not decode. *)
Lemma tree_file_pass_undecodable (f : path) a :
  file_at P f = Undecodable -> file_pass f a = (Ok tt, a).
Proof.
  intros Hfile.
  unfold tree_file_pass, open, read, parse, bind, ret, try_continue.
  now rewrite Hfile.
Qed.

(** A file that cannot be opened raises out of its turn of the loop. *)
Lemma tree_file_pass_unopenable (f : path) a :
  file_at P f = Unopenable \/ file_at P f = Missing ->
  file_pass f a = (Err OSError, a).
Proof.
  intros Hfile. unfold tree_file_pass, open, bind.
  now destruct Hfile as [-> | ->].
Qed.

(** A file that can be opened never raises out of its turn. *)
Lemma tree_file_pass_opened (f : path) a :
  file_at P f = Undecodable \/ (exists src, file_at P f = Text src) ->
  fst (file_pass f a) = Ok tt.
Proof.
  intros Hfile. unfold tree_file_pass, open, bind.
  destruct Hfile as [-> | [src ->]]; simpl;
    first [apply try_continue_ok | reflexivity].
Qed.

Variable I : Analyzer -> Prop.
Variable files : list path.

Hypothesis stable :
  forall f n, visited lib P files f n -> preserves I (visit f n).

Lemma tree_pass_preserves (l : list path) :
  incl l files -> preserves I (for_each l file_pass).
Proof.
  intros Hl. apply preserves_for_each. intros f Hf. apply Hl in Hf.
  intros a r a' Hrun Ia.
  destruct (file_at P f) as [| | | src] eqn:Hfile.
  - rewrite tree_file_pass_unopenable in Hrun by auto. inversion Hrun; subst; exact Ia.
  - rewrite tree_file_pass_unopenable in Hrun by auto. inversion Hrun; subst; exact Ia.
  - rewrite tree_file_pass_undecodable in Hrun by auto. inversion Hrun; subst; exact Ia.
  - destruct (ast_parse lib src) as [tree |] eqn:Hparse.
    + rewrite (tree_file_pass_parsed f src tree) in Hrun by assumption.
      revert Hrun Ia. apply preserves_try, preserves_for_each.
      intros n Hn. apply stable.
      split; [exact Hf | now exists src, tree].
    + rewrite (tree_file_pass_unparsable f src) in Hrun by assumption.
      inversion Hrun; subst; exact Ia.
Qed.

(** If the visits of a file do not raise, what a visit establishes and no
    later visit undoes holds when the pass returns. *)
Lemma tree_pass_reaches (f : path) (src : string) (tree : node) (n : node)
    (a a' : Analyzer) :
  In f files -> file_at P f = Text src -> ast_parse lib src = Some tree ->
  In n (ast_walk tree) ->
  (forall n' a0, In n' (ast_walk tree) -> fst (visit f n' a0) = Ok tt) ->
  (forall a0 a1, visit f n a0 = (Ok tt, a1) -> I a1) ->
  for_each files file_pass a = (Ok tt, a') ->
  I a'.
Proof.
  intros Hf Hfile Hparse Hn Hquiet Hest Hrun.
  destruct (in_split _ _ Hf) as (before & after & Hsplit).
  rewrite Hsplit in Hrun.
  apply for_each_ok_split in Hrun as (a1 & a2 & _ & Hfpass & Hafter).
  rewrite (tree_file_pass_parsed f src tree a1 Hfile Hparse) in Hfpass.
  pose proof (for_each_no_raise (ast_walk tree) (visit f) a1
                (fun n' a0 Hn' => Hquiet n' a0 Hn')) as Hok.
  unfold try_continue in Hfpass.
  destruct (for_each (ast_walk tree) (visit f) a1) as [[[] | e] a2'] eqn:Hwalk;
    simpl in Hok; [| discriminate].
  inversion Hfpass; subst a2'. clear Hfpass Hok.
  assert (Ia2 : I a2).
  { destruct (in_split _ _ Hn) as (n1 & n2 & Hnsplit).
    assert (Hn2 : forall m, In m n2 -> In m (ast_walk tree)).
    { intros m Hm. rewrite Hnsplit. apply in_or_app. right. now right. }
    rewrite Hnsplit in Hwalk.
    apply for_each_ok_split in Hwalk as (b1 & b2 & _ & Hvisit & Hrest).
    apply (preserves_for_each I n2 (visit f)) with (a := b2) (r := Ok tt);
      [| exact Hrest | now apply (Hest b1)].
    intros m Hm. apply stable.
    split; [exact Hf | exists src, tree; auto]. }
  apply (tree_pass_preserves after) with (a := a2) (r := Ok tt); auto.
  intros p Hp. rewrite Hsplit. apply in_or_app. right. now right.
Qed.

End TreePass.

(** ** The schema pass *)

Lemma schema_file_shape (lib : PyLib) (P : Project) (f : path) :
  schema_file lib P f = tree_file_pass lib P (schema_node lib) f.
Proof. reflexivity. Qed.

Lemma schema_node_keeps_schema (lib : PyLib) (k : string) (f : path)
    (n : node) :
  preserves (is_schema k) (schema_node lib f n).
Proof.
  assert (Hset : forall name fields,
             preserves (is_schema k)
               (set_db_schema name
                  (PDict [("fields", PList fields);
                          ("file", PStr (Path.relative_str f))]))).
  { intros name fields a r a' H (fs & file & Hk). inversion H; subst.
    unfold is_schema. simpl. rewrite dict_get_set.
    destruct (String.eqb name k); eauto. }
  unfold schema_node. preserved; apply Hset.
Qed.

Lemma schema_node_quiet (lib : PyLib) (f : path) (n : node) (a : Analyzer) :
  schema_node_evaluates lib n = true -> fst (schema_node lib f n a) = Ok tt.
Proof.
  unfold schema_node_evaluates, schema_node.
  destruct n as [| name bases body | | |]; try reflexivity.
  destruct (existsb is_model_base bases); [| reflexivity].
  unfold bind, lift.
  destruct (collect_fields lib body []); [reflexivity | discriminate].
Qed.

Lemma schema_node_records (lib : PyLib) (f : path) (name : string)
    (bases : list expr) (body : list node) (a a' : Analyzer) :
  existsb is_model_base bases = true ->
  schema_node lib f (ClassDef name bases body) a = (Ok tt, a') ->
  is_schema name a'.
Proof.
  intros Hbase. unfold schema_node. rewrite Hbase. unfold bind, lift.
  destruct (collect_fields lib body []) as [fields | e]; [| discriminate].
  intros H. inversion H; subst. exists fields, (Path.relative_str f).
  simpl. apply dict_get_set_same.
Qed.

(** C7.  A matched model file that does not parse contributes nothing and
    does not abort the schema pass: the pass does what the loop over the
    other matched files does, so whatever these record is still recorded.
    In particular every model class the walk meets in another file that is
    valid has its entry when the pass returns. *)
Theorem C7_unparsable_model_file_is_skipped (lib : PyLib) (P : Project)
    (before after : list path) (bad : path) (src : string) (a : Analyzer) :
  flat_map (glob P) model_patterns = (before ++ bad :: after)%list ->
  file_at P bad = Text src ->
  ast_parse lib src = None ->
  (forall a0, schema_file lib P bad a0 = (Ok tt, a0))
  /\ _find_database_schemas lib P a =
       for_each (before ++ after) (schema_file lib P) a
  /\ forall f tree name bases body a',
       In f (before ++ after) ->
       valid_model_file lib P f tree ->
       In (ClassDef name bases body) (ast_walk tree) ->
       existsb is_model_base bases = true ->
       _find_database_schemas lib P a = (Ok tt, a') ->
       is_schema name a'.
Proof.
  intros Hglob Hfile Hparse.
  assert (Hbad : forall a0, schema_file lib P bad a0 = (Ok tt, a0)).
  { intros a0. rewrite schema_file_shape.
    now apply tree_file_pass_unparsable with (src := src). }
  assert (Hpass : _find_database_schemas lib P a =
                    for_each (before ++ after) (schema_file lib P) a).
  { unfold _find_database_schemas. rewrite Hglob.
    now apply for_each_skip. }
  split; [exact Hbad | split; [exact Hpass |]].
  intros f tree name bases body a' Hf [(src_f & Hsrc & Htree) Hquiet]
    Hclass Hbase Hrun.
  rewrite Hpass in Hrun.
  apply (tree_pass_reaches lib P (schema_node lib) (is_schema name)
           (before ++ after)
           (fun f0 n0 _ => schema_node_keeps_schema lib name f0 n0)
           f src_f tree (ClassDef name bases body) a a'); auto.
  - intros n' a0 Hn'. apply schema_node_quiet.
    rewrite forallb_forall in Hquiet. now apply Hquiet.
  - intros a0 a1. now apply schema_node_records.
Qed.

Lemma C7_witness :
  (forall a0,
      schema_file Models.lib Models.tree ["app"; "models"; "broken.py"] a0
      = (Ok tt, a0))
  /\ _find_database_schemas Models.lib Models.tree init =
       for_each [["app"; "models.py"]] (schema_file Models.lib Models.tree)
         init
  /\ is_schema "Widget"
       (snd (_find_database_schemas Models.lib Models.tree init)).
Proof.
  destruct (C7_unparsable_model_file_is_skipped Models.lib Models.tree
              [["app"; "models.py"]] [] ["app"; "models"; "broken.py"]
              Models.broken_src init eq_refl eq_refl eq_refl)
    as (Hbad & Hpass & Hrec).
  split; [exact Hbad | split; [exact Hpass |]].
  apply (Hrec ["app"; "models.py"] Models.widget_tree "Widget"
           [Name "Model"] [AnnAssign (Name "name") (Name "str")]).
  - now left.
  - split; [now exists Models.widget_src | reflexivity].
  - simpl. right. now left.
  - reflexivity.
  - reflexivity.
Defined.

Example widget_schema :
  db_schemas (snd (_find_database_schemas Models.lib Models.tree init)) =
    [("Widget",
      PDict [("fields",
              PList [PDict [("name", PStr "name"); ("type", PStr "str")]]);
             ("file", PStr "app/models.py")])].
Proof. reflexivity. Qed.

(** ** The endpoint pass *)

Lemma endpoint_file_shape (lib : PyLib) (P : Project) (f : path) :
  endpoint_file_pass lib P f = tree_file_pass lib P (endpoint_node lib) f.
Proof. reflexivity. Qed.

(** The visit of one decorator, by cases. *)
Lemma endpoint_decorator_cases (lib : PyLib) (f : path) (name : string)
    (d : expr) (a : Analyzer) :
  endpoint_decorator lib f name d a =
    match d with
    | Call func args =>
        if is_route_callee lib func then
          match endpoint_route lib args with
          | Ok route =>
              set_api_spec (endpoint_key lib func route)
                (endpoint_entry name (Path.relative_str f)) a
          | Err e => (Err e, a)
          end
        else (Ok tt, a)
    | _ => (Ok tt, a)
    end.
Proof.
  destruct d as [| | func args | |]; try reflexivity. simpl.
  destruct (is_route_callee lib func); [| reflexivity].
  unfold bind, lift. now destruct (endpoint_route lib args).
Qed.

Lemma endpoint_decorator_quiet (lib : PyLib) (f : path) (name : string)
    (d : expr) (a : Analyzer) :
  decorator_evaluates lib d = true ->
  fst (endpoint_decorator lib f name d a) = Ok tt.
Proof.
  rewrite endpoint_decorator_cases. unfold decorator_evaluates.
  destruct d as [| | func args | |]; try reflexivity.
  destruct (is_route_callee lib func); [| reflexivity].
  destruct (endpoint_route lib args); [reflexivity | discriminate].
Qed.

Lemma endpoint_node_quiet (lib : PyLib) (f : path) (n : node) (a : Analyzer) :
  endpoint_node_evaluates lib n = true ->
  fst (endpoint_node lib f n a) = Ok tt.
Proof.
  destruct n as [| | name body ds | |]; try reflexivity. simpl. intros H.
  apply for_each_no_raise. intros d a0 Hd.
  apply endpoint_decorator_quiet. rewrite forallb_forall in H. now apply H.
Qed.

(** An invariant that every write of a function's route decorators keeps
    is kept by the visit of the function. *)
Lemma endpoint_node_preserves (lib : PyLib) (I : Analyzer -> Prop) (f : path)
    (name : string) (body : list node) (ds : list expr) :
  (forall func args route,
      In (Call func args) ds ->
      is_route_callee lib func = true ->
      endpoint_route lib args = Ok route ->
      preserves I
        (set_api_spec (endpoint_key lib func route)
           (endpoint_entry name (Path.relative_str f)))) ->
  preserves I (endpoint_node lib f (FunctionDef name body ds)).
Proof.
  intros Hwrite. simpl. apply preserves_for_each. intros d Hd a r a'.
  rewrite endpoint_decorator_cases.
  destruct d as [| | func args | |];
    try (intros H Ia; inversion H; subst; exact Ia).
  destruct (is_route_callee lib func) eqn:Hcallee;
    [| intros H Ia; inversion H; subst; exact Ia].
  destruct (endpoint_route lib args) as [route | e] eqn:Hroute;
    [| intros H Ia; inversion H; subst; exact Ia].
  now apply Hwrite with (args := args).
Qed.

Lemma set_api_spec_keeps_endpoint (key k name file : string) :
  preserves (has_endpoint key) (set_api_spec k (endpoint_entry name file)).
Proof.
  intros a r a' H (n0 & f0 & H0). inversion H; subst.
  unfold has_endpoint. simpl. rewrite dict_get_set.
  destruct (String.eqb k key); eauto.
Qed.

Lemma endpoint_node_keeps_endpoint (lib : PyLib) (key : string) (f : path)
    (n : node) :
  preserves (has_endpoint key) (endpoint_node lib f n).
Proof.
  destruct n as [| | name body ds | |]; try apply preserves_ret.
  apply endpoint_node_preserves. intros. apply set_api_spec_keeps_endpoint.
Qed.

(** After the visit of a function, an invariant that the write of one of
    its route decorators establishes, and that the writes of all of them
    keep, holds. *)
Lemma endpoint_node_establishes (lib : PyLib) (I : Analyzer -> Prop)
    (f : path) (name : string) (body : list node) (ds : list expr)
    (func : expr) (args : list expr) (route : pyval) (a a' : Analyzer) :
  In (Call func args) ds ->
  is_route_callee lib func = true ->
  endpoint_route lib args = Ok route ->
  (forall a0 a1,
      set_api_spec (endpoint_key lib func route)
        (endpoint_entry name (Path.relative_str f)) a0 = (Ok tt, a1) ->
      I a1) ->
  (forall func' args' route',
      In (Call func' args') ds ->
      is_route_callee lib func' = true ->
      endpoint_route lib args' = Ok route' ->
      preserves I
        (set_api_spec (endpoint_key lib func' route')
           (endpoint_entry name (Path.relative_str f)))) ->
  endpoint_node lib f (FunctionDef name body ds) a = (Ok tt, a') ->
  I a'.
Proof.
  intros Hd Hcallee Hroute Hest Hkeep Hrun. simpl in Hrun.
  destruct (in_split _ _ Hd) as (ds1 & ds2 & Hsplit).
  rewrite Hsplit in Hrun.
  apply for_each_ok_split in Hrun as (b1 & b2 & _ & Hvisit & Hrest).
  rewrite endpoint_decorator_cases, Hcallee, Hroute in Hvisit.
  apply Hest in Hvisit.
  assert (Hpres : preserves I
                    (endpoint_node lib f (FunctionDef name body ds2))).
  { apply endpoint_node_preserves. intros func' args' route' Hin.
    apply Hkeep with (args' := args'). rewrite Hsplit.
    apply in_or_app. right. now right. }
  exact (Hpres b2 (Ok tt) a' Hrest Hvisit).
Qed.

(** The general statement behind C2 and C5. *)
Lemma endpoint_recorded (lib : PyLib) (P : Project) (f : path) (src : string)
    (tree : node) (name : string) (body : list node) (ds : list expr)
    (func : expr) (args : list expr) (route : pyval) (a a' : Analyzer) :
  In f (flat_map (glob P) api_patterns) ->
  file_at P f = Text src ->
  ast_parse lib src = Some tree ->
  forallb (endpoint_node_evaluates lib) (ast_walk tree) = true ->
  In (FunctionDef name body ds) (ast_walk tree) ->
  In (Call func args) ds ->
  is_route_callee lib func = true ->
  endpoint_route lib args = Ok route ->
  _find_api_endpoints lib P a = (Ok tt, a') ->
  has_endpoint (endpoint_key lib func route) a'
  /\ (sole_writer lib P (flat_map (glob P) api_patterns)
        (endpoint_key lib func route) name (Path.relative_str f) ->
      dict_get (endpoint_key lib func route) (api_specs a') =
        Some (endpoint_entry name (Path.relative_str f))).
Proof.
  intros Hf Hfile Hparse Hquiet Hn Hd Hcallee Hroute Hrun.
  unfold _find_api_endpoints in Hrun.
  set (files := flat_map (glob P) api_patterns) in *.
  set (key := endpoint_key lib func route).
  assert (Hq : forall n' a0,
             In n' (ast_walk tree) -> fst (endpoint_node lib f n' a0) = Ok tt).
  { intros n' a0 Hn'. apply endpoint_node_quiet.
    rewrite forallb_forall in Hquiet. now apply Hquiet. }
  split.
  - apply (tree_pass_reaches lib P (endpoint_node lib) (has_endpoint key)
             files
             (fun f0 n0 _ => endpoint_node_keeps_endpoint lib key f0 n0)
             f src tree (FunctionDef name body ds) a a'); auto.
    intros a0 a1.
    apply (endpoint_node_establishes lib (has_endpoint key) f name body ds
             func args route); auto.
    + intros b0 b1 H. inversion H; subst.
      exists name, (Path.relative_str f). simpl. apply dict_get_set_same.
    + intros. apply set_api_spec_keeps_endpoint.
  - intros Hsole.
    set (I := fun a0 : Analyzer =>
                dict_get key (api_specs a0) =
                  Some (endpoint_entry name (Path.relative_str f))).
    assert (Hwrite : forall f' name' func' route',
               route_decorator lib P files f' name' func' route' ->
               preserves I
                 (set_api_spec (endpoint_key lib func' route')
                    (endpoint_entry name' (Path.relative_str f')))).
    { intros f' name' func' route' Hdec b r b' H Ib.
      inversion H; subst. unfold I. simpl. rewrite dict_get_set.
      destruct (String.eqb_spec (endpoint_key lib func' route') key)
        as [Hkey | Hkey]; [| exact Ib].
      destruct (Hsole f' name' func' route' Hdec Hkey) as [-> ->].
      reflexivity. }
    assert (Hvisited : visited lib P files f (FunctionDef name body ds)).
    { split; [exact Hf | now exists src, tree]. }
    apply (tree_pass_reaches lib P (endpoint_node lib) I files) with
      (f := f) (src := src) (tree := tree) (n := FunctionDef name body ds)
      (a := a); auto.
    + intros f' n' Hv.
      destruct n' as [| | name' body' ds' | |]; try apply preserves_ret.
      apply endpoint_node_preserves. intros func' args' route' Hin Hc Hr.
      apply Hwrite. now exists body', ds', args'.
    + intros a0 a1.
      apply (endpoint_node_establishes lib I f name body ds func args route);
        auto.
      * intros b0 b1 H. inversion H; subst. unfold I. simpl.
        apply dict_get_set_same.
      * intros func' args' route' Hin Hc Hr.
        apply Hwrite. now exists body, ds, args'.
Qed.

Lemma evaluates_gives_route (lib : PyLib) (tree : node) (name : string)
    (body : list node) (ds : list expr) (func : expr) (args : list expr) :
  forallb (endpoint_node_evaluates lib) (ast_walk tree) = true ->
  In (FunctionDef name body ds) (ast_walk tree) ->
  In (Call func args) ds ->
  is_route_callee lib func = true ->
  exists route, endpoint_route lib args = Ok route.
Proof.
  intros Hquiet Hn Hd Hcallee.
  rewrite forallb_forall in Hquiet. specialize (Hquiet _ Hn).
  simpl in Hquiet. rewrite forallb_forall in Hquiet.
  specialize (Hquiet _ Hd). simpl in Hquiet. rewrite Hcallee in Hquiet.
  destruct (endpoint_route lib args) as [route | e]; [| discriminate].
  now exists route.
Qed.

(** C5, amended.  In a matched file that opens, decodes and parses, and in
    which every route decorator has no positional argument or a first one
    that [ast.literal_eval] accepts, every route decorator of every function
    definition of the walk has, when the endpoint pass returns, an entry
    under its key [method ++ " " ++ path]: the path is the evaluated first
    positional argument, ["/"] without one; the method is the callee's
    attribute name, [GET] without one.  The entry is that of the function
    and the file when no route decorator of another function or file
    writes to the same key. *)
Theorem C5_route_decorator_with_literal_path_recorded (lib : PyLib)
    (P : Project) (f : path) (src : string) (tree : node) (name : string)
    (body : list node) (ds : list expr) (func : expr) (args : list expr)
    (a a' : Analyzer) :
  In f (flat_map (glob P) api_patterns) ->
  file_at P f = Text src ->
  ast_parse lib src = Some tree ->
  forallb (endpoint_node_evaluates lib) (ast_walk tree) = true ->
  In (FunctionDef name body ds) (ast_walk tree) ->
  In (Call func args) ds ->
  is_route_callee lib func = true ->
  _find_api_endpoints lib P a = (Ok tt, a') ->
  exists route,
    endpoint_route lib args = Ok route
    /\ (args = [] -> route = PStr "/")
    /\ has_endpoint (endpoint_method func ++ " " ++ py_str lib route) a'
    /\ (sole_writer lib P (flat_map (glob P) api_patterns)
          (endpoint_method func ++ " " ++ py_str lib route)
          name (Path.relative_str f) ->
        dict_get (endpoint_method func ++ " " ++ py_str lib route)
          (api_specs a') =
          Some (PDict [("function", PStr name);
                       ("file", PStr (Path.relative_str f))])).
Proof.
  intros Hf Hfile Hparse Hquiet Hn Hd Hcallee Hrun.
  destruct (evaluates_gives_route lib tree name body ds func args)
    as [route Hroute]; auto.
  exists route. split; [exact Hroute |]. split.
  - intros ->. simpl in Hroute. now inversion Hroute.
  - now apply (endpoint_recorded lib P f src tree name body ds func args
                 route a a').
Qed.

Lemma C5_witness :
  exists route,
    endpoint_route Api.lib [Constant (PStr "/users")] = Ok route
    /\ ([Constant (PStr "/users")] = [] -> route = PStr "/")
    /\ has_endpoint
         (endpoint_method (Attribute (Name "app") "get") ++ " "
            ++ py_str Api.lib route)
         (snd (_find_api_endpoints Api.lib Api.tree init))
    /\ (sole_writer Api.lib Api.tree (flat_map (glob Api.tree) api_patterns)
          (endpoint_method (Attribute (Name "app") "get") ++ " "
             ++ py_str Api.lib route)
          "list_users" (Path.relative_str ["api"; "routes.py"]) ->
        dict_get
          (endpoint_method (Attribute (Name "app") "get") ++ " "
             ++ py_str Api.lib route)
          (api_specs (snd (_find_api_endpoints Api.lib Api.tree init))) =
          Some (PDict [("function", PStr "list_users");
                       ("file",
                        PStr (Path.relative_str ["api"; "routes.py"]))])).
Proof.
  apply (C5_route_decorator_with_literal_path_recorded Api.lib Api.tree
           ["api"; "routes.py"] Api.routes_src Api.routes_tree "list_users"
           [OtherNode []]
           [Call (Attribute (Name "app") "get") [Constant (PStr "/users")]]
           (Attribute (Name "app") "get") [Constant (PStr "/users")] init).
  - simpl. now left.
  - reflexivity.
  - reflexivity.
  - reflexivity.
  - simpl. right. now left.
  - now left.
  - reflexivity.
  - reflexivity.
Defined.

Example api_specs_of_api_tree :
  api_specs (snd (_find_api_endpoints Api.lib Api.tree init)) =
    [("get /users",
      PDict [("function", PStr "list_users");
             ("file", PStr "api/routes.py")])].
Proof. reflexivity. Qed.

(** C5 as stated fails on [Api.tree]: [show_user] in [api/views.py] carries
    [@app.get(USER_PATH)]; [ast.literal_eval] raises on the name, the
    [except] skips the file, and [show_user] has no entry. *)
Lemma C5_counterexample : ~ Stated.route_decorators_recorded Api.lib Api.tree.
Proof.
  intros H.
  destruct (H ["api"; "views.py"] Api.views_src Api.views_tree "show_user"
              [OtherNode []]
              [Call (Attribute (Name "app") "get") [Name "USER_PATH"]]
              (Attribute (Name "app") "get") [Name "USER_PATH"] init
              (snd (_find_api_endpoints Api.lib Api.tree init)))
    as [key E]; try reflexivity.
  - simpl. right. now left.
  - simpl. right. now left.
  - now left.
  - rewrite api_specs_of_api_tree in E. cbn [dict_get] in E.
    destruct (String.eqb "get /users" key); discriminate E.
Qed.

Lemma get_is_route_callee (lib : PyLib) (func : expr) :
  PyStr.contains "get" (ast_unparse lib func) = true ->
  is_route_callee lib func = true.
Proof.
  intros H. apply existsb_exists. exists "get". split; [| exact H].
  simpl. auto.
Qed.

(** C2, amended.  In a matched file that opens, decodes and parses, and in
    which every route decorator has no positional argument or a first one
    that [ast.literal_eval] accepts, a function decorated with a call whose
    callee's text contains [get] and whose first argument evaluates to
    ["/users"] has, when the endpoint pass returns, an entry under the key
    [method ++ " /users"], where the method is the callee's attribute name
    as written: [get /users] for [@app.get("/users")], and [GET /users]
    only for a callee without attribute.  The entry maps to the function's
    name and the file's relative path when no route decorator of another
    function or file writes to the same key. *)
Theorem C2_get_users_keyed_by_attribute_name (lib : PyLib) (P : Project)
    (f : path) (src : string) (tree : node) (name : string)
    (body : list node) (ds : list expr) (func : expr) (args : list expr)
    (a a' : Analyzer) :
  In f (flat_map (glob P) api_patterns) ->
  file_at P f = Text src ->
  ast_parse lib src = Some tree ->
  forallb (endpoint_node_evaluates lib) (ast_walk tree) = true ->
  In (FunctionDef name body ds) (ast_walk tree) ->
  In (Call func args) ds ->
  PyStr.contains "get" (ast_unparse lib func) = true ->
  endpoint_route lib args = Ok (PStr "/users") ->
  _find_api_endpoints lib P a = (Ok tt, a') ->
  has_endpoint (endpoint_method func ++ " /users") a'
  /\ (sole_writer lib P (flat_map (glob P) api_patterns)
        (endpoint_method func ++ " /users") name (Path.relative_str f) ->
      dict_get (endpoint_method func ++ " /users") (api_specs a') =
        Some (PDict [("function", PStr name);
                     ("file", PStr (Path.relative_str f))]))
  /\ (forall value, func = Attribute value "get" ->
                    has_endpoint "get /users" a')
  /\ ((forall value attr, func <> Attribute value attr) ->
      has_endpoint "GET /users" a').
Proof.
  intros Hf Hfile Hparse Hquiet Hn Hd Hget Hroute Hrun.
  destruct (endpoint_recorded lib P f src tree name body ds func args
              (PStr "/users") a a') as [Hhas Hsole];
    auto using get_is_route_callee.
  unfold endpoint_key in *. simpl py_str in *.
  repeat split; auto.
  - intros value ->. exact Hhas.
  - intros Hno. destruct func; try exact Hhas.
    now destruct (Hno func attr).
Qed.

Lemma C2_witness :
  has_endpoint "get /users"
    (snd (_find_api_endpoints Api.lib Api.tree init)).
Proof.
  destruct (C2_get_users_keyed_by_attribute_name Api.lib Api.tree
              ["api"; "routes.py"] Api.routes_src Api.routes_tree
              "list_users" [OtherNode []]
              [Call (Attribute (Name "app") "get") [Constant (PStr "/users")]]
              (Attribute (Name "app") "get") [Constant (PStr "/users")] init
              (snd (_find_api_endpoints Api.lib Api.tree init)))
    as (_ & _ & Hlower & _); try reflexivity.
  - simpl. now left.
  - simpl. right. now left.
  - now left.
  - exact (Hlower (Name "app") eq_refl).
Defined.

(** C2 as stated fails on [Api.tree]: [list_users] under
    [@app.get("/users")] is stored under [get /users], and no key
    [GET /users] exists. *)
Lemma C2_counterexample : ~ Stated.get_users_keyed_upper Api.lib Api.tree.
Proof.
  intros H.
  pose proof (H ["api"; "routes.py"] Api.routes_src Api.routes_tree
                "list_users" [OtherNode []]
                [Call (Attribute (Name "app") "get")
                   [Constant (PStr "/users")]]
                (Attribute (Name "app") "get") [Constant (PStr "/users")]
                init (snd (_find_api_endpoints Api.lib Api.tree init))) as E.
  vm_compute in E.
  assert (E' : @None pyval =
               Some (PDict [("function", PStr "list_users");
                            ("file", PStr "api/routes.py")])).
  { apply E; auto. }
  discriminate E'.
Qed.

(** ** Storing the same values again *)

Lemma keys_dict_set_present (k : string) (v : pyval) (d : dict) :
  In k (keys d) -> keys (dict_set k v d) = keys d.
Proof.
  induction d as [| [k0 v0] d IH]; simpl; [contradiction |].
  intros H. destruct (String.eqb_spec k0 k) as [-> | Hne]; simpl.
  - reflexivity.
  - f_equal. apply IH. destruct H; congruence.
Qed.

Lemma keys_dict_set_has (k : string) (v : pyval) (d : dict) :
  In k (keys (dict_set k v d)).
Proof.
  induction d as [| [k0 v0] d IH]; simpl; [now left |].
  destruct (String.eqb_spec k0 k) as [-> | Hne]; simpl; auto.
Qed.

Lemma keys_dict_set_mono (k k' : string) (v : pyval) (d : dict) :
  In k' (keys d) -> In k' (keys (dict_set k v d)).
Proof.
  induction d as [| [k0 v0] d IH]; simpl; [contradiction |].
  destruct (String.eqb_spec k0 k) as [-> | Hne]; simpl; intuition.
Qed.

Lemma keys_dict_set_inv (k k' : string) (v : pyval) (d : dict) :
  In k' (keys (dict_set k v d)) -> k' = k \/ In k' (keys d).
Proof.
  induction d as [| [k0 v0] d IH]; simpl.
  - intros [<- | []]. now left.
  - destruct (String.eqb_spec k0 k) as [-> | Hne]; simpl; intuition.
Qed.

Lemma nodup_dict_set (k : string) (v : pyval) (d : dict) :
  NoDup (keys d) -> NoDup (keys (dict_set k v d)).
Proof.
  induction d as [| [k0 v0] d IH]; simpl; intros H.
  - repeat constructor. intros [].
  - inversion H as [| ? ? Hnotin Hnodup]; subst.
    destruct (String.eqb_spec k0 k) as [-> | Hne]; simpl.
    + now constructor.
    + constructor; [| now apply IH].
      intros Hin. apply keys_dict_set_inv in Hin as [-> | Hin]; auto.
Qed.

Lemma dict_get_absent (k : string) (d : dict) :
  ~ In k (keys d) -> dict_get k d = None.
Proof.
  induction d as [| [k0 v0] d IH]; simpl; [reflexivity |].
  intros H. destruct (String.eqb_spec k0 k) as [-> | Hne].
  - exfalso. apply H. now left.
  - apply IH. intros Hin. apply H. now right.
Qed.

(** Dictionaries with the same keys in the same order, none twice, and the
    same value under each key are equal. *)
Lemma dict_ext (d1 d2 : dict) :
  NoDup (keys d1) -> keys d1 = keys d2 ->
  (forall k, dict_get k d1 = dict_get k d2) ->
  d1 = d2.
Proof.
  revert d2. induction d1 as [| [k v] d1 IH]; intros [| [k2 v2] d2];
    simpl; intros Hnodup Hkeys Hget; try discriminate; [reflexivity |].
  inversion Hkeys as [[Hk Hrest]]. subst k2.
  inversion Hnodup as [| ? ? Hnotin Hnodup']; subst.
  pose proof (Hget k) as Hv. rewrite String.eqb_refl in Hv.
  inversion Hv; subst v2. f_equal. apply IH; auto.
  intros k'. destruct (String.eqb_spec k k') as [<- | Hne].
  - rewrite !dict_get_absent; auto. now rewrite <- Hrest.
  - specialize (Hget k'). destruct (String.eqb_spec k k'); congruence.
Qed.

Lemma store_all_app (ws1 ws2 : list (string * pyval)) (d : dict) :
  store_all (ws1 ++ ws2) d = store_all ws2 (store_all ws1 d).
Proof. apply fold_left_app. Qed.

Lemma dict_get_store_all (k : string) (ws : list (string * pyval)) (d : dict) :
  dict_get k (store_all ws d) = last_store k ws (dict_get k d).
Proof.
  revert d. induction ws as [| [k0 v0] ws IH]; intros d; simpl.
  - reflexivity.
  - rewrite IH, dict_get_set. reflexivity.
Qed.

Lemma last_store_shape (k : string) (ws : list (string * pyval)) :
  (forall x, last_store k ws x = x)
  \/ (exists v, forall x, last_store k ws x = Some v).
Proof.
  induction ws as [| [k0 v0] ws IH]; simpl.
  - now left.
  - destruct IH as [Hid | [v Hv]].
    + destruct (String.eqb k0 k).
      * right. exists v0. intros x. apply Hid.
      * left. intros x. apply Hid.
    + right. exists v. intros x. apply Hv.
Qed.

Lemma last_store_twice (k : string) (ws : list (string * pyval)) x :
  last_store k ws (last_store k ws x) = last_store k ws x.
Proof.
  destruct (last_store_shape k ws) as [Hid | [v Hv]].
  - now rewrite !Hid.
  - now rewrite !Hv.
Qed.

Lemma nodup_store_all (ws : list (string * pyval)) (d : dict) :
  NoDup (keys d) -> NoDup (keys (store_all ws d)).
Proof.
  revert d. induction ws as [| [k v] ws IH]; intros d H; simpl.
  - exact H.
  - apply IH. now apply nodup_dict_set.
Qed.

Lemma keys_store_all_mono (ws : list (string * pyval)) (d : dict) (k : string) :
  In k (keys d) -> In k (keys (store_all ws d)).
Proof.
  revert d. induction ws as [| [k0 v0] ws IH]; intros d H; simpl.
  - exact H.
  - apply IH. now apply keys_dict_set_mono.
Qed.

Lemma keys_store_all_has (ws : list (string * pyval)) (d : dict) kv :
  In kv ws -> In (fst kv) (keys (store_all ws d)).
Proof.
  revert d. induction ws as [| [k0 v0] ws IH]; intros d H; simpl.
  - contradiction.
  - destruct H as [<- | H].
    + apply keys_store_all_mono. simpl. apply keys_dict_set_has.
    + now apply IH.
Qed.

Lemma keys_store_all_present (ws : list (string * pyval)) (d : dict) :
  (forall kv, In kv ws -> In (fst kv) (keys d)) ->
  keys (store_all ws d) = keys d.
Proof.
  revert d. induction ws as [| [k0 v0] ws IH]; intros d H; simpl.
  - reflexivity.
  - rewrite IH.
    + apply keys_dict_set_present. apply (H (k0, v0)). now left.
    + intros kv Hkv. apply keys_dict_set_mono. apply H. now right.
Qed.

(** Storing a list of writes a second time changes nothing. *)
Lemma store_all_twice (ws : list (string * pyval)) (d : dict) :
  NoDup (keys d) ->
  store_all ws (store_all ws d) = store_all ws d.
Proof.
  intros Hnodup. apply dict_ext.
  - now apply nodup_store_all, nodup_store_all.
  - apply keys_store_all_present. intros kv Hkv.
    now apply keys_store_all_has.
  - intros k. rewrite !dict_get_store_all. apply last_store_twice.
Qed.

(** ** The passes do not read the analyzer *)

Lemma run_no_effect (a : Analyzer) : run_effect no_effect a = a.
Proof. destruct a. unfold run_effect. simpl. now rewrite app_nil_r. Qed.

Lemma run_then_effect (e1 e2 : effect) (a : Analyzer) :
  run_effect (then_effect e1 e2) a = run_effect e2 (run_effect e1 a).
Proof.
  unfold run_effect, then_effect. simpl.
  now rewrite !store_all_app, app_assoc.
Qed.

Lemma uniform_ret {A : Type} (x : A) : uniform (ret x).
Proof. exists (Ok x), no_effect. intros a. now rewrite run_no_effect. Qed.

Lemma uniform_raise {A : Type} (e : exn) : uniform (@raise A e).
Proof. exists (Err e), no_effect. intros a. now rewrite run_no_effect. Qed.

Lemma uniform_lift {A : Type} (r : result A) : uniform (lift r).
Proof. exists r, no_effect. intros a. now rewrite run_no_effect. Qed.

Lemma uniform_bind {A B : Type} (m : M A) (f : A -> M B) :
  uniform m -> (forall x, uniform (f x)) -> uniform (bind m f).
Proof.
  intros ([x | e] & e1 & Hm) Hf.
  - destruct (Hf x) as (r & e2 & Hfx). exists r, (then_effect e1 e2).
    intros a. unfold bind. now rewrite Hm, Hfx, run_then_effect.
  - exists (Err e), e1. intros a. unfold bind. now rewrite Hm.
Qed.

Lemma uniform_try (m : M unit) : uniform m -> uniform (try_continue m).
Proof.
  intros ([[] | e] & e1 & Hm); exists (Ok tt), e1; intros a;
    unfold try_continue; now rewrite Hm.
Qed.

Lemma uniform_for_each {A : Type} (l : list A) (body : A -> M unit) :
  (forall x, uniform (body x)) -> uniform (for_each l body).
Proof.
  intros H. induction l as [| x l IH]; simpl.
  - apply uniform_ret.
  - apply uniform_bind; auto.
Qed.

Lemma uniform_set_db_schema (k : string) (v : pyval) :
  uniform (set_db_schema k v).
Proof.
  exists (Ok tt),
    {| to_db_schemas := [(k, v)]; to_api_specs := [];
       to_frontend_components := []; to_dependencies := [];
       to_routes := [] |}.
  intros a. unfold set_db_schema, run_effect. simpl. now rewrite app_nil_r.
Qed.

Lemma uniform_set_api_spec (k : string) (v : pyval) :
  uniform (set_api_spec k v).
Proof.
  exists (Ok tt),
    {| to_db_schemas := []; to_api_specs := [(k, v)];
       to_frontend_components := []; to_dependencies := [];
       to_routes := [] |}.
  intros a. unfold set_api_spec, run_effect. simpl. now rewrite app_nil_r.
Qed.

Lemma uniform_set_frontend_component (k : string) (v : pyval) :
  uniform (set_frontend_component k v).
Proof.
  exists (Ok tt),
    {| to_db_schemas := []; to_api_specs := [];
       to_frontend_components := [(k, v)]; to_dependencies := [];
       to_routes := [] |}.
  intros a. unfold set_frontend_component, run_effect. simpl.
  now rewrite app_nil_r.
Qed.

Lemma uniform_set_dependency (k : string) (v : pyval) :
  uniform (set_dependency k v).
Proof.
  exists (Ok tt),
    {| to_db_schemas := []; to_api_specs := [];
       to_frontend_components := []; to_dependencies := [(k, v)];
       to_routes := [] |}.
  intros a. unfold set_dependency, run_effect. simpl. now rewrite app_nil_r.
Qed.

Lemma uniform_append_route (r : string) : uniform (append_route r).
Proof.
  exists (Ok tt),
    {| to_db_schemas := []; to_api_specs := [];
       to_frontend_components := []; to_dependencies := [];
       to_routes := [r] |}.
  intros a. reflexivity.
Qed.

Ltac uniformity :=
  repeat first
    [ apply uniform_ret
    | apply uniform_raise
    | apply uniform_lift
    | apply uniform_try
    | apply uniform_set_db_schema
    | apply uniform_set_api_spec
    | apply uniform_set_frontend_component
    | apply uniform_set_dependency
    | apply uniform_append_route
    | apply uniform_bind; [| intros ?]
    | apply uniform_for_each; intros ?
    | match goal with
      | |- uniform (if ?b then _ else _) => destruct b
      | |- uniform (match ?x with _ => _ end) => destruct x
      end ].

Lemma uniform_find_database_schemas (lib : PyLib) (P : Project) :
  uniform (_find_database_schemas lib P).
Proof.
  unfold _find_database_schemas, schema_file, schema_node, open, read, parse.
  uniformity.
Qed.

Lemma uniform_find_api_endpoints (lib : PyLib) (P : Project) :
  uniform (_find_api_endpoints lib P).
Proof.
  unfold _find_api_endpoints, endpoint_file_pass, endpoint_node,
    endpoint_decorator, open, read, parse.
  uniformity.
Qed.

Lemma uniform_find_frontend_components (P : Project) :
  uniform (_find_frontend_components P).
Proof.
  unfold _find_frontend_components, component_file_pass, open, read.
  uniformity.
Qed.

Lemma uniform_find_dependencies (lib : PyLib) (P : Project) :
  uniform (_find_dependencies lib P).
Proof.
  unfold _find_dependencies, dependency_file, json_load, get_or_empty,
    open, read.
  uniformity.
Qed.

(** ** Running the analyzer again *)

Lemma analyze_extraction (lib : PyLib) (P : Project) (a : Analyzer) :
  analyze lib P a = (extraction lib P ;; _generate_blueprint lib P) a.
Proof.
  unfold analyze, extraction, bind.
  destruct (_find_database_schemas lib P a) as [[[] | e] a1]; [| reflexivity].
  destruct (_find_api_endpoints lib P a1) as [[[] | e] a2]; [| reflexivity].
  destruct (_find_frontend_components P a2) as [[[] | e] a3]; [| reflexivity].
  destruct (_find_dependencies lib P a3) as [[[] | e] a4]; reflexivity.
Qed.

Lemma uniform_extraction (lib : PyLib) (P : Project) :
  uniform (extraction lib P).
Proof.
  unfold extraction.
  apply uniform_bind; [apply uniform_find_database_schemas | intros _].
  apply uniform_bind; [apply uniform_find_api_endpoints | intros _].
  apply uniform_bind; [apply uniform_find_frontend_components | intros _].
  apply uniform_find_dependencies.
Qed.

Lemma for_each_ext {A : Type} (l : list A) (body1 body2 : A -> M unit) a :
  (forall x a0, body1 x a0 = body2 x a0) ->
  for_each l body1 a = for_each l body2 a.
Proof.
  intros H. revert a. induction l as [| x l IH]; intros a; simpl.
  - reflexivity.
  - unfold bind. rewrite H. destruct (body2 x a) as [[[] | e] a1]; auto.
Qed.

(** The analyzer sees a tree through its globs and its files only. *)
Lemma analyze_same_tree (lib : PyLib) (P1 P2 : Project) (a : Analyzer) :
  same_tree P1 P2 -> analyze lib P1 a = analyze lib P2 a.
Proof.
  intros (Hpath & Hname & Hglob & Hfile).
  assert (Hopen : forall p a0, open P1 p a0 = open P2 p a0)
    by (intros p a0; unfold open; now rewrite Hfile).
  assert (Hpats : forall pats,
             flat_map (glob P1) pats = flat_map (glob P2) pats)
    by (intros pats; apply flat_map_ext; intros; apply Hglob).
  assert (H1 : forall a0, _find_database_schemas lib P1 a0
                          = _find_database_schemas lib P2 a0).
  { intros a0. unfold _find_database_schemas. rewrite Hpats.
    apply for_each_ext. intros f a1. unfold schema_file, bind.
    now rewrite Hopen. }
  assert (H2 : forall a0, _find_api_endpoints lib P1 a0
                          = _find_api_endpoints lib P2 a0).
  { intros a0. unfold _find_api_endpoints. rewrite Hpats.
    apply for_each_ext. intros f a1. unfold endpoint_file_pass, bind.
    now rewrite Hopen. }
  assert (H3 : forall a0, _find_frontend_components P1 a0
                          = _find_frontend_components P2 a0).
  { intros a0. unfold _find_frontend_components. rewrite Hpats.
    apply for_each_ext. intros f a1. unfold component_file_pass.
    destruct (String.eqb (Path.suffix f) ".tsx"
              || String.eqb (Path.suffix f) ".jsx");
      [unfold bind; now rewrite Hopen |].
    destruct (String.eqb (Path.suffix f) ".vue");
      [unfold bind; now rewrite Hopen | reflexivity]. }
  assert (H4 : forall a0, _find_dependencies lib P1 a0
                          = _find_dependencies lib P2 a0).
  { intros a0. unfold _find_dependencies.
    apply for_each_ext. intros f a1.
    unfold dependency_file, path_exists. rewrite Hfile.
    destruct (file_at P2 [f]); try reflexivity;
      unfold bind; now rewrite Hopen. }
  unfold analyze, bind. rewrite H1.
  destruct (_find_database_schemas lib P2 a) as [[[] | e] a1]; [| reflexivity].
  rewrite H2.
  destruct (_find_api_endpoints lib P2 a1) as [[[] | e] a2]; [| reflexivity].
  rewrite H3.
  destruct (_find_frontend_components P2 a2) as [[[] | e] a3]; [| reflexivity].
  rewrite H4.
  destruct (_find_dependencies lib P2 a3) as [[[] | e] a4]; [| reflexivity].
  unfold _generate_blueprint, blueprint_of. now rewrite Hpath, Hname.
Qed.

(** A second run on the analyzer a first run has left. *)
Lemma analyze_again (lib : PyLib) (P : Project) (blueprint1 : pyval)
    (a1 : Analyzer) :
  analyze lib P init = (Ok blueprint1, a1) ->
  exists blueprint2 a2 paths,
    analyze lib P a1 = (Ok blueprint2, a2)
    /\ db_schemas a2 = db_schemas a1
    /\ api_specs a2 = api_specs a1
    /\ frontend_components a2 = frontend_components a1
    /\ dependencies a2 = dependencies a1
    /\ routes a2 = (routes a1 ++ routes a1)%list
    /\ blueprint1 = blueprint_of lib P a1 paths
    /\ blueprint2 = blueprint_of lib P a2 paths.
Proof.
  destruct (uniform_extraction lib P) as (r & e & He).
  rewrite !analyze_extraction. unfold bind. rewrite !He.
  destruct r as [[] | err]; [| discriminate].
  unfold _generate_blueprint.
  destruct (openapi_paths lib (api_specs (run_effect e init)) [])
    as [paths |] eqn:Hpaths; [| discriminate].
  intros H. inversion H; subst. clear H.
  assert (Hsame : forall ws, store_all ws (store_all ws []) = store_all ws [])
    by (intros ws; apply store_all_twice; constructor).
  assert (Hapi : api_specs (run_effect e (run_effect e init))
                 = api_specs (run_effect e init)) by (simpl; apply Hsame).
  rewrite Hapi, Hpaths.
  exists (blueprint_of lib P (run_effect e (run_effect e init)) paths),
    (run_effect e (run_effect e init)), paths.
  simpl. rewrite !Hsame. repeat split; reflexivity.
Qed.

(** C6, amended.  Over an unmodified tree, a freshly constructed analyzer
    returns the same document as the first did.  Running [analyze] again on
    the analyzer the first run has left returns a document too, with the
    same four records; the route list holds its entries twice, since every
    run appends to it, so the two documents agree except in the rendering
    of the route list, and agree altogether when no route file was found. *)
Theorem C6_second_run_repeats_routes (lib : PyLib) (P1 P2 : Project)
    (blueprint1 : pyval) (a1 : Analyzer) :
  same_tree P1 P2 ->
  analyze lib P1 init = (Ok blueprint1, a1) ->
  analyze lib P2 init = (Ok blueprint1, a1)
  /\ exists blueprint2 a2 paths,
       analyze lib P2 a1 = (Ok blueprint2, a2)
       /\ db_schemas a2 = db_schemas a1
       /\ api_specs a2 = api_specs a1
       /\ frontend_components a2 = frontend_components a1
       /\ dependencies a2 = dependencies a1
       /\ routes a2 = (routes a1 ++ routes a1)%list
       /\ blueprint1 = blueprint_of lib P1 a1 paths
       /\ blueprint2 = blueprint_of lib P1 a2 paths
       /\ (routes a1 = [] -> blueprint2 = blueprint1).
Proof.
  intros Hsame Hrun.
  split; [now rewrite <- (analyze_same_tree lib P1 P2) |].
  destruct (analyze_again lib P1 blueprint1 a1 Hrun)
    as (blueprint2 & a2 & paths & Hrun2 & Hdb & Hapi & Hfc & Hdep & Hroutes
        & Hb1 & Hb2).
  exists blueprint2, a2, paths.
  rewrite <- (analyze_same_tree lib P1 P2) by assumption.
  repeat split; auto.
  intros Hnone. subst blueprint1 blueprint2. unfold blueprint_of.
  now rewrite Hdb, Hfc, Hdep, Hroutes, Hnone.
Qed.

Lemma C6_witness :
  analyze (Example.example_lib [] []) Shop.frontend init =
    analyze (Example.example_lib [] []) Shop.frontend init
  /\ exists blueprint2 a2,
       analyze (Example.example_lib [] []) Shop.frontend
         (snd (analyze (Example.example_lib [] []) Shop.frontend init))
       = (Ok blueprint2, a2)
       /\ routes a2 = ["src/App.tsx"; "src/App.tsx"].
Proof.
  destruct (analyze (Example.example_lib [] []) Shop.frontend init)
    as [[blueprint1 | e] a1] eqn:Hrun; [| discriminate Hrun].
  destruct (C6_second_run_repeats_routes (Example.example_lib [] [])
              Shop.frontend Shop.frontend blueprint1 a1)
    as (_ & blueprint2 & a2 & paths & Hrun2 & _ & _ & _ & _ & Hroutes & _).
  - repeat split.
  - exact Hrun.
  - split; [reflexivity |]. exists blueprint2, a2. split; [exact Hrun2 |].
    rewrite Hroutes. inversion Hrun. reflexivity.
Defined.

(** C6 as stated fails on [Shop.frontend]: the first run leaves the route
    list [src/App.tsx], the second run on the same analyzer leaves
    [src/App.tsx] twice. *)
Lemma C6_counterexample :
  ~ Stated.rerun_identical (Example.example_lib [] []) Shop.frontend.
Proof.
  intros H.
  destruct (analyze (Example.example_lib [] []) Shop.frontend init)
    as [[blueprint1 | e1] a1] eqn:Hrun1; [| discriminate Hrun1].
  destruct (analyze (Example.example_lib [] []) Shop.frontend a1)
    as [[blueprint2 | e2] a2] eqn:Hrun2.
  - destruct (H blueprint1 a1 blueprint2 a2 Hrun1 Hrun2)
      as (_ & _ & _ & _ & Hroutes & _).
    inversion Hrun1; subst. inversion Hrun2; subst.
    vm_compute in Hroutes. discriminate Hroutes.
  - inversion Hrun1; subst. discriminate Hrun2.
Qed.

(** ** What leaves a pass *)

(** Failures to decode, to parse and to evaluate are caught in the body of
    the loop: when every matched file and every package file present can be
    opened, each pass returns. *)
Lemma passes_return_when_files_open (lib : PyLib) (P : Project)
    (a : Analyzer) :
  (forall p,
      In p (flat_map (glob P)
              (model_patterns ++ api_patterns ++ frontend_patterns)) ->
      file_at P p = Undecodable \/ exists src, file_at P p = Text src) ->
  (forall file_name,
      In file_name package_files -> file_at P [file_name] <> Unopenable) ->
  fst (_find_database_schemas lib P a) = Ok tt
  /\ fst (_find_api_endpoints lib P a) = Ok tt
  /\ fst (_find_frontend_components P a) = Ok tt
  /\ fst (_find_dependencies lib P a) = Ok tt.
Proof.
  intros Hopen Hpkg.
  assert (Hin : forall pats p,
             incl pats (model_patterns ++ api_patterns ++ frontend_patterns)
             -> In p (flat_map (glob P) pats) ->
             file_at P p = Undecodable \/ exists src, file_at P p = Text src).
  { intros pats p Hincl Hp. apply Hopen.
    apply in_flat_map in Hp as (pat & Hpat & Hp).
    apply in_flat_map. exists pat. auto. }
  repeat split.
  - apply for_each_no_raise. intros f a0 Hf. rewrite schema_file_shape.
    apply tree_file_pass_opened. apply (Hin model_patterns); auto.
    apply incl_appl, incl_refl.
  - apply for_each_no_raise. intros f a0 Hf. rewrite endpoint_file_shape.
    apply tree_file_pass_opened. apply (Hin api_patterns); auto.
    apply incl_appr, incl_appl, incl_refl.
  - apply for_each_no_raise. intros f a0 Hf.
    assert (Hf' : file_at P f = Undecodable
                  \/ exists src, file_at P f = Text src).
    { apply (Hin frontend_patterns); auto.
      apply incl_appr, incl_appr, incl_refl. }
    unfold component_file_pass, open, bind.
    destruct (String.eqb (Path.suffix f) ".tsx"
              || String.eqb (Path.suffix f) ".jsx");
      [| destruct (String.eqb (Path.suffix f) ".vue"); [| reflexivity]];
      destruct Hf' as [-> | [src ->]]; simpl;
      first [apply try_continue_ok | reflexivity].
  - destruct (find_dependencies_returns lib P a Hpkg) as [a' ->].
    reflexivity.
Qed.

(** C1 fails in the code.  [open] is called before the [try] in every
    pass, so a matched path that cannot be opened raises [OSError] out of
    the pass and out of [analyze]; the siblings that follow it in the loop
    are not processed. *)
Theorem C1_unopenable_file_raises_out_of_every_pass :
  _find_database_schemas Locked.lib Locked.tree init = (Err OSError, init)
  /\ _find_api_endpoints Locked.lib Locked.tree init = (Err OSError, init)
  /\ _find_frontend_components Locked.tree init = (Err OSError, init)
  /\ _find_dependencies Locked.lib Locked.tree init = (Err OSError, init)
  /\ analyze Locked.lib Locked.tree init = (Err OSError, init).
Proof. repeat split; reflexivity. Qed.

(** * Further properties of the analyzer *)

(** ** Paths and strings *)

Lemma take_drop (i : nat) (s : string) : PyStr.take i s ++ PyStr.drop i s = s.
Proof.
  revert s. induction i as [| i IH]; intros s; [reflexivity |].
  destruct s as [| c s]; [reflexivity |]. simpl. now rewrite IH.
Qed.

Lemma append_empty_r (s : string) : s ++ "" = s.
Proof. induction s as [| c s IH]; simpl; [reflexivity | now rewrite IH]. Qed.

Lemma rfind_drop (c : ascii) (s : string) (i : nat) :
  PyStr.rfind c s = Some i -> exists r, PyStr.drop i s = String c r.
Proof.
  revert i. induction s as [| a s IH]; intros i; simpl; [discriminate |].
  destruct (PyStr.rfind c s) as [j |].
  - intros H. inversion H; subst. simpl. now apply IH.
  - destruct (Ascii.eqb_spec a c) as [-> | _]; [| discriminate].
    intros H. inversion H; subst. now exists s.
Qed.

(** The component name and the suffix a file is dispatched on split the
    file name: [stem + suffix == name], and the suffix is empty or starts
    with a dot. *)
Theorem stem_and_suffix_split_the_name (p : path) :
  Path.stem p ++ Path.suffix p = Path.name p
  /\ (Path.suffix p = "" \/ exists r, Path.suffix p = String "." r).
Proof.
  unfold Path.stem, Path.suffix.
  destruct (PyStr.rfind "." (Path.name p)) as [i |] eqn:E.
  - destruct (Nat.ltb 0 i && Nat.ltb i (String.length (Path.name p) - 1)).
    + split; [apply take_drop | right; now apply rfind_drop].
    + split; [apply append_empty_r | now left].
  - split; [apply append_empty_r | now left].
Qed.

Lemma prefix_of_longer (s t u : string) :
  String.prefix (s ++ t) u = true -> String.prefix s u = true.
Proof.
  revert u. induction s as [| c s IH]; intros u; simpl.
  - intros _. now destruct u.
  - destruct u as [| d u]; simpl; [discriminate |].
    destruct (ascii_dec c d); [apply IH | discriminate].
Qed.

Lemma contains_of_longer (s t u : string) :
  PyStr.contains (s ++ t) u = true -> PyStr.contains s u = true.
Proof.
  induction u as [| d u IH]; cbn [PyStr.contains]; intros H;
    apply orb_true_iff in H as [H | H]; apply orb_true_iff.
  - left. now apply prefix_of_longer with (t := t).
  - discriminate.
  - left. now apply prefix_of_longer with (t := t).
  - right. now apply IH.
Qed.

(** X1.  The route test of the frontend pass, ['Route' in content or 'Routes'
    in content], is the test ['Route' in content]: a text with [Routes]
    has [Route], and so has any text with [Router] or [useRouteMatch]. *)
Theorem route_test_is_one_substring_test (content : string) :
  (PyStr.contains "Route" content || PyStr.contains "Routes" content)
  = PyStr.contains "Route" content.
Proof.
  destruct (PyStr.contains "Route" content) eqn:E1; [reflexivity |].
  destruct (PyStr.contains "Routes" content) eqn:E2; [| reflexivity].
  apply (contains_of_longer "Route" "s") in E2. congruence.
Qed.

Lemma rstrip_twice (s : string) : PyStr.rstrip (PyStr.rstrip s) = PyStr.rstrip s.
Proof.
  induction s as [| c s IH]; [reflexivity |]. simpl.
  destruct (PyStr.rstrip s) as [| d r] eqn:E.
  - destruct (PyStr.isspace c) eqn:Ec; [reflexivity |]. simpl. now rewrite Ec.
  - simpl in *. now rewrite IH.
Qed.

Lemma lstrip_head (s : string) :
  PyStr.lstrip s = ""
  \/ exists c r, PyStr.lstrip s = String c r /\ PyStr.isspace c = false.
Proof.
  induction s as [| c s IH]; simpl; [now left |].
  destruct (PyStr.isspace c) eqn:Ec; [exact IH |]. right. now exists c, s.
Qed.

Lemma rstrip_head (c : ascii) (r : string) :
  PyStr.isspace c = false -> exists r', PyStr.rstrip (String c r) = String c r'.
Proof.
  intros Ec. simpl. destruct (PyStr.rstrip r) as [| d r'].
  - rewrite Ec. now exists "".
  - now exists (String d r').
Qed.

Lemma strip_twice (s : string) : PyStr.strip (PyStr.strip s) = PyStr.strip s.
Proof.
  unfold PyStr.strip.
  destruct (lstrip_head s) as [-> | (c & r & -> & Ec)]; [reflexivity |].
  destruct (rstrip_head c r Ec) as [r' E]. rewrite E.
  simpl PyStr.lstrip. rewrite Ec. rewrite <- E. apply rstrip_twice.
Qed.

(** X2.  Every requirement the dependency pass keeps from [requirements.txt] is
    non-empty and has no white space, and so no line end, at either
    end. *)
Theorem requirement_lines_are_trimmed (text l : string) :
  In l (requirement_lines text) -> l <> "" /\ PyStr.strip l = l.
Proof.
  unfold requirement_lines. intros H.
  apply in_map_iff in H as (line & <- & H).
  apply filter_In in H as [_ H]. apply andb_true_iff in H as [H _].
  split; [| apply strip_twice].
  intros E. rewrite E in H. discriminate H.
Qed.

Lemma requirement_lines_are_trimmed_witness :
  In "requests" (requirement_lines Pinned.requirements)
  /\ "requests" <> "" /\ PyStr.strip "requests" = "requests".
Proof.
  assert (H : In "requests" (requirement_lines Pinned.requirements))
    by (simpl; auto).
  split; [exact H |].
  exact (requirement_lines_are_trimmed Pinned.requirements "requests" H).
Defined.

(** ** More on the dependency pass *)

(** Each package file stores under one key and leaves the others. *)
Lemma dependency_file_keeps (lib : PyLib) (P : Project) (file_name k : string)
    (a : Analyzer) (r : result unit) (a' : Analyzer) :
  dependency_file lib P file_name a = (r, a') ->
  (file_name = "package.json" -> k <> "npm") ->
  (file_name = "requirements.txt" -> k <> "pip") ->
  (file_name = "pyproject.toml" -> k <> "poetry") ->
  (file_name = "poetry.lock" -> k <> "poetry") ->
  dict_get k (dependencies a') = dict_get k (dependencies a).
Proof.
  intros H Hnpm Hpip Htoml Hlock.
  assert (Hset : forall key v b r0 b',
             set_dependency key v b = (r0, b') -> key <> k ->
             dict_get k (dependencies b') = dict_get k (dependencies b)).
  { intros key v b r0 b' E Hne. inversion E; subst. simpl.
    now apply dict_get_set_other. }
  unfold dependency_file, path_exists, open, json_load, get_or_empty, read,
    bind, try_continue, ret, raise in H.
  destruct (file_at P [file_name]) as [| | | text];
    try (inversion H; subst; reflexivity).
  - destruct (String.eqb file_name "package.json");
      [inversion H; subst; reflexivity |].
    destruct (String.eqb file_name "requirements.txt");
      [inversion H; subst; reflexivity |].
    destruct (String.eqb file_name "pyproject.toml"
              || String.eqb file_name "poetry.lock");
      inversion H; subst; reflexivity.
  - destruct (String.eqb_spec file_name "package.json") as [E | _].
    + destruct (json_loads lib text) as [[| | | | | items |] |];
        try (inversion H; subst; reflexivity).
      destruct (dict_get "dependencies" items);
        destruct (dict_get "devDependencies" items);
        inversion H; subst; simpl; apply dict_get_set_other;
        intros <-; now apply Hnpm.
    + destruct (String.eqb_spec file_name "requirements.txt") as [E | _].
      * inversion H; subst; simpl. apply dict_get_set_other.
        intros <-. now apply Hpip.
      * destruct (String.eqb_spec file_name "pyproject.toml") as [E | _].
        { simpl in H. inversion H; subst. simpl. apply dict_get_set_other.
          intros <-. now apply Htoml. }
        destruct (String.eqb_spec file_name "poetry.lock") as [E | _];
          simpl in H; inversion H; subst; [| reflexivity].
        simpl. apply dict_get_set_other. intros <-. now apply Hlock.
Qed.

(** X3.  A [package.json] that holds an object gives the [npm] entry its
    [dependencies] and [devDependencies], each the empty mapping when the
    object has no such key. *)
Theorem npm_entry_defaults_to_empty_mappings (lib : PyLib) (P : Project)
    (text : string) (items : dict) (a a' : Analyzer) :
  file_at P ["package.json"] = Text text ->
  json_loads lib text = Some (PDict items) ->
  _find_dependencies lib P a = (Ok tt, a') ->
  dict_get "npm" (dependencies a') =
    Some (PDict
            [("dependencies",
              match dict_get "dependencies" items with
              | Some v => v
              | None => PDict []
              end);
             ("devDependencies",
              match dict_get "devDependencies" items with
              | Some v => v
              | None => PDict []
              end)]).
Proof.
  intros Hfile Hjson H.
  apply find_dependencies_inv in H as (a1 & a2 & a3 & H1 & H2 & H3 & H4).
  rewrite (dependency_file_keeps lib P _ "npm" _ _ _ H4); try discriminate.
  rewrite (dependency_file_keeps lib P _ "npm" _ _ _ H3); try discriminate.
  rewrite (dependency_file_keeps lib P _ "npm" _ _ _ H2); try discriminate.
  unfold dependency_file, path_exists, open, json_load, get_or_empty, read,
    bind, try_continue, ret in H1.
  rewrite Hfile in H1. simpl in H1. rewrite Hjson in H1.
  destruct (dict_get "dependencies" items);
    destruct (dict_get "devDependencies" items);
    inversion H1; subst; simpl; apply dict_get_set_same.
Qed.

Lemma npm_entry_defaults_to_empty_mappings_witness :
  dict_get "npm"
    (dependencies (snd (_find_dependencies Node.lib Node.root init))) =
    Some (PDict [("dependencies", PDict [("x", PStr "1.0")]);
                 ("devDependencies", PDict [])]).
Proof.
  apply (npm_entry_defaults_to_empty_mappings Node.lib Node.root
           Node.package_src [("dependencies", PDict [("x", PStr "1.0")])]
           init).
  - reflexivity.
  - reflexivity.
  - reflexivity.
Defined.

(** X4.  A [package.json] that is absent, does not decode, does not parse, or
    holds something else than an object leaves the [npm] entry as it was;
    the pass goes on to the other package files. *)
Theorem npm_entry_untouched_by_bad_package_json (lib : PyLib) (P : Project)
    (a a' : Analyzer) :
  file_at P ["package.json"] = Missing
  \/ file_at P ["package.json"] = Undecodable
  \/ (exists text,
         file_at P ["package.json"] = Text text
         /\ (json_loads lib text = None
             \/ exists v, json_loads lib text = Some v
                          /\ forall items, v <> PDict items)) ->
  _find_dependencies lib P a = (Ok tt, a') ->
  dict_get "npm" (dependencies a') = dict_get "npm" (dependencies a)
  /\ exists a1,
       dependency_file lib P "package.json" a = (Ok tt, a1)
       /\ for_each ["requirements.txt"; "pyproject.toml"; "poetry.lock"]
            (dependency_file lib P) a1 = (Ok tt, a').
Proof.
  intros Hbad H.
  apply find_dependencies_inv in H as (a1 & a2 & a3 & H1 & H2 & H3 & H4).
  split.
  - rewrite (dependency_file_keeps lib P _ "npm" _ _ _ H4); try discriminate.
    rewrite (dependency_file_keeps lib P _ "npm" _ _ _ H3); try discriminate.
    rewrite (dependency_file_keeps lib P _ "npm" _ _ _ H2); try discriminate.
    unfold dependency_file, path_exists, open, json_load, get_or_empty, read,
      bind, try_continue, ret, raise in H1.
    destruct Hbad as [E | [E | (text & E & Hjson)]]; rewrite E in H1;
      simpl in H1; try (inversion H1; subst; reflexivity).
    destruct Hjson as [Hjson | (v & Hjson & Hv)]; rewrite Hjson in H1.
    + inversion H1; subst; reflexivity.
    + destruct v; try (inversion H1; subst; reflexivity).
      now destruct (Hv items).
  - exists a1. split; [exact H1 |]. simpl. unfold bind.
    now rewrite H2, H3, H4.
Qed.

Lemma npm_entry_untouched_by_bad_package_json_witness :
  dict_get "npm"
    (dependencies (snd (_find_dependencies Node.lib Node.list_root init)))
  = None.
Proof.
  apply (npm_entry_untouched_by_bad_package_json Node.lib Node.list_root
           init (snd (_find_dependencies Node.lib Node.list_root init))).
  - right. right. exists "[1, 2]". split; [reflexivity |].
    right. exists (PList [PInt 1; PInt 2]). split; [reflexivity |].
    intros items. discriminate.
  - reflexivity.
Defined.

(** X5.  With a readable [pyproject.toml] and a [poetry.lock] that is absent or
    does not decode, the [poetry] entry is that of [pyproject.toml]. *)
Theorem poetry_entry_from_pyproject_alone (lib : PyLib) (P : Project)
    (toml : string) (a a' : Analyzer) :
  file_at P ["pyproject.toml"] = Text toml ->
  file_at P ["poetry.lock"] = Missing
  \/ file_at P ["poetry.lock"] = Undecodable ->
  _find_dependencies lib P a = (Ok tt, a') ->
  dict_get "poetry" (dependencies a') =
    Some (PDict [("file", PStr "pyproject.toml"); ("content", PStr toml)]).
Proof.
  intros Htoml Hlock H.
  apply find_dependencies_inv in H as (a1 & a2 & a3 & _ & _ & H3 & H4).
  assert (E : dependencies a' = dependencies a3).
  { unfold dependency_file, path_exists, open, read, bind, try_continue,
      ret, raise in H4.
    destruct Hlock as [Hlock | Hlock]; rewrite Hlock in H4; simpl in H4;
      now inversion H4. }
  rewrite E.
  rewrite (poetry_file_stored lib P "pyproject.toml" toml a2 a3) by auto.
  apply dict_get_set_same.
Qed.

Lemma poetry_entry_from_pyproject_alone_witness :
  dict_get "poetry"
    (dependencies (snd (_find_dependencies Node.lib Node.root init))) =
    Some (PDict [("file", PStr "pyproject.toml");
                 ("content", PStr "[tool.poetry]")]).
Proof.
  apply (poetry_entry_from_pyproject_alone Node.lib Node.root
           "[tool.poetry]" init).
  - reflexivity.
  - now left.
  - reflexivity.
Defined.

(** ** The passes and the fields *)

Lemma leaves_of_preserves {X : Type} (field : Analyzer -> X) (m : M unit) :
  (forall a, preserves (fun x => field x = field a) m) -> leaves field m.
Proof. intros H a r a' E. now apply (H a a r a' E). Qed.

Ltac untouched :=
  repeat first
    [ apply preserves_ret
    | apply preserves_raise
    | apply preserves_lift
    | apply preserves_try
    | apply preserves_bind; [| intros ?]
    | apply preserves_for_each; intros ? ?
    | match goal with
      | |- preserves _ (set_db_schema _ _) =>
          let E := fresh in let Ib := fresh in
          intros ? ? ? E Ib; inversion E; subst; exact Ib
      | |- preserves _ (set_api_spec _ _) =>
          let E := fresh in let Ib := fresh in
          intros ? ? ? E Ib; inversion E; subst; exact Ib
      | |- preserves _ (set_frontend_component _ _) =>
          let E := fresh in let Ib := fresh in
          intros ? ? ? E Ib; inversion E; subst; exact Ib
      | |- preserves _ (set_dependency _ _) =>
          let E := fresh in let Ib := fresh in
          intros ? ? ? E Ib; inversion E; subst; exact Ib
      | |- preserves _ (append_route _) =>
          let E := fresh in let Ib := fresh in
          intros ? ? ? E Ib; inversion E; subst; exact Ib
      | |- preserves _ (if ?b then _ else _) => destruct b
      | |- preserves _ (match ?x with _ => _ end) => destruct x
      end ].

Ltac leaves_field :=
  apply leaves_of_preserves; intros ?;
  unfold _find_database_schemas, schema_file, schema_node,
    _find_api_endpoints, endpoint_file_pass, endpoint_node,
    endpoint_decorator, _find_frontend_components, component_file_pass,
    _find_dependencies, dependency_file, json_load, get_or_empty,
    open, read, parse;
  untouched.

(** X6.  No pass writes to a record of another pass: the schema pass touches
    [db_schemas] only, the endpoint pass [api_specs] only, the frontend
    pass [frontend_components] and [routes] only, the dependency pass
    [dependencies] only, whether it returns or raises. *)
Theorem each_pass_leaves_the_other_records (lib : PyLib) (P : Project) :
  (leaves api_specs (_find_database_schemas lib P)
   /\ leaves frontend_components (_find_database_schemas lib P)
   /\ leaves dependencies (_find_database_schemas lib P)
   /\ leaves routes (_find_database_schemas lib P))
  /\ (leaves db_schemas (_find_api_endpoints lib P)
      /\ leaves frontend_components (_find_api_endpoints lib P)
      /\ leaves dependencies (_find_api_endpoints lib P)
      /\ leaves routes (_find_api_endpoints lib P))
  /\ (leaves db_schemas (_find_frontend_components P)
      /\ leaves api_specs (_find_frontend_components P)
      /\ leaves dependencies (_find_frontend_components P))
  /\ (leaves db_schemas (_find_dependencies lib P)
      /\ leaves api_specs (_find_dependencies lib P)
      /\ leaves frontend_components (_find_dependencies lib P)
      /\ leaves routes (_find_dependencies lib P)).
Proof. repeat split; leaves_field. Qed.

Section Commute.

Variables m1 m2 : M unit.
Variables e1 e2 : effect.
Variables r1 r2 : result unit.
Hypothesis run1 : forall a, m1 a = (r1, run_effect e1 a).
Hypothesis run2 : forall a, m2 a = (r2, run_effect e2 a).

Let with_db (d : dict) : Analyzer :=
  {| db_schemas := d; api_specs := []; frontend_components := [];
     dependencies := []; routes := [] |}.
Let with_api (d : dict) : Analyzer :=
  {| db_schemas := []; api_specs := d; frontend_components := [];
     dependencies := []; routes := [] |}.
Let with_fc (d : dict) : Analyzer :=
  {| db_schemas := []; api_specs := []; frontend_components := d;
     dependencies := []; routes := [] |}.
Let with_deps (d : dict) : Analyzer :=
  {| db_schemas := []; api_specs := []; frontend_components := [];
     dependencies := d; routes := [] |}.
Let with_routes (l : list string) : Analyzer :=
  {| db_schemas := []; api_specs := []; frontend_components := [];
     dependencies := []; routes := l |}.

Lemma stores_commute (w1 w2 : list (string * pyval)) :
  (forall d, store_all w1 d = d) \/ (forall d, store_all w2 d = d) ->
  forall d, store_all w2 (store_all w1 d) = store_all w1 (store_all w2 d).
Proof. intros [H | H] d; now rewrite !H. Qed.

Lemma appends_commute (l1 l2 : list string) :
  (forall l : list string, (l ++ l1)%list = l)
  \/ (forall l : list string, (l ++ l2)%list = l) ->
  forall l : list string, ((l ++ l1) ++ l2)%list = ((l ++ l2) ++ l1)%list.
Proof. intros [H | H] l; now rewrite !H. Qed.

Lemma commute_of_leaves :
  leaves db_schemas m1 \/ leaves db_schemas m2 ->
  leaves api_specs m1 \/ leaves api_specs m2 ->
  leaves frontend_components m1 \/ leaves frontend_components m2 ->
  leaves dependencies m1 \/ leaves dependencies m2 ->
  leaves routes m1 \/ leaves routes m2 ->
  commute m1 m2.
Proof.
  intros Hdb Hapi Hfc Hdeps Hroutes a Hok1 Hok2.
  rewrite run1 in Hok1. rewrite run2 in Hok2. simpl in Hok1, Hok2.
  unfold bind. rewrite (run1 a), (run2 a), Hok1, Hok2.
  rewrite run1, run2, Hok1, Hok2.
  f_equal. unfold run_effect. simpl. f_equal.
  - apply stores_commute.
    destruct Hdb as [H | H]; [left | right]; intros d.
    + exact (H (with_db d) _ _ (run1 _)).
    + exact (H (with_db d) _ _ (run2 _)).
  - apply stores_commute.
    destruct Hapi as [H | H]; [left | right]; intros d.
    + exact (H (with_api d) _ _ (run1 _)).
    + exact (H (with_api d) _ _ (run2 _)).
  - apply stores_commute.
    destruct Hfc as [H | H]; [left | right]; intros d.
    + exact (H (with_fc d) _ _ (run1 _)).
    + exact (H (with_fc d) _ _ (run2 _)).
  - apply stores_commute.
    destruct Hdeps as [H | H]; [left | right]; intros d.
    + exact (H (with_deps d) _ _ (run1 _)).
    + exact (H (with_deps d) _ _ (run2 _)).
  - apply appends_commute.
    destruct Hroutes as [H | H]; [left | right]; intros l.
    + exact (H (with_routes l) _ _ (run1 _)).
    + exact (H (with_routes l) _ _ (run2 _)).
Qed.

End Commute.

(** X7.  The four passes are independent: any two of them that return can be
    run in either order, from any analyzer, and leave the same analyzer. *)
Theorem passes_commute (lib : PyLib) (P : Project) :
  commute (_find_database_schemas lib P) (_find_api_endpoints lib P)
  /\ commute (_find_database_schemas lib P) (_find_frontend_components P)
  /\ commute (_find_database_schemas lib P) (_find_dependencies lib P)
  /\ commute (_find_api_endpoints lib P) (_find_frontend_components P)
  /\ commute (_find_api_endpoints lib P) (_find_dependencies lib P)
  /\ commute (_find_frontend_components P) (_find_dependencies lib P).
Proof.
  destruct (uniform_find_database_schemas lib P) as (rs & es & Hs).
  destruct (uniform_find_api_endpoints lib P) as (ra & ea & Ha).
  destruct (uniform_find_frontend_components P) as (rf & ef & Hf).
  destruct (uniform_find_dependencies lib P) as (rd & ed & Hd).
  destruct (each_pass_leaves_the_other_records lib P)
    as ((S1 & S2 & S3 & S4) & (A1 & A2 & A3 & A4) & (F1 & F2 & F3)
        & (D1 & D2 & D3 & D4)).
  repeat split.
  - apply (commute_of_leaves _ _ es ea rs ra); auto.
  - apply (commute_of_leaves _ _ es ef rs rf); auto.
  - apply (commute_of_leaves _ _ es ed rs rd); auto.
  - apply (commute_of_leaves _ _ ea ef ra rf); auto.
  - apply (commute_of_leaves _ _ ea ed ra rd); auto.
  - apply (commute_of_leaves _ _ ef ed rf rd); auto.
Qed.

(** ** More on the frontend pass *)

(** What one file does to the route list. *)
Lemma component_file_pass_routes (P : Project) (p : path) (a : Analyzer)
    (r : result unit) (a' : Analyzer) :
  component_file_pass P p a = (r, a') ->
  routes a' = routes a
  \/ (router_file P p
      /\ routes a' = (routes a ++ [Path.relative_str p])%list).
Proof.
  unfold component_file_pass, open, read, bind, try_continue, ret, raise.
  destruct (String.eqb (Path.suffix p) ".tsx"
            || String.eqb (Path.suffix p) ".jsx") eqn:Eext.
  - destruct (file_at P p) as [| | | content] eqn:Efile; simpl;
      try (intros H; inversion H; subst; now left).
    destruct (PyStr.contains "export default" content
              || PyStr.contains "React.FC" content) eqn:Ecomp; simpl;
      [| intros H; inversion H; subst; now left].
    destruct (PyStr.contains "Route" content
              || PyStr.contains "Routes" content) eqn:Eroute; simpl;
      intros H; inversion H; subst; [right | now left].
    split; [| reflexivity]. split.
    + apply orb_true_iff in Eext as [E | E]; apply String.eqb_eq in E; auto.
    + exists content. split; [exact Efile |]. split.
      * now apply orb_true_iff in Ecomp.
      * now rewrite route_test_is_one_substring_test in Eroute.
  - destruct (String.eqb (Path.suffix p) ".vue").
    + destruct (file_at P p) as [| | | content]; simpl;
        try (intros H; inversion H; subst; now left).
      destruct (PyStr.contains "<template>" content); simpl;
        intros H; inversion H; subst; now left.
    + intros H; inversion H; subst; now left.
Qed.

Lemma for_each_routes (P : Project) (files l : list path) :
  incl l files ->
  forall a r a',
    for_each l (component_file_pass P) a = (r, a') ->
    forall route,
      In route (routes a') ->
      In route (routes a)
      \/ exists p,
           In p files /\ router_file P p /\ route = Path.relative_str p.
Proof.
  induction l as [| p l IH]; intros Hl a r a' H route Hroute.
  - inversion H; subst. now left.
  - simpl in H. unfold bind in H.
    assert (Hp : In p files) by (apply Hl; now left).
    assert (Hone : forall r1 a1,
               component_file_pass P p a = (r1, a1) ->
               In route (routes a1) ->
               In route (routes a)
               \/ exists q,
                    In q files /\ router_file P q
                    /\ route = Path.relative_str q).
    { intros r1 a1 E Hin.
      destruct (component_file_pass_routes P p a r1 a1 E) as [Eq | [Hr Eq]];
        rewrite Eq in Hin; [now left |].
      apply in_app_or in Hin as [Hin | [<- | []]]; [now left |].
      right. now exists p. }
    destruct (component_file_pass P p a) as [[[] | e] a1] eqn:E.
    + destruct (IH (fun q Hq => Hl q (or_intror Hq)) a1 r a' H route Hroute)
        as [Hin | Hex]; [| now right].
      now apply (Hone (Ok tt) a1).
    + inversion H; subst. now apply (Hone (Err e) a').
Qed.

(** X8.  The route list only grows by router files: every path the frontend
    pass leaves in it was there before, or is the relative path of a
    matched [.tsx] or [.jsx] file whose text marks a component and
    contains [Route].  A [.vue] file, a [.ts] file or a file that is no
    component is never listed. *)
Theorem routes_come_from_router_files (P : Project) (a : Analyzer)
    (r : result unit) (a' : Analyzer) (route : string) :
  _find_frontend_components P a = (r, a') ->
  In route (routes a') ->
  In route (routes a)
  \/ exists p,
       In p (flat_map (glob P) frontend_patterns)
       /\ router_file P p /\ route = Path.relative_str p.
Proof.
  intros H Hroute.
  now apply (for_each_routes P _ _ (incl_refl _) a r a' H route Hroute).
Qed.

Lemma routes_come_from_router_files_witness :
  In "src/b/Index.tsx" (routes init)
  \/ exists p,
       In p (flat_map (glob Twins.tree) frontend_patterns)
       /\ router_file Twins.tree p /\ "src/b/Index.tsx" = Path.relative_str p.
Proof.
  apply (routes_come_from_router_files Twins.tree init (Ok tt)
           (snd (_find_frontend_components Twins.tree init))).
  - reflexivity.
  - simpl. now left.
Defined.

Lemma component_file_pass_names (P : Project) (p : path) (a a' : Analyzer) :
  component_file P p ->
  component_file_pass P p a = (Ok tt, a') ->
  dict_get (Path.stem p) (frontend_components a') = Some (component_entry p).
Proof.
  intros (content & Hfile & Hcase).
  unfold component_file_pass, open, read, bind, try_continue, ret.
  destruct Hcase as [[Hext Hcomp] | [Hext Hcomp]].
  - assert (E1 : (String.eqb (Path.suffix p) ".tsx"
                  || String.eqb (Path.suffix p) ".jsx") = true)
      by (destruct Hext as [-> | ->]; reflexivity).
    assert (E2 : (PyStr.contains "export default" content
                  || PyStr.contains "React.FC" content) = true)
      by (destruct Hcomp as [-> | ->]; auto using orb_true_r).
    rewrite E1, Hfile. simpl. rewrite E2. simpl.
    destruct (PyStr.contains "Route" content
              || PyStr.contains "Routes" content); simpl;
      intros H; inversion H; subst; simpl; apply dict_get_set_same.
  - rewrite Hext. simpl. rewrite Hfile. simpl. rewrite Hcomp. simpl.
    intros H; inversion H; subst; simpl; apply dict_get_set_same.
Qed.

Lemma component_file_pass_keeps_entry (P : Project) (k : string) (v : pyval)
    (q : path) :
  Path.stem q <> k ->
  preserves (fun a => dict_get k (frontend_components a) = Some v)
    (component_file_pass P q).
Proof.
  intros Hne.
  assert (Hset : forall w,
             preserves (fun a => dict_get k (frontend_components a) = Some v)
               (set_frontend_component (Path.stem q) w)).
  { intros w a r a' H Ia. inversion H; subst. simpl.
    now rewrite dict_get_set_other. }
  assert (Happ : forall r0,
             preserves (fun a => dict_get k (frontend_components a) = Some v)
               (append_route r0)).
  { intros r0 a r a' H Ia. inversion H; subst. exact Ia. }
  unfold component_file_pass.
  preserved; auto using @preserves_open, @preserves_read.
Qed.

(** X9.  Components are named by the stem of their file alone, so files with
    the same stem share one entry: the entry under a stem is that of the
    last matched component file with this stem, and an earlier one of the
    same name in another directory is overwritten. *)
Theorem last_component_file_names_the_entry (P : Project)
    (before after : list path) (p : path) (a a' : Analyzer) :
  flat_map (glob P) frontend_patterns = (before ++ p :: after)%list ->
  component_file P p ->
  (forall q, In q after -> Path.stem q <> Path.stem p) ->
  _find_frontend_components P a = (Ok tt, a') ->
  dict_get (Path.stem p) (frontend_components a') = Some (component_entry p).
Proof.
  intros Hfiles Hcomp Hafter Hrun.
  unfold _find_frontend_components in Hrun. rewrite Hfiles in Hrun.
  apply for_each_ok_split in Hrun as (a1 & a2 & _ & Hp & Hrest).
  apply (preserves_for_each
           (fun x => dict_get (Path.stem p) (frontend_components x)
                     = Some (component_entry p))
           after (component_file_pass P)
           (fun q Hq => component_file_pass_keeps_entry P _ _ q (Hafter q Hq))
           a2 (Ok tt) a' Hrest).
  now apply (component_file_pass_names P p a1 a2).
Qed.

Lemma last_component_file_names_the_entry_witness :
  dict_get "Index"
    (frontend_components (snd (_find_frontend_components Twins.tree init))) =
    Some (component_entry ["src"; "b"; "Index.tsx"]).
Proof.
  apply (last_component_file_names_the_entry Twins.tree
           [["src"; "a"; "Index.tsx"]] [["src"; "Card.vue"]]
           ["src"; "b"; "Index.tsx"] init).
  - reflexivity.
  - exists "const B: React.FC = () => <Route />".
    split; [reflexivity |]. left. split; [now left | now right].
  - intros q [<- | []]. discriminate.
  - reflexivity.
Defined.

(** ** More on the walk and the schema pass *)

Lemma walk_todo_length (fuel : nat) (todo : list node) :
  total_size todo <= fuel ->
  List.length (walk_todo fuel todo) = total_size todo.
Proof.
  revert todo. induction fuel as [| fuel IH]; intros todo Hle.
  - destruct todo as [| n rest]; [reflexivity |].
    simpl in Hle. pose proof (node_size_pos n). lia.
  - destruct todo as [| n rest]; [reflexivity |].
    simpl in *. rewrite node_size_children in *.
    rewrite IH by (rewrite total_size_app; lia).
    rewrite total_size_app. lia.
Qed.

Lemma walk_todo_descendants (tree : node) (fuel : nat) (todo : list node) :
  (forall n, In n todo -> descendant tree n) ->
  forall n, In n (walk_todo fuel todo) -> descendant tree n.
Proof.
  revert todo. induction fuel as [| fuel IH]; intros todo Htodo n Hn.
  - contradiction.
  - destruct todo as [| m rest]; [contradiction |]. simpl in Hn.
    destruct Hn as [<- | Hn]; [apply Htodo; now left |].
    apply (IH (rest ++ iter_child_nodes m)%list); [| exact Hn].
    intros c Hc. apply in_app_or in Hc as [Hc | Hc].
    + apply Htodo. now right.
    + assert (Hm : descendant tree m) by (apply Htodo; now left).
      clear - Hm Hc. induction Hm as [m | t c0 m Hc0 Hm IH].
      * apply descendant_child with (c := c); [exact Hc | constructor].
      * apply descendant_child with (c := c0); auto.
Qed.

Lemma descendant_walked (tree n : node) :
  descendant tree n -> In n (ast_walk tree).
Proof.
  intros H.
  assert (G : forall t m, descendant t m ->
                          In t (ast_walk tree) -> In m (ast_walk tree)).
  { clear. intros t m H. induction H as [m | t c m Hc Hm IH]; intros Ht.
    - exact Ht.
    - apply IH. now apply ast_walk_children with (n := t). }
  apply (G tree n H). apply ast_walk_root.
Qed.

(** The loop [for node in ast.walk(tree)] of the schema and endpoint
    passes visits the nodes of the tree and nothing else: the tree itself
    and whatever is nested in it at any depth, with as many visits as the
    tree has nodes. *)
Theorem walk_visits_the_nodes_of_the_tree (tree : node) :
  (forall n, In n (ast_walk tree) <-> descendant tree n)
  /\ List.length (ast_walk tree) = node_size tree.
Proof.
  split.
  - intros n. split.
    + apply walk_todo_descendants. intros m [<- | []]. constructor.
    + apply descendant_walked.
  - unfold ast_walk. rewrite walk_todo_length; simpl; lia.
Qed.

Lemma find_database_schemas_shape (lib : PyLib) (P : Project) :
  _find_database_schemas lib P =
    for_each (flat_map (glob P) model_patterns)
      (tree_file_pass lib P (schema_node lib)).
Proof. reflexivity. Qed.

(** X10.  The schema pass records nothing but model classes: every name it
    leaves in [db_schemas] was there before, or is the name of a class of
    a matched file among whose bases is the plain name [Model] or
    [BaseModel].  A class whose bases are all dotted, such as
    [models.Model], is never recorded. *)
Theorem schema_names_are_model_classes (lib : PyLib) (P : Project)
    (a : Analyzer) (r : result unit) (a' : Analyzer) (name : string) :
  _find_database_schemas lib P a = (r, a') ->
  In name (keys (db_schemas a')) ->
  In name (keys (db_schemas a))
  \/ model_class lib P (flat_map (glob P) model_patterns) name.
Proof.
  intros Hrun Hname. rewrite find_database_schemas_shape in Hrun.
  set (files := flat_map (glob P) model_patterns) in *.
  set (I := fun x : Analyzer =>
              forall k, In k (keys (db_schemas x)) ->
                        In k (keys (db_schemas a))
                        \/ model_class lib P files k).
  assert (Hstable : forall f n, visited lib P files f n ->
                                preserves I (schema_node lib f n)).
  { intros f n Hv. destruct n as [| k bases body | | |];
      try apply preserves_ret.
    unfold schema_node. destruct (existsb is_model_base bases) eqn:Hbase;
      [| apply preserves_ret].
    apply preserves_bind; [apply preserves_lift | intros fields].
    intros b r0 b' E Ib k0 Hk0. inversion E; subst. simpl in Hk0.
    apply keys_dict_set_inv in Hk0 as [-> | Hk0]; [| now apply Ib].
    right. now exists f, bases, body. }
  apply (tree_pass_preserves lib P (schema_node lib) I files Hstable files
           (incl_refl _) a r a' Hrun); [| exact Hname].
  intros k Hk. now left.
Qed.

Lemma schema_names_are_model_classes_witness :
  In "A" (keys (db_schemas init))
  \/ model_class Mixed.lib Mixed.tree
       (flat_map (glob Mixed.tree) model_patterns) "A".
Proof.
  apply (schema_names_are_model_classes Mixed.lib Mixed.tree init (Ok tt)
           (snd (_find_database_schemas Mixed.lib Mixed.tree init))).
  - reflexivity.
  - simpl. now left.
Defined.

Lemma collect_fields_ok (lib : PyLib) (body : list node)
    (acc fields : list pyval) :
  collect_fields lib body acc = Ok fields ->
  fields = (acc ++ flat_map (annotated_field lib) body)%list.
Proof.
  revert acc. induction body as [| child body IH]; intros acc; simpl.
  - intros H. inversion H. now rewrite app_nil_r.
  - destruct child as [| | | target annotation |];
      try (intros H; now apply IH in H).
    destruct target as [field_name | | | |]; try discriminate.
    intros H. apply IH in H. now rewrite <- app_assoc in H.
Qed.

(** X11.  A model class of a valid file, at whatever depth of the tree, is
    recorded under its name with one field per annotated assignment
    directly in its body, in order, and with the relative path of its
    file, provided no model class of that name in the matched files has
    another body or file (a later class of the same name overwrites). *)
Theorem model_class_entry_holds_its_annotated_fields (lib : PyLib)
    (P : Project) (f : path) (tree : node) (name : string)
    (bases : list expr) (body : list node) (a a' : Analyzer) :
  In f (flat_map (glob P) model_patterns) ->
  valid_model_file lib P f tree ->
  descendant tree (ClassDef name bases body) ->
  existsb is_model_base bases = true ->
  (forall f' bases' body',
      visited lib P (flat_map (glob P) model_patterns) f'
        (ClassDef name bases' body') ->
      existsb is_model_base bases' = true ->
      Path.relative_str f' = Path.relative_str f /\ body' = body) ->
  _find_database_schemas lib P a = (Ok tt, a') ->
  dict_get name (db_schemas a') =
    Some (PDict [("fields", PList (flat_map (annotated_field lib) body));
                 ("file", PStr (Path.relative_str f))]).
Proof.
  intros Hf [(src & Hfile & Hparse) Hquiet] Hdesc Hbase Hsole Hrun.
  rewrite find_database_schemas_shape in Hrun.
  set (files := flat_map (glob P) model_patterns) in *.
  apply descendant_walked in Hdesc.
  rewrite forallb_forall in Hquiet.
  destruct (collect_fields lib body []) as [fields | e] eqn:Hfields.
  2:{ specialize (Hquiet _ Hdesc). simpl in Hquiet.
      rewrite Hbase, Hfields in Hquiet. discriminate. }
  pose proof (collect_fields_ok lib body [] fields Hfields) as Hshape.
  simpl in Hshape. subst fields.
  set (entry := PDict [("fields", PList (flat_map (annotated_field lib) body));
                       ("file", PStr (Path.relative_str f))]).
  set (I := fun x : Analyzer => dict_get name (db_schemas x) = Some entry).
  assert (Hstable : forall f' n', visited lib P files f' n' ->
                                  preserves I (schema_node lib f' n')).
  { intros f' n' Hv. destruct n' as [| k bases' body' | | |];
      try apply preserves_ret.
    unfold schema_node. destruct (existsb is_model_base bases') eqn:Hbase';
      [| apply preserves_ret].
    intros b r0 b'. unfold bind, lift.
    destruct (collect_fields lib body' []) as [fields' | e] eqn:Hfields';
      intros E Ib; inversion E; subst; [| exact Ib].
    unfold I. simpl. rewrite dict_get_set.
    destruct (String.eqb_spec k name) as [-> | _]; [| exact Ib].
    destruct (Hsole f' bases' body' Hv Hbase') as [-> ->].
    rewrite Hfields in Hfields'. now inversion Hfields'. }
  apply (tree_pass_reaches lib P (schema_node lib) I files Hstable f src tree
           (ClassDef name bases body) a a'); auto.
  - intros n' a0 Hn'. apply schema_node_quiet. now apply Hquiet.
  - intros a0 a1. unfold schema_node. rewrite Hbase. unfold bind, lift.
    rewrite Hfields. intros E. inversion E; subst. unfold I. simpl.
    apply dict_get_set_same.
Qed.

Lemma model_class_entry_holds_its_annotated_fields_witness :
  dict_get "Inner"
    (db_schemas (snd (_find_database_schemas Mixed.lib Mixed.tree init))) =
    Some (PDict [("fields",
                  PList [PDict [("name", PStr "id"); ("type", PStr "int")]]);
                 ("file", PStr "shop/schemas.py")]).
Proof.
  apply (model_class_entry_holds_its_annotated_fields Mixed.lib Mixed.tree
           ["shop"; "schemas.py"] Mixed.nested_parsed "Inner"
           [Name "BaseModel"]
           [AnnAssign (Name "id") (Name "int"); OtherNode []] init).
  - simpl. right. now left.
  - split; [now exists Mixed.nested_src | reflexivity].
  - eapply descendant_child; [now left |].
    eapply descendant_child; [now left |]. constructor.
  - reflexivity.
  - intros f' bases' body' (Hf' & src' & tree' & Hfile & Hparse & Hin) _.
    simpl in Hf'. destruct Hf' as [<- | [<- | []]].
    + vm_compute in Hfile. inversion Hfile; subst src'.
      vm_compute in Hparse. inversion Hparse; subst tree'.
      vm_compute in Hin.
      repeat (destruct Hin as [Hin | Hin]; [discriminate Hin |]).
      destruct Hin.
    + vm_compute in Hfile. inversion Hfile; subst src'.
      vm_compute in Hparse. inversion Hparse; subst tree'.
      vm_compute in Hin.
      destruct Hin as [Hin | [Hin | [Hin | [Hin | [Hin | []]]]]];
        try discriminate Hin.
      inversion Hin. now split.
  - reflexivity.
Defined.

(** X12.  A model class with an annotated assignment to something else than a
    name (an attribute, a subscript) ends the processing of its file: the
    file is handled as if the walk had stopped before that class.  The
    classes met earlier in the file stay recorded; this class and all that
    follow it in the walk are not, and the pass goes on with the next
    file. *)
Theorem failing_class_cuts_its_file_short (lib : PyLib) (P : Project)
    (f : path) (src : string) (tree : node) (before after : list node)
    (n : node) (a : Analyzer) :
  file_at P f = Text src ->
  ast_parse lib src = Some tree ->
  ast_walk tree = (before ++ n :: after)%list ->
  forallb (schema_node_evaluates lib) before = true ->
  schema_node_evaluates lib n = false ->
  schema_file lib P f a = for_each before (schema_node lib f) a
  /\ fst (schema_file lib P f a) = Ok tt.
Proof.
  intros Hfile Hparse Hwalk Hbefore Hn.
  rewrite schema_file_shape.
  rewrite (tree_file_pass_parsed lib P (schema_node lib) f src tree a)
    by assumption.
  unfold try_continue. rewrite Hwalk, for_each_app.
  assert (Hok : fst (for_each before (schema_node lib f) a) = Ok tt).
  { apply for_each_no_raise. intros x a0 Hx. apply schema_node_quiet.
    rewrite forallb_forall in Hbefore. now apply Hbefore. }
  unfold bind.
  destruct (for_each before (schema_node lib f) a) as [[[] | e] a1];
    simpl in Hok; [| discriminate].
  assert (Hraise : exists e, schema_node lib f n a1 = (Err e, a1)).
  { unfold schema_node_evaluates in Hn. unfold schema_node.
    destruct n as [| k bases body | | |]; try discriminate.
    destruct (existsb is_model_base bases); [| discriminate].
    unfold bind, lift.
    destruct (collect_fields lib body []) as [fields | e]; [discriminate |].
    now exists e. }
  destruct Hraise as [e He]. simpl. unfold bind. rewrite He. now split.
Qed.

Lemma failing_class_cuts_its_file_short_witness :
  keys (db_schemas (snd (schema_file Mixed.lib Mixed.tree
                           ["shop"; "models.py"] init))) = ["A"].
Proof.
  destruct (failing_class_cuts_its_file_short Mixed.lib Mixed.tree
              ["shop"; "models.py"] Mixed.src Mixed.parsed
              [Mixed.parsed;
               ClassDef "A" [Name "Model"] [AnnAssign (Name "x") (Name "int")]]
              [ClassDef "C" [Name "Model"] [AnnAssign (Name "z") (Name "int")];
               AnnAssign (Name "x") (Name "int");
               AnnAssign (Attribute (Name "self") "price") (Name "int");
               AnnAssign (Name "z") (Name "int")]
              (ClassDef "B" [Name "Model"]
                 [AnnAssign (Attribute (Name "self") "price") (Name "int")])
              init eq_refl eq_refl eq_refl eq_refl eq_refl) as [E _].
  rewrite E. reflexivity.
Defined.

(** ** What [analyze] raises and returns *)

Lemma only_raises_ret {A : Type} (E : exn -> Prop) (x : A) :
  only_raises E (ret x).
Proof. intros a e a' H. discriminate H. Qed.

Lemma only_raises_raise {A : Type} (E : exn -> Prop) (e : exn) :
  E e -> only_raises E (@raise A e).
Proof. intros He a e' a' H. inversion H; subst. exact He. Qed.

Lemma only_raises_bind {A B : Type} (E : exn -> Prop) (m : M A)
    (f : A -> M B) :
  only_raises E m -> (forall x, only_raises E (f x)) ->
  only_raises E (bind m f).
Proof.
  intros Hm Hf a e a'. unfold bind.
  destruct (m a) as [[x | e0] a1] eqn:Em; intros H.
  - now apply (Hf x a1 e a').
  - inversion H; subst. now apply (Hm a e a').
Qed.

Lemma only_raises_try (E : exn -> Prop) (m : M unit) :
  only_raises E (try_continue m).
Proof.
  intros a e a'. unfold try_continue.
  destruct (m a) as [[x | e0] a1]; discriminate.
Qed.

Lemma only_raises_for_each {A : Type} (E : exn -> Prop) (l : list A)
    (body : A -> M unit) :
  (forall x, only_raises E (body x)) -> only_raises E (for_each l body).
Proof.
  intros H. induction l as [| x l IH]; simpl.
  - apply only_raises_ret.
  - apply only_raises_bind; auto.
Qed.

Ltac raises_oserror :=
  repeat first
    [ apply only_raises_ret
    | apply only_raises_raise; reflexivity
    | apply only_raises_try
    | apply only_raises_bind; [| intros ?]
    | apply only_raises_for_each; intros ?
    | match goal with
      | |- only_raises _ (if ?b then _ else _) => destruct b
      | |- only_raises _ (match ?x with _ => _ end) => destruct x
      end ].

(** The four passes raise nothing but the [OSError] of [open]. *)
Lemma extraction_raises_only_OSError (lib : PyLib) (P : Project) :
  only_raises (fun e => e = OSError) (extraction lib P).
Proof.
  unfold extraction, _find_database_schemas, schema_file,
    _find_api_endpoints, endpoint_file_pass, _find_frontend_components,
    component_file_pass, _find_dependencies, dependency_file, open.
  raises_oserror.
Qed.

Lemma preserves_of_leaves {X : Type} (field : Analyzer -> X)
    (Q : X -> Prop) (m : M unit) :
  leaves field m -> preserves (fun a => Q (field a)) m.
Proof. intros H a r a' E Qa. now rewrite (H a r a' E). Qed.

Lemma forall_dict_set (Q : string * pyval -> Prop) (k : string) (v : pyval)
    (d : dict) :
  Forall Q d -> Q (k, v) -> Forall Q (dict_set k v d).
Proof.
  intros Hd Hkv. induction d as [| [k0 v0] d IH]; simpl.
  - now constructor.
  - inversion Hd; subst.
    destruct (String.eqb_spec k0 k) as [-> | _]; constructor; auto.
Qed.

Lemma split_first_word (s t : string) :
  PyStr.lstrip s <> "" -> PyStr.split_first (s ++ t) <> None.
Proof.
  intros Hs. unfold PyStr.split_first.
  assert (H : PyStr.lstrip (s ++ t) <> "").
  { induction s as [| c s IH]; simpl in *; [congruence |].
    destruct (PyStr.isspace c); [now apply IH | discriminate]. }
  destruct (PyStr.lstrip (s ++ t)); [congruence | discriminate].
Qed.

Lemma endpoint_pass_keeps_well_formed (lib : PyLib) (P : Project) :
  attributes_are_words lib P ->
  preserves endpoints_well_formed (_find_api_endpoints lib P).
Proof.
  intros Hwords.
  change (_find_api_endpoints lib P)
    with (for_each (flat_map (glob P) api_patterns)
            (tree_file_pass lib P (endpoint_node lib))).
  apply (tree_pass_preserves lib P (endpoint_node lib) endpoints_well_formed
           (flat_map (glob P) api_patterns)); [| apply incl_refl].
  intros f n Hv. destruct n as [| | name body ds | |];
    try apply preserves_ret.
  apply endpoint_node_preserves. intros func args route Hin Hcallee Hroute.
  intros a r a' E Ha. inversion E; subst.
  unfold endpoints_well_formed. simpl. apply forall_dict_set; [exact Ha |].
  simpl. split; [| now exists name, (Path.relative_str f)].
  unfold endpoint_key. apply split_first_word.
  destruct func as [| value attr | | |]; try discriminate.
  apply (Hwords f name value attr route). now exists body, ds, args.
Qed.

Lemma extraction_keeps_well_formed (lib : PyLib) (P : Project) :
  attributes_are_words lib P ->
  preserves endpoints_well_formed (extraction lib P).
Proof.
  intros Hwords.
  destruct (each_pass_leaves_the_other_records lib P)
    as ((S1 & _) & _ & (_ & F2 & _) & (_ & D2 & _)).
  unfold extraction.
  apply preserves_bind;
    [exact (preserves_of_leaves api_specs _ _ S1) | intros _].
  apply preserves_bind;
    [now apply endpoint_pass_keeps_well_formed | intros _].
  apply preserves_bind;
    [exact (preserves_of_leaves api_specs _ _ F2) | intros _].
  exact (preserves_of_leaves api_specs _ _ D2).
Qed.

Lemma openapi_paths_returns (lib : PyLib) (items acc : dict) :
  Forall (fun kv => PyStr.split_first (fst kv) <> None
                    /\ exists name file, snd kv = endpoint_entry name file)
    items ->
  exists paths, openapi_paths lib items acc = Ok paths.
Proof.
  revert acc. induction items as [| [k v] items IH]; intros acc H; simpl.
  - now exists acc.
  - inversion H as [| ? ? [Hk (name & file & Hv)] Hrest]; subst.
    simpl in Hk, Hv. subst v. unfold path_item.
    destruct (PyStr.split_first k); [| congruence]. simpl. now apply IH.
Qed.

(** X13.  From a fresh analyzer, [analyze] raises nothing but the [OSError] of
    an [open]: every other failure of a pass is caught, and the assembly
    of the blueprint does not fail on what the passes have stored. *)
Theorem analyze_raises_only_OSError (lib : PyLib) (P : Project) (e : exn)
    (a' : Analyzer) :
  attributes_are_words lib P ->
  analyze lib P init = (Err e, a') ->
  e = OSError.
Proof.
  intros Hwords. rewrite analyze_extraction. unfold bind.
  destruct (extraction lib P init) as [[[] | e0] a1] eqn:E.
  - assert (Hwf : endpoints_well_formed a1).
    { apply (extraction_keeps_well_formed lib P Hwords init (Ok tt) a1 E).
      constructor. }
    unfold _generate_blueprint.
    destruct (openapi_paths_returns lib (api_specs a1) [] Hwf) as [paths ->].
    discriminate.
  - intros H. inversion H; subst.
    now apply (extraction_raises_only_OSError lib P init e a').
Qed.

Lemma analyze_raises_only_OSError_witness :
  fst (analyze Locked.lib Locked.tree init) = Err OSError.
Proof.
  destruct (analyze Locked.lib Locked.tree init) as [[v | e] a'] eqn:E;
    [discriminate E |].
  simpl. f_equal.
  apply (analyze_raises_only_OSError Locked.lib Locked.tree e a');
    [| exact E].
  intros f name value attr route (body & ds & args & Hv & Hin & _ & _).
  destruct Hv as (Hf & src & tree & Hfile & Hparse & Hn).
  simpl in Hf. destruct Hf as [<- | [<- | []]].
  - vm_compute in Hfile. discriminate Hfile.
  - vm_compute in Hfile. inversion Hfile; subst src.
    vm_compute in Hparse. inversion Hparse; subst tree.
    vm_compute in Hn. destruct Hn as [Hn | [Hn | [Hn | []]]];
      try discriminate Hn.
    inversion Hn; subst. destruct Hin as [Hin | []].
    inversion Hin; subst. discriminate.
Defined.

(** X14.  From a fresh analyzer, [analyze] returns a blueprint whenever every
    matched file and every package file present can be opened, whatever
    the files contain. *)
Theorem analyze_returns_when_files_open (lib : PyLib) (P : Project) :
  attributes_are_words lib P ->
  (forall p,
      In p (flat_map (glob P)
              (model_patterns ++ api_patterns ++ frontend_patterns)) ->
      file_at P p = Undecodable \/ exists src, file_at P p = Text src) ->
  (forall file_name,
      In file_name package_files -> file_at P [file_name] <> Unopenable) ->
  exists blueprint a', analyze lib P init = (Ok blueprint, a').
Proof.
  intros Hwords Hopen Hpkg.
  destruct (analyze lib P init) as [[blueprint | e] a'] eqn:E;
    [now exists blueprint, a' |].
  exfalso. revert E. unfold analyze, bind.
  pose proof (fun a => passes_return_when_files_open lib P a Hopen Hpkg) as Hret.
  destruct (Hret init) as (H1 & _).
  destruct (_find_database_schemas lib P init) as [[[] | e1] a1] eqn:E1;
    simpl in H1; [| discriminate].
  destruct (Hret a1) as (_ & H2 & _).
  destruct (_find_api_endpoints lib P a1) as [[[] | e2] a2] eqn:E2;
    simpl in H2; [| discriminate].
  destruct (Hret a2) as (_ & _ & H3 & _).
  destruct (_find_frontend_components P a2) as [[[] | e3] a3] eqn:E3;
    simpl in H3; [| discriminate].
  destruct (Hret a3) as (_ & _ & _ & H4).
  destruct (_find_dependencies lib P a3) as [[[] | e4] a4] eqn:E4;
    simpl in H4; [| discriminate].
  assert (Hwf : endpoints_well_formed a4).
  { apply (extraction_keeps_well_formed lib P Hwords init (Ok tt) a4);
      [| constructor].
    unfold extraction, bind. now rewrite E1, E2, E3, E4. }
  unfold _generate_blueprint.
  destruct (openapi_paths_returns lib (api_specs a4) [] Hwf) as [paths ->].
  discriminate.
Qed.

Lemma analyze_returns_when_files_open_witness :
  exists blueprint a', analyze Api.lib Api.tree init = (Ok blueprint, a').
Proof.
  apply (analyze_returns_when_files_open Api.lib Api.tree).
  - intros f name value attr route (body & ds & args & Hv & Hin & _ & _).
    destruct Hv as (Hf & src & tree & Hfile & Hparse & Hn).
    simpl in Hf. destruct Hf as [<- | [<- | []]].
    + vm_compute in Hfile. inversion Hfile; subst src.
      vm_compute in Hparse. inversion Hparse; subst tree.
      vm_compute in Hn. destruct Hn as [Hn | [Hn | [Hn | []]]];
        try discriminate Hn.
      inversion Hn; subst. destruct Hin as [Hin | []].
      inversion Hin; subst. discriminate.
    + vm_compute in Hfile. inversion Hfile; subst src.
      vm_compute in Hparse. inversion Hparse; subst tree.
      vm_compute in Hn. destruct Hn as [Hn | [Hn | [Hn | []]]];
        try discriminate Hn.
      inversion Hn; subst. destruct Hin as [Hin | []].
      inversion Hin; subst. discriminate.
  - simpl. intros p [<- | [<- | []]]; right; eexists; reflexivity.
  - intros file_name [<- | [<- | [<- | [<- | []]]]] H;
      vm_compute in H; discriminate H.
Defined.

(** ** The paths of the blueprint *)

Lemma keys_dict_set_absent (k : string) (v : pyval) (d : dict) :
  ~ In k (keys d) -> keys (dict_set k v d) = (keys d ++ [k])%list.
Proof.
  induction d as [| [k0 v0] d IH]; simpl; intros H; [reflexivity |].
  destruct (String.eqb_spec k0 k) as [-> | _].
  - exfalso. apply H. now left.
  - simpl. f_equal. apply IH. intros Hin. apply H. now right.
Qed.

Lemma dict_get_keys (k : string) (v : pyval) (d : dict) :
  dict_get k d = Some v -> In k (keys d).
Proof.
  induction d as [| [k0 v0] d IH]; simpl; [discriminate |].
  destruct (String.eqb_spec k0 k) as [-> | _]; auto.
Qed.

Lemma openapi_paths_items (lib : PyLib) (items : dict) :
  forall acc paths,
    NoDup (keys items) ->
    (forall k, In k (keys items) -> ~ In k (keys acc)) ->
    openapi_paths lib items acc = Ok paths ->
    keys paths = (keys acc ++ keys items)%list
    /\ (forall k spec,
           dict_get k items = Some spec ->
           exists item,
             path_item lib k spec = Ok item /\ dict_get k paths = Some item)
    /\ (forall k, ~ In k (keys items) -> dict_get k paths = dict_get k acc).
Proof.
  induction items as [| [k0 spec0] items IH]; intros acc paths Hnodup Hfresh;
    simpl.
  - intros H. inversion H; subst. rewrite app_nil_r.
    repeat split; auto. discriminate.
  - destruct (path_item lib k0 spec0) as [item |] eqn:Hitem; [| discriminate].
    intros H. inversion Hnodup as [| ? ? Hnotin Hnodup']; subst.
    assert (Hk0 : ~ In k0 (keys acc)) by (apply Hfresh; now left).
    destruct (IH (dict_set k0 item acc) paths Hnodup') as (Hkeys & Hin & Hout);
      [| exact H |].
    { intros k Hk Hacc. apply keys_dict_set_inv in Hacc as [-> | Hacc];
        [contradiction |].
      apply (Hfresh k); [now right | exact Hacc]. }
    split; [| split].
    + rewrite Hkeys, keys_dict_set_absent by assumption.
      now rewrite <- app_assoc.
    + intros k spec. destruct (String.eqb_spec k0 k) as [<- | Hne].
      * intros E. inversion E; subst. exists item. split; [exact Hitem |].
        rewrite Hout by assumption. apply dict_get_set_same.
      * apply Hin.
    + intros k Hk. rewrite Hout by (intros Hin'; apply Hk; now right).
      apply dict_get_set_other. intros <-. apply Hk. now left.
Qed.

(** X15.  Whenever [analyze] returns from a fresh analyzer, the blueprint is the
    five-key document over the analyzer it leaves, and its OpenAPI paths
    mirror the endpoints: the same keys in the same order, so a path item
    is named by the whole endpoint key, method included (such as
    [get /users]), and each holds one operation, under the lower-cased
    first word of the key, whose summary and operationId are the handler's
    name. *)
Theorem blueprint_paths_mirror_the_endpoints (lib : PyLib) (P : Project)
    (blueprint : pyval) (a' : Analyzer) :
  analyze lib P init = (Ok blueprint, a') ->
  exists paths,
    blueprint = blueprint_of lib P a' paths
    /\ keys paths = keys (api_specs a')
    /\ forall endpoint name file,
         dict_get endpoint (api_specs a') = Some (endpoint_entry name file) ->
         exists method,
           PyStr.split_first endpoint = Some method
           /\ dict_get endpoint paths
              = Some (operation (PyStr.lower method) name).
Proof.
  rewrite analyze_extraction. unfold bind.
  destruct (uniform_extraction lib P) as (r & e & He). rewrite He.
  destruct r as [[] | err]; [| discriminate].
  unfold _generate_blueprint.
  destruct (openapi_paths lib (api_specs (run_effect e init)) [])
    as [paths |] eqn:Hpaths; [| discriminate].
  intros H. inversion H; subst. clear H. exists paths.
  assert (Hnodup : NoDup (keys (api_specs (run_effect e init))))
    by (simpl; apply nodup_store_all; constructor).
  destruct (openapi_paths_items lib (api_specs (run_effect e init)) [] paths
              Hnodup (fun k _ H => H) Hpaths) as (Hkeys & Hin & _).
  - split; [reflexivity |]. split; [exact Hkeys |].
    intros endpoint name file Hget.
    destruct (Hin endpoint _ Hget) as (item & Hitem & Hitem').
    unfold path_item in Hitem.
    destruct (PyStr.split_first endpoint) as [method |]; [| discriminate].
    exists method. split; [reflexivity |].
    simpl in Hitem. inversion Hitem; subst. exact Hitem'.
Qed.

Lemma blueprint_paths_mirror_the_endpoints_witness :
  exists paths,
    fst (analyze Api.lib Api.tree init)
    = Ok (blueprint_of Api.lib Api.tree
            (snd (analyze Api.lib Api.tree init)) paths)
    /\ keys paths = ["get /users"]
    /\ dict_get "get /users" paths = Some (operation "get" "list_users").
Proof.
  destruct (analyze Api.lib Api.tree init) as [[blueprint | e] a'] eqn:E;
    [| discriminate E].
  destruct (blueprint_paths_mirror_the_endpoints Api.lib Api.tree blueprint
              a' E) as (paths & Hb & Hkeys & Hitems).
  exists paths.
  pose proof (f_equal snd E) as Ea. vm_compute in Ea. subst a'.
  split; [simpl; now f_equal |]. split; [exact Hkeys |].
  destruct (Hitems "get /users" "list_users" "api/routes.py" eq_refl)
    as (method & Hm & Hget).
  inversion Hm; subst. exact Hget.
Defined.

(** ** Where the entries come from *)

(** X16.  The endpoint pass records nothing but route decorators: every key it
    leaves in [api_specs] was there before, or is the key of a decorator
    call, with a callee whose text contains one of the route names and a
    path that evaluates, on a function definition of a matched file.  A
    function without such a decorator, a decorator that is no call, and an
    [async def] leave no entry. *)
Theorem endpoint_keys_come_from_route_decorators (lib : PyLib) (P : Project)
    (a : Analyzer) (r : result unit) (a' : Analyzer) (key : string) :
  _find_api_endpoints lib P a = (r, a') ->
  In key (keys (api_specs a')) ->
  In key (keys (api_specs a))
  \/ exists f name func route,
       route_decorator lib P (flat_map (glob P) api_patterns) f name func
         route
       /\ key = endpoint_key lib func route.
Proof.
  intros Hrun Hkey.
  change (_find_api_endpoints lib P)
    with (for_each (flat_map (glob P) api_patterns)
            (tree_file_pass lib P (endpoint_node lib))) in Hrun.
  set (files := flat_map (glob P) api_patterns) in *.
  set (I := fun x : Analyzer =>
              forall k, In k (keys (api_specs x)) ->
                        In k (keys (api_specs a))
                        \/ exists f name func route,
                             route_decorator lib P files f name func route
                             /\ k = endpoint_key lib func route).
  assert (Hstable : forall f n, visited lib P files f n ->
                                preserves I (endpoint_node lib f n)).
  { intros f n Hv. destruct n as [| | name body ds | |];
      try apply preserves_ret.
    apply endpoint_node_preserves. intros func args route Hin Hcallee Hroute.
    intros b r0 b' E Ib k Hk. inversion E; subst. simpl in Hk.
    apply keys_dict_set_inv in Hk as [-> | Hk]; [| now apply Ib].
    right. exists f, name, func, route. split; [| reflexivity].
    now exists body, ds, args. }
  apply (tree_pass_preserves lib P (endpoint_node lib) I files Hstable files
           (incl_refl _) a r a' Hrun); [| exact Hkey].
  intros k Hk. now left.
Qed.

Lemma endpoint_keys_come_from_route_decorators_witness :
  In "get /users" (keys (api_specs init))
  \/ exists f name func route,
       route_decorator Api.lib Api.tree
         (flat_map (glob Api.tree) api_patterns) f name func route
       /\ "get /users" = endpoint_key Api.lib func route.
Proof.
  apply (endpoint_keys_come_from_route_decorators Api.lib Api.tree init
           (Ok tt) (snd (_find_api_endpoints Api.lib Api.tree init))).
  - reflexivity.
  - simpl. now left.
Defined.

Lemma component_file_pass_components (P : Project) (p : path) (a : Analyzer)
    (r : result unit) (a' : Analyzer) :
  component_file_pass P p a = (r, a') ->
  frontend_components a' = frontend_components a
  \/ (component_file P p
      /\ frontend_components a' =
           dict_set (Path.stem p) (component_entry p) (frontend_components a)).
Proof.
  unfold component_file_pass, open, read, bind, try_continue, ret, raise.
  destruct (String.eqb (Path.suffix p) ".tsx"
            || String.eqb (Path.suffix p) ".jsx") eqn:Eext.
  - destruct (file_at P p) as [| | | content] eqn:Efile; simpl;
      try (intros H; inversion H; subst; now left).
    destruct (PyStr.contains "export default" content
              || PyStr.contains "React.FC" content) eqn:Ecomp; simpl;
      [| intros H; inversion H; subst; now left].
    assert (Hc : component_file P p).
    { exists content. split; [exact Efile |]. left. split.
      - apply orb_true_iff in Eext as [E | E]; apply String.eqb_eq in E; auto.
      - now apply orb_true_iff in Ecomp. }
    destruct (PyStr.contains "Route" content
              || PyStr.contains "Routes" content); simpl;
      intros H; inversion H; subst; right; now split.
  - destruct (String.eqb_spec (Path.suffix p) ".vue") as [Evue | _].
    + destruct (file_at P p) as [| | | content] eqn:Efile; simpl;
        try (intros H; inversion H; subst; now left).
      destruct (PyStr.contains "<template>" content) eqn:Etpl; simpl;
        intros H; inversion H; subst; [right | now left].
      split; [| reflexivity]. exists content. split; [exact Efile |].
      right. now split.
    + intros H; inversion H; subst; now left.
Qed.

Lemma for_each_components (P : Project) (files l : list path) :
  incl l files ->
  forall a r a',
    for_each l (component_file_pass P) a = (r, a') ->
    forall k,
      In k (keys (frontend_components a')) ->
      In k (keys (frontend_components a))
      \/ exists p, In p files /\ component_file P p /\ k = Path.stem p.
Proof.
  induction l as [| p l IH]; intros Hl a r a' H k Hk.
  - inversion H; subst. now left.
  - simpl in H. unfold bind in H.
    assert (Hp : In p files) by (apply Hl; now left).
    assert (Hone : forall r1 a1,
               component_file_pass P p a = (r1, a1) ->
               In k (keys (frontend_components a1)) ->
               In k (keys (frontend_components a))
               \/ exists q, In q files /\ component_file P q
                            /\ k = Path.stem q).
    { intros r1 a1 E Hin.
      destruct (component_file_pass_components P p a r1 a1 E)
        as [Eq | [Hc Eq]]; rewrite Eq in Hin; [now left |].
      apply keys_dict_set_inv in Hin as [-> | Hin]; [| now left].
      right. now exists p. }
    destruct (component_file_pass P p a) as [[[] | e] a1] eqn:E.
    + destruct (IH (fun q Hq => Hl q (or_intror Hq)) a1 r a' H k Hk)
        as [Hin | Hex]; [| now right].
      now apply (Hone (Ok tt) a1).
    + inversion H; subst. now apply (Hone (Err e) a').
Qed.

(** X17.  The frontend pass records nothing but component files: every name it
    leaves in [frontend_components] was there before, or is the stem of a
    matched file that decodes and is a [.tsx] or [.jsx] file with
    [export default] or [React.FC] in its text, or a [.vue] file with
    [<template>]. *)
Theorem component_names_come_from_component_files (P : Project)
    (a : Analyzer) (r : result unit) (a' : Analyzer) (k : string) :
  _find_frontend_components P a = (r, a') ->
  In k (keys (frontend_components a')) ->
  In k (keys (frontend_components a))
  \/ exists p,
       In p (flat_map (glob P) frontend_patterns)
       /\ component_file P p /\ k = Path.stem p.
Proof.
  intros H Hk.
  now apply (for_each_components P _ _ (incl_refl _) a r a' H k Hk).
Qed.

Lemma component_names_come_from_component_files_witness :
  In "Card" (keys (frontend_components init))
  \/ exists p,
       In p (flat_map (glob Twins.tree) frontend_patterns)
       /\ component_file Twins.tree p /\ "Card" = Path.stem p.
Proof.
  apply (component_names_come_from_component_files Twins.tree init (Ok tt)
           (snd (_find_frontend_components Twins.tree init))).
  - reflexivity.
  - simpl. right. now left.
Defined.

(** X18.  The dependency pass writes under [npm], [pip] and [poetry] only: every
    other key of [dependencies] keeps its value, whether the pass returns
    or raises. *)
Theorem dependency_pass_writes_three_keys (lib : PyLib) (P : Project)
    (k : string) (a : Analyzer) (r : result unit) (a' : Analyzer) :
  k <> "npm" -> k <> "pip" -> k <> "poetry" ->
  _find_dependencies lib P a = (r, a') ->
  dict_get k (dependencies a') = dict_get k (dependencies a).
Proof.
  intros Hnpm Hpip Hpoetry Hrun.
  apply (preserves_for_each
           (fun x => dict_get k (dependencies x) = dict_get k (dependencies a))
           package_files (dependency_file lib P)) with (a := a) (r := r);
    auto.
  intros file_name _ b r0 b' E Ib.
  now rewrite (dependency_file_keeps lib P file_name k b r0 b' E).
Qed.

Lemma dependency_pass_writes_three_keys_witness :
  dict_get "cargo"
    (dependencies (snd (_find_dependencies Node.lib Node.root init)))
  = dict_get "cargo" (dependencies init).
Proof.
  apply (dependency_pass_writes_three_keys Node.lib Node.root "cargo" init
           (fst (_find_dependencies Node.lib Node.root init)));
    try discriminate.
  reflexivity.
Defined.

(** ** A route decorator that does not evaluate *)

Lemma endpoint_decorator_raises (lib : PyLib) (f : path) (name : string)
    (d : expr) (a : Analyzer) :
  decorator_evaluates lib d = false ->
  exists e, endpoint_decorator lib f name d a = (Err e, a).
Proof.
  rewrite endpoint_decorator_cases. unfold decorator_evaluates.
  destruct d as [| | func args | |]; try discriminate.
  destruct (is_route_callee lib func); [| discriminate].
  destruct (endpoint_route lib args) as [route | e]; [discriminate |].
  now exists e.
Qed.

(** X19.  A route decorator whose first positional argument [ast.literal_eval]
    refuses ends the processing of its file: the file is handled as if the
    walk had stopped at that decorator.  The endpoints of the functions met
    earlier, and of the decorators above it on the same function, stay
    recorded; the decorators below it and the functions after it are
    not. *)
Theorem failing_decorator_cuts_its_file_short (lib : PyLib) (P : Project)
    (f : path) (src : string) (tree : node) (before after : list node)
    (name : string) (body : list node) (above below : list expr) (d : expr)
    (a : Analyzer) :
  file_at P f = Text src ->
  ast_parse lib src = Some tree ->
  ast_walk tree =
    (before ++ FunctionDef name body (above ++ d :: below) :: after)%list ->
  forallb (endpoint_node_evaluates lib) before = true ->
  forallb (decorator_evaluates lib) above = true ->
  decorator_evaluates lib d = false ->
  endpoint_file_pass lib P f a =
    (for_each before (endpoint_node lib f) ;;
     for_each above (endpoint_decorator lib f name)) a
  /\ fst (endpoint_file_pass lib P f a) = Ok tt.
Proof.
  intros Hfile Hparse Hwalk Hbefore Habove Hd.
  assert (Hok : fst (for_each before (endpoint_node lib f) a) = Ok tt).
  { apply for_each_no_raise. intros x a0 Hx. apply endpoint_node_quiet.
    rewrite forallb_forall in Hbefore. now apply Hbefore. }
  destruct (for_each before (endpoint_node lib f) a) as [[[] | e1] a1] eqn:E1;
    simpl in Hok; [clear Hok | discriminate].
  assert (Hok : fst (for_each above (endpoint_decorator lib f name) a1)
                = Ok tt).
  { apply for_each_no_raise. intros x a0 Hx. apply endpoint_decorator_quiet.
    rewrite forallb_forall in Habove. now apply Habove. }
  destruct (for_each above (endpoint_decorator lib f name) a1)
    as [[[] | e2] a2] eqn:E2; simpl in Hok; [clear Hok | discriminate].
  destruct (endpoint_decorator_raises lib f name d a2 Hd) as [e He].
  assert (Hn : endpoint_node lib f
                 (FunctionDef name body (above ++ d :: below)) a1
               = (Err e, a2)).
  { simpl. rewrite for_each_app. unfold bind. rewrite E2. simpl.
    unfold bind. now rewrite He. }
  assert (Hall : for_each (ast_walk tree) (endpoint_node lib f) a
                 = (Err e, a2)).
  { rewrite Hwalk, for_each_app. unfold bind. rewrite E1.
    cbn [for_each]. unfold bind. now rewrite Hn. }
  rewrite endpoint_file_shape.
  rewrite (tree_file_pass_parsed lib P (endpoint_node lib) f src tree a)
    by assumption.
  unfold try_continue. rewrite Hall.
  unfold bind. rewrite E1, E2. now split.
Qed.

Lemma failing_decorator_cuts_its_file_short_witness :
  keys (api_specs (snd (endpoint_file_pass Handlers.lib Handlers.tree
                          ["api"; "routes.py"] init)))
  = ["route /"; "post /save"].
Proof.
  destruct (failing_decorator_cuts_its_file_short Handlers.lib Handlers.tree
              ["api"; "routes.py"] Handlers.src Handlers.parsed
              [Handlers.parsed;
               FunctionDef "index" [OtherNode []]
                 [Handlers.app "route" (Constant (PStr "/"))]]
              [FunctionDef "drop" [OtherNode []]
                 [Handlers.app "delete" (Constant (PStr "/drop"))];
               OtherNode []; OtherNode []; OtherNode []]
              "save" [OtherNode []]
              [Handlers.app "post" (Constant (PStr "/save"))] []
              (Handlers.app "put" (Name "PATH"))
              init eq_refl eq_refl eq_refl eq_refl eq_refl eq_refl) as [E _].
  rewrite E. reflexivity.
Defined.

(** ** What the blueprint is made of *)

Lemma extraction_keeps_entries (lib : PyLib) (P : Project) :
  preserves endpoints_are_entries (extraction lib P).
Proof.
  destruct (each_pass_leaves_the_other_records lib P)
    as ((S1 & _) & _ & (_ & F2 & _) & (_ & D2 & _)).
  unfold extraction.
  apply preserves_bind;
    [exact (preserves_of_leaves api_specs _ _ S1) | intros _].
  apply preserves_bind; [| intros _].
  { change (_find_api_endpoints lib P)
      with (for_each (flat_map (glob P) api_patterns)
              (tree_file_pass lib P (endpoint_node lib))).
    apply (tree_pass_preserves lib P (endpoint_node lib)
             endpoints_are_entries (flat_map (glob P) api_patterns));
      [| apply incl_refl].
    intros f n _. destruct n as [| | name body ds | |];
      try apply preserves_ret.
    apply endpoint_node_preserves. intros func args route _ _ _.
    intros a r a' E Ha. inversion E; subst.
    unfold endpoints_are_entries. simpl.
    apply forall_dict_set; [exact Ha |].
    now exists name, (Path.relative_str f). }
  apply preserves_bind;
    [exact (preserves_of_leaves api_specs _ _ F2) | intros _].
  exact (preserves_of_leaves api_specs _ _ D2).
Qed.

Lemma openapi_paths_only_text (lib : PyLib) (items : dict) :
  forall acc paths,
    Forall (fun kv => exists name file, snd kv = endpoint_entry name file)
      items ->
    Forall (fun kv => only_text (snd kv) = true) acc ->
    openapi_paths lib items acc = Ok paths ->
    Forall (fun kv => only_text (snd kv) = true) paths.
Proof.
  induction items as [| [k v] items IH]; intros acc paths Hitems Hacc; simpl.
  - intros H. now inversion H; subst.
  - inversion Hitems as [| ? ? (name & file & Hv) Hrest]; subst.
    simpl in Hv. subst v. unfold path_item.
    destruct (PyStr.split_first k) as [method |]; [| discriminate].
    simpl. apply IH; [exact Hrest |].
    apply forall_dict_set; [exact Hacc | reflexivity].
Qed.

(** X20.  Whenever [analyze] returns from a fresh analyzer, the blueprint is made
    of dictionaries and strings only, whatever the files held (the values
    of [package.json] included, which only appear rendered as text): the
    [json.dump] of the command line cannot meet a value it has no encoding
    for. *)
Theorem blueprint_holds_dicts_and_strings (lib : PyLib) (P : Project)
    (blueprint : pyval) (a' : Analyzer) :
  analyze lib P init = (Ok blueprint, a') ->
  only_text blueprint = true.
Proof.
  rewrite analyze_extraction. unfold bind.
  destruct (extraction lib P init) as [[[] | e] a1] eqn:E; [| discriminate].
  assert (Hentries : endpoints_are_entries a1).
  { apply (extraction_keeps_entries lib P init (Ok tt) a1 E). constructor. }
  unfold _generate_blueprint.
  destruct (openapi_paths lib (api_specs a1) []) as [paths |] eqn:Hpaths;
    [| discriminate].
  intros H. inversion H; subst. clear H.
  pose proof (openapi_paths_only_text lib (api_specs a') [] paths Hentries
                (Forall_nil _) Hpaths) as Htext.
  unfold blueprint_of, yaml_document. simpl. rewrite !andb_true_r.
  apply forallb_forall. intros [k v] Hin.
  rewrite Forall_forall in Htext. exact (Htext (k, v) Hin).
Qed.

Lemma blueprint_holds_dicts_and_strings_witness :
  match fst (analyze Node.lib Node.root init) with
  | Ok blueprint => only_text blueprint = true
  | Err _ => False
  end.
Proof.
  destruct (analyze Node.lib Node.root init) as [[blueprint | e] a'] eqn:E;
    [| discriminate E].
  simpl.
  exact (blueprint_holds_dicts_and_strings Node.lib Node.root blueprint a' E).
Defined.
